(** * Timetable converter (plan.py): spreadsheet grid parser and SQL emitter

    A shallow embedding of [src/plan.py] and the properties of its
    functions [normalize_time], [escape_sql], [find_weekday_columns],
    [parse_excel_to_plan] and [write_sql].

    Python values are modelled as follows.
    - [str] is a list of Unicode code points ([pystr]); all indexing,
      slicing and lengths below are per code point, as in Python.
    - [int] values that occur (list indices, row and column numbers,
      hours) are natural numbers.
    - A [dict] is an association list in insertion order, because
      [dict.items()] iterates in that order.
    - A call that may raise returns a [result]; [try]/[except] is a
      match on it.
    - The regular expressions are terms of a small regex syntax run by a
      backtracking matcher with Python's greedy priority order. *)

From Stdlib Require Import String Ascii.
From Stdlib Require Import List Bool Arith NArith Lia DecimalNat Sorted.
Import ListNotations.

(** ** Strings *)

Definition pystr := list N.

(** The empty string, which is also the text of a blank cell. *)
Definition blank : pystr := [].

Module Utf8.
(** String literals of this file are UTF-8 byte strings; [decode] gives
    the code points they denote. *)
Definition cont (a : ascii) : N := N_of_ascii a - 128.

Fixpoint decode (s : string) : pystr :=
  match s with
  | EmptyString => []
  | String a s1 =>
      let b := N_of_ascii a in
      if (b <? 128)%N then b :: decode s1
      else match s1 with
      | EmptyString => []
      | String a2 s2 =>
          if (b <? 224)%N then ((b - 192) * 64 + cont a2)%N :: decode s2
          else match s2 with
          | EmptyString => []
          | String a3 s3 =>
              if (b <? 240)%N
              then ((b - 224) * 4096 + cont a2 * 64 + cont a3)%N :: decode s3
              else match s3 with
              | EmptyString => []
              | String a4 s4 =>
                  ((b - 240) * 262144 + cont a2 * 4096
                   + cont a3 * 64 + cont a4)%N :: decode s4
              end
          end
      end
  end.
End Utf8.

Arguments Utf8.decode s%_string.

Abbreviation U := Utf8.decode.

Definition str_eqb (a b : pystr) : bool :=
  if list_eq_dec N.eq_dec a b then true else false.

Lemma str_eqb_eq a b : str_eqb a b = true <-> a = b.
Proof. unfold str_eqb. destruct (list_eq_dec N.eq_dec a b); intuition congruence. Qed.

(** Truth value of a string: [not s] holds of the empty string only. *)
Definition truthy (s : pystr) : bool :=
  match s with [] => false | _ :: _ => true end.

(** [s.startswith(p)] *)
Fixpoint startswith (s p : pystr) : bool :=
  match p, s with
  | [], _ => true
  | _ :: _, [] => false
  | a :: p', b :: s' => (a =? b)%N && startswith s' p'
  end.

(** *** Character classes of the Unicode database (version 14.0) *)

(** [str.isspace] on one character; also the class [\s] of [re] on [str]
    patterns and the set removed by [str.strip()]. *)
Definition isspace (c : N) : bool :=
  ((9 <=? c) && (c <=? 13) || (28 <=? c) && (c <=? 32)
   || (c =? 133) || (c =? 160) || (c =? 5760)
   || (8192 <=? c) && (c <=? 8202)
   || (c =? 8232) || (c =? 8233) || (c =? 8239) || (c =? 8287)
   || (c =? 12288))%N.

(** The code points of the digit zero of every decimal-digit block
    (category Nd); the nine code points after each are its digits 1..9. *)
Definition Nd_zeros : list N :=
  [48; 1632; 1776; 1984; 2406; 2534; 2662; 2790; 2918; 3046; 3174; 3302;
   3430; 3558; 3664; 3792; 3872; 4160; 4240; 6112; 6160; 6470; 6608; 6784;
   6800; 6992; 7088; 7232; 7248; 42528; 43216; 43264; 43472; 43504; 43600;
   44016; 65296; 66720; 68912; 69734; 69872; 69942; 70096; 70384; 70736;
   70864; 71248; 71360; 71472; 71904; 72016; 72784; 73040; 73120; 92768;
   92864; 93008; 120782; 120792; 120802; 120812; 120822; 123200; 123632;
   125264; 130032]%N.

(** The decimal value of a character, when it is a decimal digit. *)
Definition digit_value (c : N) : option nat :=
  match find (fun z => (z <=? c) && (c <? z + 10))%N Nd_zeros with
  | Some z => Some (N.to_nat (c - z))
  | None => None
  end.

(** The class [\d]. *)
Definition isdigit (c : N) : bool :=
  match digit_value c with Some _ => true | None => false end.

(** Simple lower-case mappings as ranges [(first, last, step, image of
    first)]: a code point [c] of a range with [step] dividing [c - first]
    maps to [image + (c - first)]. *)
Definition lower_ranges : list (N * N * N * N) :=
 [
  (65, 90, 1, 97); (192, 214, 1, 224); (216, 222, 1, 248);
  (256, 302, 2, 257); (306, 310, 2, 307); (313, 327, 2, 314);
  (330, 374, 2, 331); (376, 376, 1, 255); (377, 381, 2, 378);
  (385, 385, 1, 595); (386, 388, 2, 387); (390, 390, 1, 596);
  (391, 391, 1, 392); (393, 394, 1, 598); (395, 395, 1, 396);
  (398, 398, 1, 477); (399, 399, 1, 601); (400, 400, 1, 603);
  (401, 401, 1, 402); (403, 403, 1, 608); (404, 404, 1, 611);
  (406, 406, 1, 617); (407, 407, 1, 616); (408, 408, 1, 409);
  (412, 412, 1, 623); (413, 413, 1, 626); (415, 415, 1, 629);
  (416, 420, 2, 417); (422, 422, 1, 640); (423, 423, 1, 424);
  (425, 425, 1, 643); (428, 428, 1, 429); (430, 430, 1, 648);
  (431, 431, 1, 432); (433, 434, 1, 650); (435, 437, 2, 436);
  (439, 439, 1, 658); (440, 440, 1, 441); (444, 444, 1, 445);
  (452, 452, 1, 454); (453, 453, 1, 454); (455, 455, 1, 457);
  (456, 456, 1, 457); (458, 458, 1, 460); (459, 475, 2, 460);
  (478, 494, 2, 479); (497, 497, 1, 499); (498, 500, 2, 499);
  (502, 502, 1, 405); (503, 503, 1, 447); (504, 542, 2, 505);
  (544, 544, 1, 414); (546, 562, 2, 547); (570, 570, 1, 11365);
  (571, 571, 1, 572); (573, 573, 1, 410); (574, 574, 1, 11366);
  (577, 577, 1, 578); (579, 579, 1, 384); (580, 580, 1, 649);
  (581, 581, 1, 652); (582, 590, 2, 583); (880, 882, 2, 881);
  (886, 886, 1, 887); (895, 895, 1, 1011); (902, 902, 1, 940);
  (904, 906, 1, 941); (908, 908, 1, 972); (910, 911, 1, 973);
  (913, 929, 1, 945); (931, 939, 1, 963); (975, 975, 1, 983);
  (984, 1006, 2, 985); (1012, 1012, 1, 952); (1015, 1015, 1, 1016);
  (1017, 1017, 1, 1010); (1018, 1018, 1, 1019); (1021, 1023, 1, 891);
  (1024, 1039, 1, 1104); (1040, 1071, 1, 1072); (1120, 1152, 2, 1121);
  (1162, 1214, 2, 1163); (1216, 1216, 1, 1231); (1217, 1229, 2, 1218);
  (1232, 1326, 2, 1233); (1329, 1366, 1, 1377); (4256, 4293, 1, 11520);
  (4295, 4295, 1, 11559); (4301, 4301, 1, 11565); (5024, 5103, 1, 43888);
  (5104, 5109, 1, 5112); (7312, 7354, 1, 4304); (7357, 7359, 1, 4349);
  (7680, 7828, 2, 7681); (7838, 7838, 1, 223); (7840, 7934, 2, 7841);
  (7944, 7951, 1, 7936); (7960, 7965, 1, 7952); (7976, 7983, 1, 7968);
  (7992, 7999, 1, 7984); (8008, 8013, 1, 8000); (8025, 8031, 2, 8017);
  (8040, 8047, 1, 8032); (8072, 8079, 1, 8064); (8088, 8095, 1, 8080);
  (8104, 8111, 1, 8096); (8120, 8121, 1, 8112); (8122, 8123, 1, 8048);
  (8124, 8124, 1, 8115); (8136, 8139, 1, 8050); (8140, 8140, 1, 8131);
  (8152, 8153, 1, 8144); (8154, 8155, 1, 8054); (8168, 8169, 1, 8160);
  (8170, 8171, 1, 8058); (8172, 8172, 1, 8165); (8184, 8185, 1, 8056);
  (8186, 8187, 1, 8060); (8188, 8188, 1, 8179); (8486, 8486, 1, 969);
  (8490, 8490, 1, 107); (8491, 8491, 1, 229); (8498, 8498, 1, 8526);
  (8544, 8559, 1, 8560); (8579, 8579, 1, 8580); (9398, 9423, 1, 9424);
  (11264, 11311, 1, 11312); (11360, 11360, 1, 11361); (11362, 11362, 1, 619);
  (11363, 11363, 1, 7549); (11364, 11364, 1, 637); (11367, 11371, 2, 11368);
  (11373, 11373, 1, 593); (11374, 11374, 1, 625); (11375, 11375, 1, 592);
  (11376, 11376, 1, 594); (11378, 11378, 1, 11379); (11381, 11381, 1, 11382);
  (11390, 11391, 1, 575); (11392, 11490, 2, 11393); (11499, 11501, 2, 11500);
  (11506, 11506, 1, 11507); (42560, 42604, 2, 42561);
  (42624, 42650, 2, 42625); (42786, 42798, 2, 42787);
  (42802, 42862, 2, 42803); (42873, 42875, 2, 42874);
  (42877, 42877, 1, 7545); (42878, 42886, 2, 42879);
  (42891, 42891, 1, 42892); (42893, 42893, 1, 613); (42896, 42898, 2, 42897);
  (42902, 42920, 2, 42903); (42922, 42922, 1, 614); (42923, 42923, 1, 604);
  (42924, 42924, 1, 609); (42925, 42925, 1, 620); (42926, 42926, 1, 618);
  (42928, 42928, 1, 670); (42929, 42929, 1, 647); (42930, 42930, 1, 669);
  (42931, 42931, 1, 43859); (42932, 42946, 2, 42933);
  (42948, 42948, 1, 42900); (42949, 42949, 1, 642); (42950, 42950, 1, 7566);
  (42951, 42953, 2, 42952); (42960, 42960, 1, 42961);
  (42966, 42968, 2, 42967); (42997, 42997, 1, 42998);
  (65313, 65338, 1, 65345); (66560, 66599, 1, 66600);
  (66736, 66771, 1, 66776); (66928, 66938, 1, 66967);
  (66940, 66954, 1, 66979); (66956, 66962, 1, 66995);
  (66964, 66965, 1, 67003); (68736, 68786, 1, 68800);
  (71840, 71871, 1, 71872); (93760, 93791, 1, 93792);
  (125184, 125217, 1, 125218)
 ]%N.

Definition lower_char (c : N) : pystr :=
  if (c =? 304)%N then [105; 775]%N
  else
    match find (fun '(a, b, st, _) =>
                  (a <=? c) && (c <=? b) && ((c - a) mod st =? 0))%N
               lower_ranges with
    | Some (a, _, _, t) => [(t + (c - a))%N]
    | None => [c]
    end.

(** [s.lower()].  One deviation: Python maps a capital sigma (U+03A3) in
    word-final position to the final small sigma; here it always maps to
    the ordinary small sigma.  No sigma occurs in a weekday name. *)
Definition lower (s : pystr) : pystr := flat_map lower_char s.

(** Title case of the first character, for [capitalize]: exact on the
    Basic Latin letters and on the Latin Extended-A pairs; other
    characters are left as they are.  [capitalize] is only applied to the
    entries of [WEEKDAYS]. *)
Definition title_char (c : N) : N :=
  if ((97 <=? c) && (c <=? 122))%N then (c - 32)%N
  else if ((257 <=? c) && (c <=? 303) || (307 <=? c) && (c <=? 311)
           || (331 <=? c) && (c <=? 375))%N
  then (if N.odd c then c - 1 else c)%N
  else if ((314 <=? c) && (c <=? 328) || (378 <=? c) && (c <=? 382))%N
  then (if N.even c then c - 1 else c)%N
  else c.

(** [s.capitalize()] *)
Definition capitalize (s : pystr) : pystr :=
  match s with
  | [] => []
  | c :: s' => title_char c :: lower s'
  end.

(** [s.strip()] *)
Fixpoint lstrip (s : pystr) : pystr :=
  match s with
  | c :: s' => if isspace c then lstrip s' else s
  | [] => []
  end.

Definition rstrip (s : pystr) : pystr := rev (lstrip (rev s)).

Definition strip (s : pystr) : pystr := rstrip (lstrip s).

(** [s.replace(a, b)] for a one-character [a]. *)
Definition replace_char (a : N) (b : pystr) (s : pystr) : pystr :=
  flat_map (fun c => if (c =? a)%N then b else [c]) s.

(** *** Numbers and text *)

Fixpoint uint_digits (d : Decimal.uint) : pystr :=
  match d with
  | Decimal.Nil => []
  | Decimal.D0 d => 48 :: uint_digits d
  | Decimal.D1 d => 49 :: uint_digits d
  | Decimal.D2 d => 50 :: uint_digits d
  | Decimal.D3 d => 51 :: uint_digits d
  | Decimal.D4 d => 52 :: uint_digits d
  | Decimal.D5 d => 53 :: uint_digits d
  | Decimal.D6 d => 54 :: uint_digits d
  | Decimal.D7 d => 55 :: uint_digits d
  | Decimal.D8 d => 56 :: uint_digits d
  | Decimal.D9 d => 57 :: uint_digits d
  end%N.

(** [str(n)], also [f"{n}"], of a non-negative [int]. *)
Definition str_int (n : nat) : pystr := uint_digits (Nat.to_uint n).

(** [f"{n:02d}"] *)
Definition format_02d (n : nat) : pystr :=
  let d := str_int n in repeat 48%N (2 - length d) ++ d.

(** [int(s)] on a string of decimal digits (the only strings it is
    applied to here are matches of [\d{1,2}]). *)
Definition int (s : pystr) : nat :=
  fold_left (fun acc c =>
               10 * acc + match digit_value c with Some d => d | None => 0 end)
            s 0.

(** ** Regular expressions *)

(** The fragment of Python's [re] syntax that the program uses.  A
    repetition applies to a character class; all repetitions are greedy. *)
Inductive regex : Type :=
| Bol                                              (* ^ *)
| Eol                                              (* $ *)
| Cls (p : N -> bool)                              (* a class, once *)
| Rep (p : N -> bool) (lo : nat) (hi : option nat) (* class{lo,hi} *)
| Grp (r : regex)                                  (* ( ... ) *)
| Cat (r1 r2 : regex).

Infix ";;" := Cat (at level 60, right associativity).

Definition star p := Rep p 0 None.
Definition plus p := Rep p 1 None.
Definition between lo hi p := Rep p lo (Some hi).

(** A one-character string literal as a code point. *)
Definition ch (s : string) : N := hd 0%N (U s).

Definition LF : N := 10.
Definition CR : N := 13.

Definition is_ (c : N) : N -> bool := N.eqb c.
Definition any_of (ps : list (N -> bool)) : N -> bool :=
  fun c => existsb (fun p => p c) ps.
Definition none_of (ps : list (N -> bool)) : N -> bool :=
  fun c => negb (any_of ps c).

Module Re.
(** Matching in continuation-passing style: [run r i s gs k] matches [r]
    at offset [i], where [s] is the text from [i] on and [gs] the groups
    closed so far, and hands the rest to [k].  Alternatives are tried in
    Python's priority order (longest repetition first), and the first
    one on which the continuation succeeds wins. *)
Section Run.
Variable A : Type.

Fixpoint rep (p : N -> bool) (lo : nat) (hi : option nat) (i : nat)
         (s : pystr) (k : nat -> pystr -> option A) {struct s}
  : option A :=
  let stop := match lo with O => k i s | S _ => None end in
  match s with
  | c :: s' =>
      if p c && negb (match hi with Some O => true | _ => false end)
      then match rep p (pred lo) (option_map pred hi) (S i) s' k with
           | Some a => Some a
           | None => stop
           end
      else stop
  | [] => stop
  end.

Fixpoint run (r : regex) (i : nat) (s : pystr) (gs : list pystr)
         (k : nat -> pystr -> list pystr -> option A) : option A :=
  match r with
  | Bol => if i =? 0 then k i s gs else None
  | Eol => match s with
           | [] => k i s gs
           | [c] => if (c =? LF)%N then k i s gs else None
           | _ => None
           end
  | Cls p => match s with
             | c :: s' => if p c then k (S i) s' gs else None
             | [] => None
             end
  | Rep p lo hi => rep p lo hi i s (fun j t => k j t gs)
  | Grp r1 =>
      run r1 i s gs (fun j t gs' => k j t (gs' ++ [firstn (j - i) s]))
  | Cat r1 r2 => run r1 i s gs (fun j t gs' => run r2 j t gs' k)
  end.
End Run.

Arguments rep {A} p lo hi i s k.
Arguments run {A} r i s gs k.

(** A match object: [group(0)] and the numbered groups. *)
Record Match : Type :=
  { m_start : nat; m_end : nat; group0 : pystr; groups : list pystr }.

Definition group (m : Match) (n : nat) : pystr :=
  match n with
  | O => group0 m
  | S n' => nth n' (groups m) []
  end.

(** A match that starts at offset [i], the text from [i] on being [s]. *)
Definition match_at (r : regex) (i : nat) (s : pystr) : option Match :=
  run r i s []
      (fun j _ gs =>
         Some {| m_start := i; m_end := j;
                 group0 := firstn (j - i) s; groups := gs |}).

(** [re.match(r, s)] *)
Definition match_ (r : regex) (s : pystr) : option Match := match_at r 0 s.

(** [re.search(r, s)]: the first offset at which [r] matches. *)
Fixpoint search_from (r : regex) (i : nat) (s : pystr) : option Match :=
  match match_at r i s with
  | Some m => Some m
  | None =>
      match s with
      | [] => None
      | _ :: s' => search_from r (S i) s'
      end
  end.

Definition search (r : regex) (s : pystr) : option Match :=
  search_from r 0 s.

(** [re.sub(r, repl, s)] with a literal replacement: the matches are
    found from left to right; after an empty match one character is
    copied.  Each step either ends the scan or moves on by at least one
    character, so [S (length s)] steps are enough. *)
Fixpoint sub_from (fuel : nat) (r : regex) (repl : pystr) (i : nat)
         (s : pystr) : pystr :=
  match fuel with
  | O => s
  | S fuel' =>
      let copy :=
        match s with
        | [] => []
        | c :: s' => c :: sub_from fuel' r repl (S i) s'
        end in
      match match_at r i s with
      | Some m =>
          match m_end m - i with
          | O => repl ++ copy
          | S n => repl ++ sub_from fuel' r repl (m_end m) (skipn (S n) s)
          end
      | None => copy
      end
  end.

Definition sub (r : regex) (repl : pystr) (s : pystr) : pystr :=
  sub_from (S (length s)) r repl 0 s.
End Re.

(** ** The program *)

(** dni tygodnia *)
Definition WEEKDAYS : list pystr :=
  [U "poniedziałek"; U "wtorek"; U "środa"; U "czwartek"; U "piątek"].

Definition dash : N -> bool := any_of [is_ (ch "-"); is_ (ch "–")].

(** [^\s*([^\s–-]+)\s*[-–]\s*\d{1,2}\.\d{1,2}\.\d{2,4}] *)
Definition HEADER_CLASS_RE : regex :=
  Bol ;; star isspace ;; Grp (plus (none_of [isspace; dash])) ;;
  star isspace ;; Cls dash ;; star isspace ;;
  between 1 2 isdigit ;; Cls (is_ (ch ".")) ;;
  between 1 2 isdigit ;; Cls (is_ (ch ".")) ;;
  between 2 4 isdigit.

(** [\d{1,2}:\d{2}] *)
Definition HH_MM : regex :=
  between 1 2 isdigit ;; Cls (is_ (ch ":")) ;; between 2 2 isdigit.

(** [(\d{1,2}:\d{2})\s*[-–]\s*(\d{1,2}:\d{2})] *)
Definition TIME_RE : regex :=
  Grp HH_MM ;; star isspace ;; Cls dash ;; star isspace ;; Grp HH_MM.

(** [^(\d{1,2}):(\d{2})$], the pattern of [normalize_time] *)
Definition NORMALIZE_RE : regex :=
  Bol ;; Grp (between 1 2 isdigit) ;; Cls (is_ (ch ":")) ;;
  Grp (between 2 2 isdigit) ;; Eol.

(** Normalizacja godziny do formatu HH:MM:00 *)
Definition normalize_time (t : pystr) : option pystr :=
  if negb (truthy t) then None
  else
    match Re.match_ NORMALIZE_RE (strip t) with
    | None => None
    | Some m =>
        Some (format_02d (int (Re.group m 1)) ++ U ":" ++ Re.group m 2
              ++ U ":00")
    end.

(** Przygotuj string do SQL (podwójne apostrofy, bez nowych linii).  The
    argument is [None] or a string. *)
Definition escape_sql (s : option pystr) : pystr :=
  match s with
  | None => []
  | Some s =>
      let s := strip (replace_char CR (U " ") (replace_char LF (U " ") s)) in
      let s := Re.sub (plus isspace) (U " ") s in
      replace_char (ch "'") (U "''") s
  end.

(** A [dict] with [int] keys, in insertion order. *)
Definition dict := list (nat * pystr).

(** [d[k] = v]: an existing key keeps its place. *)
Fixpoint dict_set (d : dict) (k : nat) (v : pystr) : dict :=
  match d with
  | [] => [(k, v)]
  | (k', v') :: d' =>
      if k' =? k then (k, v) :: d' else (k', v') :: dict_set d' k v
  end.

Definition dict_get (d : dict) (k : nat) : option pystr :=
  option_map snd (find (fun kv => fst kv =? k) d).

(** The inner loop of [find_weekday_columns]: the first weekday [wd] with
    [wd == cell_clean or cell_clean.startswith(wd[:3])]. *)
Definition match_weekday (cell_clean : pystr) : option pystr :=
  find (fun wd => str_eqb wd cell_clean
                  || startswith cell_clean (firstn 3 wd)) WEEKDAYS.

Fixpoint weekday_loop (idx : nat) (row_values : list pystr) (mapping : dict)
  : dict :=
  match row_values with
  | [] => mapping
  | cell :: rest =>
      if negb (truthy cell) then weekday_loop (S idx) rest mapping
      else
        let cell_clean := lower (strip cell) in
        match match_weekday cell_clean with
        | Some wd =>
            weekday_loop (S idx) rest (dict_set mapping idx (capitalize wd))
        | None => weekday_loop (S idx) rest mapping
        end
  end.

(** Wyszukuje kolumny z dniami tygodnia *)
Definition find_weekday_columns (row_values : list pystr) : dict :=
  let mapping := weekday_loop 0 row_values [] in
  if 3 <=? length mapping then mapping else [].

(** The outcome of a call that may raise; [msg] is [str(e)]. *)
Inductive result (A : Type) : Type :=
| Ok (a : A)
| Raise (msg : pystr).

Arguments Ok {A} a.
Arguments Raise {A} msg.

(** One record of the plan: the dictionary with the keys [klasa],
    [dzien], [start], [end], [przedmiot], [sheet], [row], [col]. *)
Record entry : Type :=
  { klasa : pystr; dzien : pystr; start : pystr; end_ : pystr;
    przedmiot : pystr; sheet : pystr; row : nat; col : nat }.

(** A sheet read with [header=None, dtype=object]; each row is the list
    of its cells as strings, a missing cell being the empty string (what
    [fillna], [astype(str)] and [tolist] make of [df.iloc[i]]). *)
Definition DataFrame := list (list pystr).

(** An opened workbook: the sheet names in order, each with the outcome
    of [xls.parse(sheetname, ...)]. *)
Definition ExcelFile := list (pystr * result DataFrame).

(** The variables of [parse_excel_to_plan]; [log] collects the arguments
    of the calls of [log_append]. *)
Record vars : Type :=
  { current_class : option pystr; weekday_cols : dict;
    plan : list entry; errors : list pystr; log : list pystr }.

Definition set_class (c : option pystr) (st : vars) : vars :=
  {| current_class := c; weekday_cols := weekday_cols st;
     plan := plan st; errors := errors st; log := log st |}.

Definition set_cols (d : dict) (st : vars) : vars :=
  {| current_class := current_class st; weekday_cols := d;
     plan := plan st; errors := errors st; log := log st |}.

Definition plan_append (e : entry) (st : vars) : vars :=
  {| current_class := current_class st; weekday_cols := weekday_cols st;
     plan := plan st ++ [e]; errors := errors st; log := log st |}.

Definition errors_append (e : pystr) (st : vars) : vars :=
  {| current_class := current_class st; weekday_cols := weekday_cols st;
     plan := plan st; errors := errors st ++ [e]; log := log st |}.

Definition log_append (s : pystr) (st : vars) : vars :=
  {| current_class := current_class st; weekday_cols := weekday_cols st;
     plan := plan st; errors := errors st; log := log st ++ [s] |}.

(** [for col_idx, cell in enumerate(row): m = f(cell); if m: ...; break] *)
Fixpoint first_match (f : pystr -> option Re.Match) (col_idx : nat)
         (cells : list pystr) : option (nat * Re.Match) :=
  match cells with
  | [] => None
  | cell :: rest =>
      match f cell with
      | Some m => Some (col_idx, m)
      | None => first_match f (S col_idx) rest
      end
  end.

(** [str(d)] of a dictionary whose values are capitalized weekday names
    (they contain no quote, backslash or unprintable character). *)
Fixpoint join (sep : pystr) (l : list pystr) : pystr :=
  match l with
  | [] => []
  | [x] => x
  | x :: l' => x ++ sep ++ join sep l'
  end.

Definition str_dict (d : dict) : pystr :=
  U "{" ++ join (U ", ")
                (map (fun kv => str_int (fst kv) ++ U ": '" ++ snd kv ++ U "'")
                     d)
  ++ U "}".

Definition opt_truthy (s : option pystr) : bool :=
  match s with Some s => truthy s | None => false end.

Definition dict_truthy (d : dict) : bool :=
  match d with [] => false | _ :: _ => true end.

(** dodajemy przedmioty *)
Fixpoint add_subjects (sheetname : pystr) (i : nat) (cells : list pystr)
         (class_ start_ end__ : pystr) (items : dict) (st : vars) : vars :=
  match items with
  | [] => st
  | (col_idx, weekday) :: rest =>
      let st' :=
        match nth_error cells col_idx with
        | None => st
        | Some cell =>
            let subj := strip cell in
            if truthy subj
            then plan_append
                   {| klasa := class_; dzien := weekday; start := start_;
                      end_ := end__; przedmiot := escape_sql (Some subj);
                      sheet := sheetname; row := i + 1; col := col_idx + 1 |}
                   st
            else st
        end in
      add_subjects sheetname i cells class_ start_ end__ rest st'
  end.

Definition bracket (sheetname : pystr) : pystr := U "[" ++ sheetname ++ U "] ".

(** 1) Nagłówek klasy *)
Definition class_header (sheetname : pystr) (i : nat) (cells : list pystr)
           (st : vars) : vars :=
  match first_match (Re.match_ HEADER_CLASS_RE) 0 cells with
  | Some (_, m) =>
      let c := Re.group m 1 in
      set_cols []
        (log_append (bracket sheetname ++ U "Znaleziono klasę '" ++ c
                     ++ U "' w wierszu " ++ str_int (i + 1))
           (set_class (Some c) st))
  | None => st
  end.

(** 3) Wiersze z godzinami *)
Definition time_row (sheetname : pystr) (i : nat) (cells : list pystr)
           (st : vars) : vars :=
  match first_match (Re.search TIME_RE) 0 cells with
  | None => st
  | Some (_, time_match) =>
      let where_ := bracket sheetname ++ U "Wiersz " ++ str_int (i + 1) in
      let st :=
        if opt_truthy (current_class st) then st
        else errors_append
               (where_
                ++ U ": godziny znalezione, ale brak klasy → ustawiono UNKNOWN")
               (set_class (Some (U "UNKNOWN")) st) in
      if negb (dict_truthy (weekday_cols st))
      then errors_append
             (where_ ++ U ": godziny znalezione, ale brak dni tygodnia") st
      else
        let start_ := normalize_time (Re.group time_match 1) in
        let end__ := normalize_time (Re.group time_match 2) in
        match start_, end__ with
        | Some s, Some e =>
            if truthy s && truthy e
            then add_subjects sheetname i cells
                   (match current_class st with Some c => c | None => [] end)
                   s e (weekday_cols st) st
            else errors_append
                   (where_ ++ U ": zły format godziny '"
                    ++ Re.group time_match 0 ++ U "'") st
        | _, _ =>
            errors_append
              (where_ ++ U ": zły format godziny '"
               ++ Re.group time_match 0 ++ U "'") st
        end
  end.

(** The body of [for i in range(len(df))] for row [i]. *)
Definition process_row (sheetname : pystr) (i : nat) (cells : list pystr)
           (st : vars) : vars :=
  let st := class_header sheetname i cells st in
  (* 2) Wiersz z dniami tygodnia *)
  let cand :=
    if negb (dict_truthy (weekday_cols st))
    then find_weekday_columns cells else [] in
  if negb (dict_truthy (weekday_cols st)) && dict_truthy cand
  then log_append (bracket sheetname ++ U "Dni tygodnia w wierszu "
                   ++ str_int (i + 1) ++ U ": " ++ str_dict cand)
         (set_cols cand st)
  else time_row sheetname i cells st.

Fixpoint scan_rows (sheetname : pystr) (i : nat) (df : DataFrame)
         (st : vars) : vars :=
  match df with
  | [] => st
  | cells :: rest =>
      scan_rows sheetname (S i) rest (process_row sheetname i cells st)
  end.

(** The body of [for sheetname in xls.sheet_names]. *)
Definition process_sheet (sh : pystr * result DataFrame) (st : vars) : vars :=
  let sheetname := fst sh in
  match snd sh with
  | Raise e =>
      errors_append (U "Nie można przeczytać arkusza '" ++ sheetname
                     ++ U "': " ++ e) st
  | Ok df => scan_rows sheetname 0 df (set_cols [] (set_class None st))
  end.

Definition scan_sheets (xls : ExcelFile) (st : vars) : vars :=
  fold_left (fun st sh => process_sheet sh st) xls st.

Definition initial : vars :=
  {| current_class := None; weekday_cols := []; plan := [];
     errors := []; log := [] |}.

(** Wczytuje wszystkie arkusze Excela i zwraca listę rekordów planu.
    [pd_ExcelFile] is the outcome of [pd.ExcelFile] on each path.  The
    call returns the pair [(plan, errors)]; the second component is the
    sequence of lines passed to [log_append]. *)
Definition parse_excel_to_plan (pd_ExcelFile : pystr -> result ExcelFile)
           (path : pystr)
  : result (list entry * list pystr) * list pystr :=
  match pd_ExcelFile path with
  | Raise e => (Ok ([], [U "Błąd otwarcia pliku: " ++ e]), [])
  | Ok xls =>
      let st := scan_sheets xls initial in
      (Ok (plan st, errors st), log st)
  end.

(** One [INSERT] line of [write_sql]. *)
Definition insert_line (i : nat) (r : entry) : pystr :=
  U "INSERT INTO plan (id, klasa, dzien, godzina_start, godzina_koniec, przedmiot, sheet, sheet_row, sheet_col) "
  ++ U "VALUES (" ++ str_int i ++ U ", '" ++ escape_sql (Some (klasa r))
  ++ U "', '" ++ escape_sql (Some (dzien r)) ++ U "', '" ++ start r
  ++ U "', '" ++ end_ r ++ U "', "
  ++ U "'" ++ przedmiot r ++ U "', '" ++ escape_sql (Some (sheet r))
  ++ U "', " ++ str_int (row r) ++ U ", " ++ str_int (col r) ++ U ");"
  ++ [LF].

(** [for i, r in enumerate(plan, start=1)] *)
Fixpoint insert_lines (i : nat) (rs : list entry) : list pystr :=
  match rs with
  | [] => []
  | r :: rest => insert_line i r :: insert_lines (S i) rest
  end.

(** Zapis planu do pliku SQL.  The result is the sequence of the strings
    passed to [f.write]; the file holds their concatenation.  [now] is
    [datetime.now().isoformat()]. *)
Definition write_sql (now : pystr) (rs : list entry) : list pystr :=
  [ U "-- Wygenerowano: " ++ now ++ [LF];
    U "CREATE TABLE IF NOT EXISTS plan (" ++ [LF];
    U "  id INT AUTO_INCREMENT PRIMARY KEY," ++ [LF];
    U "  klasa VARCHAR(50)," ++ [LF];
    U "  dzien VARCHAR(20)," ++ [LF];
    U "  godzina_start TIME," ++ [LF];
    U "  godzina_koniec TIME," ++ [LF];
    U "  przedmiot VARCHAR(500)," ++ [LF];
    U "  sheet VARCHAR(100)," ++ [LF];
    U "  sheet_row INT," ++ [LF];
    U "  sheet_col INT" ++ [LF];
    U ");" ++ [LF; LF] ]
  ++ insert_lines 1 rs.

(** * Vocabulary of the statements *)

(** ** Times *)

Definition colon : N := ch ":".

(** "H:MM or HH:MM form": one or two decimal digits, a colon, two decimal
    digits, and nothing else.  The result is the hour text and the minute
    text. *)
Definition split_hmm (s : pystr) : option (pystr * pystr) :=
  match s with
  | [a; x; c; d] =>
      if isdigit a && (x =? colon)%N && isdigit c && isdigit d
      then Some ([a], [c; d]) else None
  | [a; b; x; c; d] =>
      if isdigit a && isdigit b && (x =? colon)%N && isdigit c && isdigit d
      then Some ([a; b], [c; d]) else None
  | _ => None
  end.

(** The text "HH:MM:00" for an hour text and a minute text. *)
Definition hh_mm_00 (hm : pystr * pystr) : pystr :=
  format_02d (int (fst hm)) ++ U ":" ++ snd hm ++ U ":00".

(** The value of a digit, 0 for any other character. *)
Definition dv (c : N) : nat :=
  match digit_value c with Some d => d | None => 0 end.

(** The digits 0 to 9 of Basic Latin. *)
Definition ascii_digit (c : N) : bool := ((48 <=? c) && (c <=? 57))%N.

Definition is_hmm (s : pystr) : bool :=
  match split_hmm s with Some _ => true | None => false end.

(** The (hour, minute) pair of a text in H:MM or HH:MM form: the hour as
    a number, the minute as its two characters. *)
Definition hour_of (s : pystr) : nat :=
  match split_hmm s with Some (h, _) => int h | None => 0 end.

Definition minute_of (s : pystr) : pystr :=
  match split_hmm s with Some (_, m) => m | None => [] end.

(** Exactly 8 characters: two digits 0-9, a colon, two decimal digits,
    a colon, two zeros. *)
Definition is_HH_MM_00 (out : pystr) : bool :=
  match out with
  | [h1; h2; c1; m1; m2; c2; z1; z2] =>
      ascii_digit h1 && ascii_digit h2 && (c1 =? colon)%N
      && isdigit m1 && isdigit m2 && (c2 =? colon)%N
      && (z1 =? ch "0")%N && (z2 =? ch "0")%N
  | _ => false
  end.

(** ** White space and quotes *)

(** The white-space characters, listed. *)
Definition spaces : list N :=
  [9; 10; 11; 12; 13; 28; 29; 30; 31; 32; 133; 160; 5760; 8192; 8193; 8194;
   8195; 8196; 8197; 8198; 8199; 8200; 8201; 8202; 8232; 8233; 8239; 8287;
   12288]%N.

(** The length of the longest prefix in a class. *)
Fixpoint run_len (p : N -> bool) (s : pystr) : nat :=
  match s with
  | c :: s' => if p c then S (run_len p s') else 0
  | [] => 0
  end.

(** White-space runs replaced by one space, as a scan with one flag. *)
Fixpoint squeeze (in_run : bool) (s : pystr) : pystr :=
  match s with
  | [] => []
  | c :: s' =>
      if isspace c
      then if in_run then squeeze true s' else ch " " :: squeeze true s'
      else c :: squeeze false s'
  end.

(** The single quote. *)
Definition quote : N := ch "'".

(** The white-space steps of [escape_sql], before the quotes are doubled. *)
Definition clean (s : pystr) : pystr :=
  squeeze false
    (strip (replace_char CR (U " ") (replace_char LF (U " ") s))).

(** No two adjacent characters are both white space. *)
Fixpoint space_run_free (s : pystr) : bool :=
  match s with
  | a :: s' =>
      match s' with
      | b :: _ => negb (isspace a && isspace b) && space_run_free s'
      | [] => true
      end
  | [] => true
  end.

(** Every quote is half of a pair of adjacent quotes. *)
Fixpoint quotes_paired (s : pystr) : bool :=
  match s with
  | [] => true
  | c :: s' =>
      if (c =? quote)%N
      then match s' with
           | c' :: s'' => (c' =? quote)%N && quotes_paired s''
           | [] => false
           end
      else quotes_paired s'
  end.

(** [s.replace(q, q + q)] for a character [q]. *)
Definition double (q : N) (s : pystr) : pystr := replace_char q [q; q] s.

(** The first character is white space. *)
Definition head_space (s : pystr) : bool :=
  match s with c :: _ => isspace c | [] => false end.

(** ** Weekday rows *)

(** The weekday a cell is recognized as by the loop body of
    [find_weekday_columns]. *)
Definition cell_weekday (cell : pystr) : option pystr :=
  if truthy cell then match_weekday (lower (strip cell)) else None.

(** Recognition in the words of the specification: after trim and
    lowercase, the cell equals a weekday or starts with the first three
    characters of one. *)
Definition is_weekday_cell (cell : pystr) : bool :=
  let c := lower (strip cell) in
  existsb (fun wd => str_eqb c wd || startswith c (firstn 3 wd)) WEEKDAYS.

(** The columns of a row with the weekdays recognized in them. *)
Fixpoint weekday_items (idx : nat) (row_values : list pystr) : dict :=
  match row_values with
  | [] => []
  | cell :: rest =>
      match cell_weekday cell with
      | Some wd => (idx, capitalize wd) :: weekday_items (S idx) rest
      | None => weekday_items (S idx) rest
      end
  end.

Definition keys (d : dict) : list nat := map fst d.

(** The number of cells of a row that are recognized as weekdays. *)
Definition count_weekday_cells (row_values : list pystr) : nat :=
  length (filter is_weekday_cell row_values).

(** The number of different weekdays recognized in a row. *)
Definition distinct_weekdays (row_values : list pystr) : nat :=
  length (nodup (list_eq_dec N.eq_dec)
                (flat_map (fun cell => match cell_weekday cell with
                                       | Some wd => [wd]
                                       | None => []
                                       end) row_values)).

(** A row with four recognized cells. *)
Definition weekday_row_example : list pystr :=
  [U "Pon"; blank; U "wtorek"; U "ŚR."; U "x"; U "Czw"].

(** ** Sheets *)

(** The weekday mapping is empty or has at least 3 entries. *)
Definition cols_ok (d : dict) : Prop := d = [] \/ 3 <= length d.

(** A file system on which no path can be opened. *)
Definition no_such_file : pystr -> result ExcelFile :=
  fun path => Raise (U "[Errno 2] No such file or directory: '" ++ path
                     ++ U "'").

(** A row whose only non-blank cell is the class header. *)
Definition header_row (a b : nat) : list pystr :=
  repeat blank a ++ [U "1AT - 1.09.2025"] ++ repeat blank b.

(** A weekday row in the abbreviations of the names of [WEEKDAYS], and
    one in English abbreviations. *)
Definition pon_row : list pystr :=
  [blank; U "Pon"; U "Wto"; U "Śro"; U "Czw"; U "Pią"].

Definition mon_row : list pystr :=
  [blank; U "Mon"; U "Tue"; U "Wed"; U "Thu"; U "Fri"].

(** A time row with subjects in the columns 1, 2 and 4. *)
Definition lesson_row : list pystr :=
  [U "7:10-7:55"; U "Math"; U "Physics"; blank; U "Chemistry"; blank].

(** The entry that the time row yields for a weekday and a subject in
    column [c] (counted from 1). *)
Definition lesson (sheetname weekday subject : pystr) (c : nat) : entry :=
  {| klasa := U "1AT"; dzien := weekday; start := U "07:10:00";
     end_ := U "07:55:00"; przedmiot := subject; sheet := sheetname;
     row := 3; col := c |}.

(** A file system whose workbooks have the one sheet "Arkusz1". *)
Definition one_sheet (rows : DataFrame) : pystr -> result ExcelFile :=
  fun _ => Ok [(U "Arkusz1", Ok rows)].

(** ** The script *)

Module Script.
(** Reading the script back, one written string (or one line) at a
    time. *)

Definition is_create (w : pystr) : bool :=
  startswith w (U "CREATE TABLE IF NOT EXISTS ").

Definition is_insert (w : pystr) : bool :=
  startswith w (U "INSERT INTO ").

Definition is_close (w : pystr) : bool := startswith w (U ")").

Fixpoint take_while {A} (p : A -> bool) (l : list A) : list A :=
  match l with
  | x :: l' => if p x then x :: take_while p l' else []
  | [] => []
  end.

Fixpoint drop_while {A} (p : A -> bool) (l : list A) : list A :=
  match l with
  | x :: l' => if p x then drop_while p l' else l
  | [] => []
  end.

(** The column definitions: what is written after the opening of the
    [CREATE TABLE] statement and before its closing parenthesis. *)
Definition column_defs (ws : list pystr) : list pystr :=
  take_while (fun w => negb (is_close w))
             (tl (drop_while (fun w => negb (is_create w)) ws)).

(** The name a column definition begins with. *)
Definition column_name (w : pystr) : pystr :=
  take_while (fun c => negb (isspace c)) (lstrip w).

Definition create_columns (ws : list pystr) : list pystr :=
  map column_name (column_defs ws).

Definition insert_prefix : pystr :=
  U "INSERT INTO plan (id, klasa, dzien, godzina_start, godzina_koniec, przedmiot, sheet, sheet_row, sheet_col) VALUES (".

(** The [id] of an [INSERT] statement: the number after [VALUES (]. *)
Definition insert_id (w : pystr) : option nat :=
  if startswith w insert_prefix
  then Some (int (take_while ascii_digit (skipn (length insert_prefix) w)))
  else None.
End Script.

(** The strings written before the first [INSERT]. *)
Definition preamble (now : pystr) : list pystr := write_sql now [].

(** The columns of the table [plan]. *)
Definition sql_columns : list pystr :=
  [U "id"; U "klasa"; U "dzien"; U "godzina_start"; U "godzina_koniec";
   U "przedmiot"; U "sheet"; U "sheet_row"; U "sheet_col"].

(** The content of the file: the written strings one after another. *)
Definition script_text (ws : list pystr) : pystr := concat ws.

(** [s.split("\n")]; [cur] is the current line, last character first. *)
Fixpoint lines_from (cur : pystr) (s : pystr) : list pystr :=
  match s with
  | [] => [rev cur]
  | c :: s' =>
      if (c =? LF)%N then rev cur :: lines_from [] s'
      else lines_from (c :: cur) s'
  end.

Definition lines (s : pystr) : list pystr := lines_from [] s.

(** The text holds no newline. *)
Definition no_LF (s : pystr) : bool := forallb (fun c => negb (c =? LF)%N) s.

(** The fields that [write_sql] copies into the statement as they are. *)
Definition one_line (r : entry) : bool :=
  no_LF (start r) && no_LF (end_ r) && no_LF (przedmiot r).

(** An [INSERT] line without its newline. *)
Definition insert_body (i : nat) (r : entry) : pystr :=
  removelast (insert_line i r).

Fixpoint insert_bodies (i : nat) (rs : list entry) : list pystr :=
  match rs with
  | [] => []
  | r :: rest => insert_body i r :: insert_bodies (S i) rest
  end.

(** The lines of the text written before the first [INSERT]. *)
Definition preamble_lines (now : pystr) : list pystr :=
  [ U "-- Wygenerowano: " ++ now;
    U "CREATE TABLE IF NOT EXISTS plan (";
    U "  id INT AUTO_INCREMENT PRIMARY KEY,";
    U "  klasa VARCHAR(50),";
    U "  dzien VARCHAR(20),";
    U "  godzina_start TIME,";
    U "  godzina_koniec TIME,";
    U "  przedmiot VARCHAR(500),";
    U "  sheet VARCHAR(100),";
    U "  sheet_row INT,";
    U "  sheet_col INT";
    U ");";
    blank ].

(** Every entry found so far fits on one line. *)
Definition plan_one_line (st : vars) : Prop :=
  forallb one_line (plan st) = true.

(** Two entries, and a time row and an entry with a time out of range. *)
Definition two_lessons : list entry :=
  [lesson (U "Arkusz1") (U "Poniedziałek") (U "Math") 2;
   lesson (U "Arkusz1") (U "Wtorek") (U "Physics") 3].

Definition bad_time_row : list pystr :=
  [U "99:99 - 99:99"; U "Math"; blank; blank; blank; blank].

Definition bad_lesson : entry :=
  {| klasa := U "1AT"; dzien := U "Poniedziałek"; start := U "99:99:00";
     end_ := U "99:99:00"; przedmiot := U "Math"; sheet := U "Arkusz1";
     row := 3; col := 2 |}.

(** ** Vocabulary of the further properties *)


Definition class_char (c : N) : bool := none_of [isspace; dash] c.

Definition is_class_token (c : pystr) : bool :=
  truthy c && forallb class_char c.

Record header_parts : Type :=
  { h_lead : pystr; h_token : pystr; h_gap1 : pystr; h_dash : N;
    h_gap2 : pystr; h_day : pystr; h_month : pystr; h_year : pystr;
    h_tail : pystr }.

Definition header_text (h : header_parts) : pystr :=
  h_lead h ++ h_token h ++ h_gap1 h ++ [h_dash h] ++ h_gap2 h
  ++ h_day h ++ U "." ++ h_month h ++ U "." ++ h_year h ++ h_tail h.

Definition one_or_two_digits (s : pystr) : bool :=
  forallb isdigit s && (1 <=? length s) && (length s <=? 2).

Definition header_wf (h : header_parts) : bool :=
  forallb isspace (h_lead h) && is_class_token (h_token h)
  && forallb isspace (h_gap1 h) && dash (h_dash h)
  && forallb isspace (h_gap2 h)
  && one_or_two_digits (h_day h) && one_or_two_digits (h_month h)
  && forallb isdigit (h_year h) && (length (h_year h) =? 2).

(** The state with more in front of its plan, its warnings and its log. *)
Definition prepend (p : list entry) (e l : list pystr) (st : vars) : vars :=
  {| current_class := current_class st; weekday_cols := weekday_cols st;
     plan := p ++ plan st; errors := e ++ errors st; log := l ++ log st |}.

(** The state with nothing recorded. *)
Definition fresh (st : vars) : vars :=
  {| current_class := current_class st; weekday_cols := weekday_cols st;
     plan := []; errors := []; log := [] |}.


(** What one sheet yields when it is processed alone. *)
Definition sheet_plan (sh : pystr * result DataFrame) : list entry :=
  plan (process_sheet sh initial).

Definition sheet_errors (sh : pystr * result DataFrame) : list pystr :=
  errors (process_sheet sh initial).

Definition sheet_log (sh : pystr * result DataFrame) : list pystr :=
  log (process_sheet sh initial).

(** The warning for a sheet that cannot be read. *)
Definition unreadable (sheetname e : pystr) : pystr :=
  U "Nie można przeczytać arkusza '" ++ sheetname ++ U "': " ++ e.

Definition where_ (sheetname : pystr) (i : nat) : pystr :=
  bracket sheetname ++ U "Wiersz " ++ str_int (i + 1).

(** The two warnings of a time row: no class yet, no weekday row yet. *)
Definition warn_no_class (sheetname : pystr) (i : nat) : pystr :=
  where_ sheetname i
  ++ U ": godziny znalezione, ale brak klasy → ustawiono UNKNOWN".

Definition warn_no_days (sheetname : pystr) (i : nat) : pystr :=
  where_ sheetname i ++ U ": godziny znalezione, ale brak dni tygodnia".

(** The warnings of a time row in a state with the given class and
    weekday mapping. *)
Definition time_warnings (sheetname : pystr) (i : nat)
           (c : option pystr) (d : dict) : list pystr :=
  (if opt_truthy c then [] else [warn_no_class sheetname i])
  ++ (if dict_truthy d then [] else [warn_no_days sheetname i]).

Definition has_time (cells : list pystr) : bool :=
  match first_match (Re.search TIME_RE) 0 cells with
  | Some _ => true
  | None => false
  end.

Definition has_header (cells : list pystr) : bool :=
  match first_match (Re.match_ HEADER_CLASS_RE) 0 cells with
  | Some _ => true
  | None => false
  end.

Definition time_match_example : Re.Match :=
  {| Re.m_start := 7; Re.m_end := 18; Re.group0 := U "7:10 – 7:55";
     Re.groups := [U "7:10"; U "7:55"] |}.

(** The class is known: a header was seen, or UNKNOWN was put in. *)
Definition class_known (st : vars) : bool := opt_truthy (current_class st).

(** The entry for the subject [cell] in column [col_idx] (counted from 0)
    of row [i] (counted from 0). *)
Definition subject_entry (sheetname : pystr) (i : nat) (c s e : pystr)
           (col_idx : nat) (weekday cell : pystr) : entry :=
  {| klasa := c; dzien := weekday; start := s; end_ := e;
     przedmiot := escape_sql (Some (strip cell)); sheet := sheetname;
     row := i + 1; col := col_idx + 1 |}.

(** The five capitalized weekday names. *)
Definition weekday_names : list pystr := map capitalize WEEKDAYS.

(** The entry [r] of sheet [sheetname] is backed by the grid [df]: its
    row holds a time range that normalizes to its start and end, its cell
    is not blank and gives its subject, its class is a class token and
    its weekday one of the five names. *)
Definition entry_from (sheetname : pystr) (df : DataFrame) (r : entry)
  : Prop :=
  sheet r = sheetname
  /\ is_class_token (klasa r) = true
  /\ In (dzien r) weekday_names
  /\ 1 <= row r /\ 1 <= col r
  /\ exists cells cell k m,
       nth_error df (row r - 1) = Some cells
       /\ nth_error cells (col r - 1) = Some cell
       /\ truthy (strip cell) = true
       /\ przedmiot r = escape_sql (Some (strip cell))
       /\ first_match (Re.search TIME_RE) 0 cells = Some (k, m)
       /\ normalize_time (Re.group m 1) = Some (start r)
       /\ normalize_time (Re.group m 2) = Some (end_ r).

Definition cols_named (d : dict) : Prop :=
  Forall (fun kv => In (snd kv) weekday_names) d.

Definition class_ok (c : option pystr) : Prop :=
  match c with Some c => is_class_token c = true | None => True end.

Definition scan_ok (sheetname : pystr) (df : DataFrame) (st : vars) : Prop :=
  class_ok (current_class st) /\ cols_named (weekday_cols st)
  /\ Forall (entry_from sheetname df) (plan st).

(** The last character is white space. *)
Definition last_space (s : pystr) : bool := head_space (rev s).

(** Every white-space character is the space character. *)
Definition plain_spaces (s : pystr) : bool :=
  forallb (fun c => negb (isspace c) || (c =? ch " ")%N) s.

Definition header_example : header_parts :=
  {| h_lead := U "  "; h_token := U "2bt"; h_gap1 := U " ";
     h_dash := ch "–"; h_gap2 := U " "; h_day := U "12"; h_month := U "9";
     h_year := U "25"; h_tail := U "25 (zmiana)" |}.

Definition known_state : vars := set_class (Some (U "1AT")) initial.

Definition scenario_book : ExcelFile :=
  [(U "Arkusz1", Ok [header_row 0 5; pon_row; lesson_row])].

Definition weekdays_only_state : vars :=
  set_cols (find_weekday_columns pon_row) initial.

Module Reader.
(** A reader of the [VALUES] of an [INSERT] line, with the quoting of
    standard SQL: a literal ends at a quote that is not doubled, and a
    doubled quote stands for one quote. *)

(** The body of a literal and the text after its closing quote; [s] is
    the text after the opening quote. *)
Fixpoint read_quoted (s : pystr) : option (pystr * pystr) :=
  match s with
  | [] => None
  | c :: s' =>
      if (c =? quote)%N
      then match s' with
           | c' :: s'' =>
               if (c' =? quote)%N
               then match read_quoted s'' with
                    | Some (x, rest) => Some (quote :: x, rest)
                    | None => None
                    end
               else Some ([], s')
           | [] => Some ([], [])
           end
      else match read_quoted s' with
           | Some (x, rest) => Some (c :: x, rest)
           | None => None
           end
  end.

Definition read_string (s : pystr) : option (pystr * pystr) :=
  match s with
  | c :: s' => if (c =? quote)%N then read_quoted s' else None
  | [] => None
  end.

Definition read_nat (s : pystr) : option (nat * pystr) :=
  let d := Script.take_while ascii_digit s in
  if truthy d then Some (int d, skipn (length d) s) else None.

Definition expect (lit s : pystr) : option pystr :=
  if startswith s lit then Some (skipn (length lit) s) else None.

Definition bind {A B : Type} (o : option A) (f : A -> option B) : option B :=
  match o with Some a => f a | None => None end.

(** The id and the values of an [INSERT] line. *)
Definition read_insert (w : pystr) : option (nat * entry) :=
  bind (expect Script.insert_prefix w) (fun s =>
  bind (read_nat s) (fun '(i, s) =>
  bind (expect (U ", ") s) (fun s =>
  bind (read_string s) (fun '(k, s) =>
  bind (expect (U ", ") s) (fun s =>
  bind (read_string s) (fun '(d, s) =>
  bind (expect (U ", ") s) (fun s =>
  bind (read_string s) (fun '(b, s) =>
  bind (expect (U ", ") s) (fun s =>
  bind (read_string s) (fun '(e, s) =>
  bind (expect (U ", ") s) (fun s =>
  bind (read_string s) (fun '(p, s) =>
  bind (expect (U ", ") s) (fun s =>
  bind (read_string s) (fun '(sh, s) =>
  bind (expect (U ", ") s) (fun s =>
  bind (read_nat s) (fun '(r, s) =>
  bind (expect (U ", ") s) (fun s =>
  bind (read_nat s) (fun '(c, s) =>
  if str_eqb s (U ");" ++ [LF])
  then Some (i, {| klasa := k; dzien := d; start := b; end_ := e;
                   przedmiot := p; sheet := sh; row := r; col := c |})
  else None)))))))))))))))))).
End Reader.

Import Reader.

(** The text holds no quote. *)
Definition no_quote (s : pystr) : bool :=
  forallb (fun c => negb (c =? quote)%N) s.

(** A quoted literal before the rest of a line. *)
Definition quoted (x rest : pystr) : pystr := quote :: x ++ quote :: rest.

Definition quoted_entry : entry :=
  {| klasa := U "1'a"; dzien := U "Wtorek"; start := U "08:00";
     end_ := U "08:45"; przedmiot := escape_sql (Some (U " j.  polski 'b' "));
     sheet := U "Plan  'A'"; row := 4; col := 3 |}.

(** The text holds no white space. *)
Definition space_free (s : pystr) : bool :=
  forallb (fun c => negb (isspace c)) s.

Module App.
(** [tk.DISABLED] and [tk.NORMAL] *)
Inductive button_state : Type := DISABLED | NORMAL.

(** The calls that [App.run] makes on the message boxes, the button, the
    log of the window and the output file.  [append_log s] is the call
    [self.append_log(s)]; [open_write out_path ss] is the call of
    [write_sql], which opens [out_path] for writing in order to write the
    strings [ss]. *)
Inductive call : Type :=
| showerror (title message : pystr)
| showwarning (title message : pystr)
| showinfo (title message : pystr)
| btn_run_config (state : button_state)
| log_delete
| append_log (s : pystr)
| open_write (out_path : pystr) (ss : list pystr).

(** What [App.run] reads from its surroundings: the texts of its two
    entries, the outcome of [pd.ExcelFile] on each path, the result of
    [datetime.now().isoformat()] in [write_sql], the message of the
    exception, if any, that [write_sql] raises on a path, and the text of
    [traceback.format_exc()] for an exception with a message.  The calls
    on the widgets and the message boxes return. *)
Record world : Type :=
  { entry_file : pystr;
    entry_sql : pystr;
    workbook : pystr -> result ExcelFile;
    now_isoformat : pystr;
    write_error : pystr -> option pystr;
    format_exc : pystr -> pystr }.

(** A computation that makes calls and returns or raises. *)
Definition io (A : Type) : Type := (list call * result A)%type.

Definition io_ret {A : Type} (a : A) : io A := ([], Ok a).

Definition io_raise {A : Type} (e : pystr) : io A := ([], Raise e).

Definition emit (c : call) : io unit := ([c], Ok tt).

Definition io_bind {A B : Type} (m : io A) (f : A -> io B) : io B :=
  match m with
  | (t, Ok a) => let (t', r) := f a in (t ++ t', r)
  | (t, Raise e) => (t, Raise e)
  end.

Definition io_then {B : Type} (m : io unit) (k : io B) : io B :=
  io_bind m (fun _ => k).

Infix ">>" := io_then (at level 61, right associativity).

(** [try: m except Exception as e: h e] *)
Definition try_except {A : Type} (m : io A) (h : pystr -> io A) : io A :=
  match m with
  | (t, Raise e) => let (t', r) := h e in (t ++ t', r)
  | (t, Ok a) => (t, Ok a)
  end.

(** [try: m finally: fin] *)
Definition try_finally {A : Type} (m : io A) (fin : io unit) : io A :=
  let (t, r) := m in
  match fin with
  | (t', Ok _) => (t ++ t', r)
  | (t', Raise e) => (t ++ t', Raise e)
  end.

(** [for x in l: f x] *)
Fixpoint for_each {A : Type} (l : list A) (f : A -> io unit) : io unit :=
  match l with
  | [] => io_ret tt
  | x :: l' => f x >> for_each l' f
  end.

(** The call [parse_excel_to_plan(in_path, self.append_log)]. *)
Definition parse_call (w : world) (in_path : pystr)
  : io (list entry * list pystr) :=
  let (res, lines) := parse_excel_to_plan (workbook w) in_path in
  (map append_log lines, res).

(** The call [write_sql(plan, out_path)]. *)
Definition write_sql_call (w : world) (plan : list entry) (out_path : pystr)
  : io unit :=
  emit (open_write out_path (write_sql (now_isoformat w) plan)) >>
  match write_error w out_path with
  | Some e => io_raise e
  | None => io_ret tt
  end.

(** The body of the [try] of [App.run]. *)
Definition run_try (w : world) (in_path out_path : pystr) : io unit :=
  io_bind (parse_call w in_path) (fun '(plan, errors) =>
  emit (append_log
          (U "Znaleziono " ++ str_int (length plan) ++ U " wpisów.")) >>
  match plan with
  | _ :: _ =>
      write_sql_call w plan out_path >>
      emit (append_log (U "Zapisano SQL do: " ++ out_path))
  | [] => emit (append_log (U "Brak wpisów do zapisania (plan pusty)."))
  end >>
  match errors with
  | _ :: _ =>
      emit (append_log (U "=== UWAGI ===")) >>
      for_each errors (fun e => emit (append_log (U "! " ++ e))) >>
      emit (showwarning (U "Zakończono z uwagami")
              (U "Zapisano " ++ str_int (length plan) ++ U " rekordów, "
               ++ str_int (length errors) ++ U " uwag."))
  | [] =>
      emit (showinfo (U "Sukces")
              (U "Zapisano " ++ str_int (length plan) ++ U " rekordów."))
  end).

(** The [except] of [App.run]. *)
Definition run_except (w : world) (e : pystr) : io unit :=
  emit (append_log (U "Błąd krytyczny: " ++ e)) >>
  emit (append_log (format_exc w e)) >>
  emit (showerror (U "Błąd krytyczny") (e ++ [LF] ++ U "Szczegóły w logu.")).

(** [App.run] *)
Definition run (w : world) : io unit :=
  let in_path := strip (entry_file w) in
  let out_path := strip (entry_sql w) in
  if negb (truthy in_path)
  then emit (showerror (U "Błąd") (U "Wybierz plik Excel."))
  else if negb (truthy out_path)
  then emit (showerror (U "Błąd") (U "Wybierz plik wyjściowy SQL."))
  else
    emit (btn_run_config DISABLED) >>
    emit log_delete >>
    emit (append_log (U "Start konwersji: " ++ in_path)) >>
    try_finally (try_except (run_try w in_path out_path) (run_except w))
                (emit (btn_run_config NORMAL)).

End App.

Import App.

Definition is_dialog (c : call) : bool :=
  match c with
  | showerror _ _ | showwarning _ _ | showinfo _ _ => true
  | _ => false
  end.

Definition is_config (c : call) : bool :=
  match c with btn_run_config _ => true | _ => false end.

Definition is_open_write (c : call) : bool :=
  match c with open_write _ _ => true | _ => false end.

(** The calls of a run, and the message boxes, the calls on the button and
    the calls of [write_sql] among them. *)
Definition calls (w : world) : list call := fst (run w).

Definition dialogs (w : world) : list call := filter is_dialog (calls w).

Definition configs (w : world) : list call := filter is_config (calls w).

Definition writes (w : world) : list call := filter is_open_write (calls w).

(** Both entries hold more than white space. *)
Definition paths_given (w : world) : bool :=
  truthy (strip (entry_file w)) && truthy (strip (entry_sql w)).

(** The message box at the end of a run without exception. *)
Definition summary (plan : list entry) (errors : list pystr) : call :=
  match errors with
  | _ :: _ =>
      showwarning (U "Zakończono z uwagami")
        (U "Zapisano " ++ str_int (length plan) ++ U " rekordów, "
         ++ str_int (length errors) ++ U " uwag.")
  | [] =>
      showinfo (U "Sukces")
        (U "Zapisano " ++ str_int (length plan) ++ U " rekordów.")
  end.

Definition critical (e : pystr) : call :=
  showerror (U "Błąd krytyczny") (e ++ [LF] ++ U "Szczegóły w logu.").

(** The calls that report the warnings and close a run without
    exception. *)
Definition closing (plan : list entry) (errors : list pystr) : list call :=
  match errors with
  | _ :: _ =>
      append_log (U "=== UWAGI ===")
      :: map (fun e => append_log (U "! " ++ e)) errors
  | [] => []
  end ++ [summary plan errors].

(** The calls of the [try] and the [except] after the lines of the
    parser. *)
Definition after_parse (w : world) (out_path : pystr) (plan : list entry)
           (errors : list pystr) : list call :=
  append_log (U "Znaleziono " ++ str_int (length plan) ++ U " wpisów.")
  :: match plan with
     | [] =>
         append_log (U "Brak wpisów do zapisania (plan pusty).")
         :: closing plan errors
     | _ :: _ =>
         open_write out_path (write_sql (now_isoformat w) plan)
         :: match write_error w out_path with
            | None =>
                append_log (U "Zapisano SQL do: " ++ out_path)
                :: closing plan errors
            | Some e =>
                [append_log (U "Błąd krytyczny: " ++ e);
                 append_log (format_exc w e); critical e]
            end
     end.

(** The message box of a run with both paths given. *)
Definition outcome (w : world) (plan : list entry) (errors : list pystr)
  : call :=
  match plan, write_error w (strip (entry_sql w)) with
  | _ :: _, Some e => critical e
  | _, _ => summary plan errors
  end.

(** A desk with the two entries filled in, a workbook behind every path
    and an output file that can or cannot be written. *)
Definition desk (file sql : pystr) (book : result ExcelFile)
           (err : option pystr) : world :=
  {| entry_file := file; entry_sql := sql; workbook := fun _ => book;
     now_isoformat := U "2025-09-01T08:00:00";
     write_error := fun _ => err;
     format_exc := fun e => U "Traceback: " ++ e |}.

Import Script.

(** * Properties *)

(** ** Properties of the string operations *)

Lemma lstrip_head c s r : lstrip s = c :: r -> isspace c = false.
Proof.
  induction s as [|a s IH]; simpl; [discriminate|].
  destruct (isspace a) eqn:E; [exact IH|].
  intros H; injection H as <- _; exact E.
Qed.

Lemma lstrip_suffix s : exists ws, s = ws ++ lstrip s /\ forallb isspace ws = true.
Proof.
  induction s as [|a s [ws [E F]]]; simpl.
  - exists []; auto.
  - destruct (isspace a) eqn:Ea.
    + exists (a :: ws); simpl; rewrite Ea, F. split; [congruence|reflexivity].
    + exists []; auto.
Qed.

Lemma lstrip_spaces ws s :
  forallb isspace ws = true -> lstrip (ws ++ s) = lstrip s.
Proof.
  induction ws as [|a ws IH]; simpl; [reflexivity|].
  intros H; apply andb_prop in H as [-> H]; auto.
Qed.

Lemma lstrip_id c s : isspace c = false -> lstrip (c :: s) = c :: s.
Proof. simpl; intros ->; reflexivity. Qed.

Lemma rstrip_last s r c : rstrip s = r ++ [c] -> isspace c = false.
Proof.
  unfold rstrip; intros H.
  apply (f_equal (@rev N)) in H; rewrite rev_involutive, rev_app_distr in H.
  simpl in H; eapply lstrip_head; eauto.
Qed.

Lemma strip_last s r c : strip s = r ++ [c] -> isspace c = false.
Proof. apply rstrip_last. Qed.

Lemma rstrip_spaces s ws :
  forallb isspace ws = true -> rstrip (s ++ ws) = rstrip s.
Proof.
  intros H; unfold rstrip; rewrite rev_app_distr, lstrip_spaces; auto.
  rewrite forallb_forall in *; intros x Hx; apply H, in_rev; exact Hx.
Qed.

Lemma rstrip_id s c : isspace c = false -> rstrip (s ++ [c]) = s ++ [c].
Proof.
  intros H; unfold rstrip; rewrite rev_app_distr; simpl; rewrite H.
  simpl; rewrite rev_involutive; reflexivity.
Qed.

(** Stripping a text that is padded with white space on both sides. *)
Lemma strip_padded ws1 ws2 a s b :
  forallb isspace ws1 = true -> forallb isspace ws2 = true ->
  isspace a = false -> isspace b = false ->
  strip (ws1 ++ (a :: s ++ [b]) ++ ws2) = a :: s ++ [b].
Proof.
  intros H1 H2 Ha Hb; unfold strip.
  rewrite lstrip_spaces by assumption.
  simpl app at 1. rewrite lstrip_id by assumption.
  change (a :: (s ++ [b]) ++ ws2) with ((a :: s ++ [b]) ++ ws2).
  rewrite rstrip_spaces by assumption.
  apply (rstrip_id (a :: s)); assumption.
Qed.

(** ** [normalize_time] *)

Lemma isdigit_colon x : (x =? colon)%N = true -> isdigit x = false.
Proof. intros H; apply N.eqb_eq in H; subst; reflexivity. Qed.

Lemma isdigit_LF x : (x =? LF)%N = true -> isdigit x = false.
Proof. intros H; apply N.eqb_eq in H; subst; reflexivity. Qed.

Lemma isspace_LF x : (x =? LF)%N = true -> isspace x = true.
Proof. intros H; apply N.eqb_eq in H; subst; reflexivity. Qed.

Lemma is_colon x : is_ (ch ":") x = (x =? colon)%N.
Proof. unfold is_, colon; apply N.eqb_sym. Qed.

Lemma strip_last_char s : isspace (last (strip s) 0%N) = false.
Proof.
  destruct (strip s) as [|a r] eqn:E; [reflexivity|].
  assert (Hne : a :: r <> []) by discriminate.
  destruct (exists_last Hne) as [r' [c Hc]].
  rewrite Hc, last_last. rewrite Hc in E. eapply strip_last; eauto.
Qed.

Ltac case_char x :=
  destruct (x =? colon)%N eqn:?;
  [ rewrite (isdigit_colon x) by assumption
  | destruct (isdigit x) eqn:? ].

Ltac case_LF :=
  match goal with
  | H : isspace ?x = false |- context [(?x =? LF)%N] =>
      let E := fresh in
      destruct (x =? LF)%N eqn:E;
      [ apply isspace_LF in E; congruence | ]
  end.

Lemma match_normalize s :
  isspace (last s 0%N) = false ->
  option_map Re.groups (Re.match_ NORMALIZE_RE s)
  = option_map (fun hm => [fst hm; snd hm]) (split_hmm s).
Proof.
  intros Hlast.
  unfold Re.match_, Re.match_at, NORMALIZE_RE, between.
  cbn [Re.run].
  destruct s as [|a [|b [|c [|d [|e [|f [|g s]]]]]]];
    cbn [last] in Hlast;
    cbn -[isdigit N.eqb colon LF ch is_]; rewrite ?is_colon;
    try reflexivity;
    repeat match goal with
       | x : N |- _ =>
           lazymatch goal with
           | |- context [isdigit x] => idtac
           | |- context [(x =? colon)%N] => idtac
           end;
           case_char x;
           cbn -[isdigit N.eqb colon LF ch is_]
       end;
    try reflexivity; try case_LF; reflexivity.
Qed.

Lemma normalize_time_split t :
  normalize_time t = option_map hh_mm_00 (split_hmm (strip t)).
Proof.
  unfold normalize_time.
  destruct t as [|c t]; [reflexivity|].
  cbn [truthy negb].
  generalize (match_normalize (strip (c :: t)) (strip_last_char (c :: t))).
  destruct (Re.match_ NORMALIZE_RE (strip (c :: t))) as [m|];
    destruct (split_hmm (strip (c :: t))) as [[h mi]|]; cbn [option_map];
    try discriminate; try reflexivity.
  intros H; injection H as H. unfold hh_mm_00, Re.group. rewrite H. reflexivity.
Qed.

(** *** Decimal digits *)

Lemma digit_value_lt c d : digit_value c = Some d -> d < 10.
Proof.
  unfold digit_value.
  destruct (find _ Nd_zeros) as [z|] eqn:E; [|discriminate].
  apply find_some in E as [_ E]. apply andb_prop in E as [E1 E2].
  apply N.leb_le in E1. apply N.ltb_lt in E2.
  intros H; injection H as <-. lia.
Qed.

Lemma dv_lt c : dv c < 10.
Proof.
  unfold dv. destruct (digit_value c) eqn:E; [|lia].
  eapply digit_value_lt; eauto.
Qed.

Lemma int_1 a : int [a] = dv a.
Proof. reflexivity. Qed.

Lemma int_2 a b : int [a; b] = 10 * dv a + dv b.
Proof. unfold int, dv; simpl; lia. Qed.

Lemma split_hmm_shape s h m :
  split_hmm s = Some (h, m) ->
  exists c d, m = [c; d] /\ isdigit c = true /\ isdigit d = true /\
    ((exists a, h = [a] /\ isdigit a = true /\ s = [a; colon; c; d]) \/
     (exists a b, h = [a; b] /\ isdigit a = true /\ isdigit b = true
                  /\ s = [a; b; colon; c; d])).
Proof.
  unfold split_hmm.
  destruct s as [|a [|b [|c [|d [|e [|f s]]]]]]; try discriminate.
  - destruct (isdigit a) eqn:Ea; [|discriminate].
    destruct (b =? colon)%N eqn:Eb; [|discriminate].
    destruct (isdigit c) eqn:Ec; [|discriminate].
    destruct (isdigit d) eqn:Ed; [|discriminate].
    cbn. intros H; injection H as <- <-. apply N.eqb_eq in Eb; subst b.
    exists c, d; repeat split; auto. left; exists a; auto.
  - destruct (isdigit a) eqn:Ea; [|discriminate].
    destruct (isdigit b) eqn:Eb; [|discriminate].
    destruct (c =? colon)%N eqn:Ex; [|discriminate].
    destruct (isdigit d) eqn:Ec; [|discriminate].
    destruct (isdigit e) eqn:Ed; [|discriminate].
    cbn. intros H; injection H as <- <-. apply N.eqb_eq in Ex; subst c.
    exists d, e; repeat split; auto. right; exists a, b; auto.
Qed.

Lemma split_hmm_hour s h m : split_hmm s = Some (h, m) -> int h < 100.
Proof.
  intros H. apply split_hmm_shape in H as (c & d & _ & _ & _ & [(a & -> & _)|(a & b & -> & _)]).
  - rewrite int_1. pose proof (dv_lt a); lia.
  - rewrite int_2. pose proof (dv_lt a); pose proof (dv_lt b); lia.
Qed.

(** Checking a decidable property of all numbers below a bound. *)
Lemma forall_below (P : nat -> bool) b :
  forallb P (seq 0 b) = true -> forall n, n < b -> P n = true.
Proof.
  intros H n Hn. rewrite forallb_forall in H. apply H, in_seq. lia.
Qed.

Lemma format_02d_small n :
  n < 100 ->
  exists x y, format_02d n = [x; y] /\ ascii_digit x = true
              /\ ascii_digit y = true /\ int [x; y] = n.
Proof.
  intros Hn.
  pose (P := fun n => match format_02d n with
                      | [x; y] => ascii_digit x && ascii_digit y
                                  && (int [x; y] =? n)
                      | _ => false
                      end).
  assert (H : P n = true).
  { apply (forall_below P 100); [vm_compute; reflexivity | exact Hn]. }
  unfold P in H; clear P.
  destruct (format_02d n) as [|x [|y [|z r]]]; try discriminate.
  apply andb_prop in H as [H H3]. apply andb_prop in H as [H1 H2].
  apply Nat.eqb_eq in H3. exists x, y; auto.
Qed.

Lemma hh_mm_00_shape s h m :
  split_hmm s = Some (h, m) ->
  length (hh_mm_00 (h, m)) = 8 /\ is_HH_MM_00 (hh_mm_00 (h, m)) = true
  /\ int (firstn 2 (hh_mm_00 (h, m))) = int h
  /\ firstn 2 (skipn 3 (hh_mm_00 (h, m))) = m.
Proof.
  intros H. pose proof (split_hmm_hour _ _ _ H) as Hh.
  apply split_hmm_shape in H as (c & d & -> & Hc & Hd & _).
  destruct (format_02d_small _ Hh) as (x & y & E & Hx & Hy & Hxy).
  unfold hh_mm_00; cbn [fst snd]; rewrite E.
  cbn -[int isdigit ascii_digit].
  rewrite Hx, Hy, Hc, Hd. auto.
Qed.

(** C5, as amended: on every input that is in H:MM or HH:MM form once the
    surrounding white space is stripped, [normalize_time] returns a string
    of exactly 8 characters of shape HH:MM:00, whose first two characters
    are the hour in two decimal digits and whose minute is the input's
    minute text; two such inputs have the same result exactly when they
    have the same hour and the same minute text; on every other input it
    returns no value. *)
Theorem normalize_time_hmm :
  (forall t, is_hmm (strip t) = true ->
     exists out, normalize_time t = Some out
       /\ length out = 8 /\ is_HH_MM_00 out = true
       /\ int (firstn 2 out) = hour_of (strip t)
       /\ firstn 2 (skipn 3 out) = minute_of (strip t))
  /\ (forall t1 t2,
        is_hmm (strip t1) = true -> is_hmm (strip t2) = true ->
        (normalize_time t1 = normalize_time t2 <->
         hour_of (strip t1) = hour_of (strip t2)
         /\ minute_of (strip t1) = minute_of (strip t2)))
  /\ (forall t, is_hmm (strip t) = false -> normalize_time t = None).
Proof.
  assert (A : forall t, is_hmm (strip t) = true ->
     exists out, normalize_time t = Some out
       /\ length out = 8 /\ is_HH_MM_00 out = true
       /\ int (firstn 2 out) = hour_of (strip t)
       /\ firstn 2 (skipn 3 out) = minute_of (strip t)).
  { intros t. unfold is_hmm, hour_of, minute_of.
    rewrite normalize_time_split.
    destruct (split_hmm (strip t)) as [[h m]|] eqn:E; [|discriminate].
    intros _. exists (hh_mm_00 (h, m)). split; [reflexivity|].
    exact (hh_mm_00_shape _ _ _ E). }
  split; [exact A|]. split.
  - intros t1 t2 H1 H2.
    destruct (A t1 H1) as (o1 & E1 & _ & _ & Hh1 & Hm1).
    destruct (A t2 H2) as (o2 & E2 & _ & _ & Hh2 & Hm2).
    split.
    + rewrite E1, E2. intros H; injection H as ->.
      rewrite <- Hh1, <- Hm1, <- Hh2, <- Hm2. auto.
    + unfold is_hmm, hour_of, minute_of in *.
      rewrite !normalize_time_split.
      destruct (split_hmm (strip t1)) as [[h1 m1]|]; [|discriminate].
      destruct (split_hmm (strip t2)) as [[h2 m2]|]; [|discriminate].
      intros [Hh Hm]. unfold hh_mm_00; cbn [option_map fst snd].
      rewrite Hh, Hm. reflexivity.
  - intros t. unfold is_hmm. rewrite normalize_time_split.
    destruct (split_hmm (strip t)); [discriminate|reflexivity].
Qed.

Lemma normalize_time_hmm_witness :
  exists out, normalize_time (U "  7:10 ") = Some out
    /\ length out = 8 /\ is_HH_MM_00 out = true
    /\ int (firstn 2 out) = hour_of (strip (U "  7:10 "))
    /\ firstn 2 (skipn 3 out) = minute_of (strip (U "  7:10 ")).
Proof. apply (proj1 normalize_time_hmm). reflexivity. Defined.

(** C5, as stated, fails: an input with surrounding white space is not in
    H:MM or HH:MM form, yet it has a value. *)
Lemma normalize_time_padded_input :
  is_hmm (U " 7:10") = false
  /\ normalize_time (U " 7:10") = Some (U "07:10:00").
Proof. split; reflexivity. Qed.

(** *** White space and digits *)

Lemma isspace_spaces c : isspace c = true -> In c spaces.
Proof.
  unfold isspace. rewrite !orb_true_iff, !andb_true_iff, !N.leb_le, !N.eqb_eq.
  intros H. unfold spaces. simpl In.
  assert (9 <= c <= 13 \/ 28 <= c <= 32 \/ c = 133 \/ c = 160 \/ c = 5760
          \/ 8192 <= c <= 8202 \/ c = 8232 \/ c = 8233 \/ c = 8239
          \/ c = 8287 \/ c = 12288)%N as H' by tauto.
  clear H. lia.
Qed.

Lemma space_not_digit c : isspace c = true -> isdigit c = false.
Proof.
  intros H. apply isspace_spaces in H.
  assert (F : forallb (fun c => negb (isdigit c)) spaces = true) by reflexivity.
  rewrite forallb_forall in F. apply F in H. apply negb_true_iff in H. exact H.
Qed.

Lemma digit_not_space c : isdigit c = true -> isspace c = false.
Proof.
  intros H. destruct (isspace c) eqn:E; [|reflexivity].
  apply space_not_digit in E. congruence.
Qed.

(** ** [escape_sql] *)

(** *** [re.sub(r"\s+", " ", s)] *)

Lemma run_len_le p s : run_len p s <= length s.
Proof. induction s as [|c s IH]; simpl; [lia|]. destruct (p c); simpl; lia. Qed.

(** An unbounded greedy repetition before a continuation that cannot fail
    takes the longest run. *)
Lemma rep_greedy (A : Type) p (k : nat -> pystr -> option A) :
  (forall j t, k j t <> None) ->
  forall s lo i,
    Re.rep p lo None i s k
    = if lo <=? run_len p s
      then k (i + run_len p s) (skipn (run_len p s) s) else None.
Proof.
  intros Hk. induction s as [|c s IH]; intros lo i.
  - simpl. destruct lo; simpl; [rewrite Nat.add_0_r|]; reflexivity.
  - cbn [Re.rep run_len]. destruct (p c) eqn:Ec; cbn [andb negb option_map].
    + rewrite IH. destruct lo as [|lo]; cbn [pred Nat.leb skipn].
      * replace (S i + run_len p s) with (i + S (run_len p s)) by lia.
        destruct (k (i + S (run_len p s)) (skipn (run_len p s) s)) eqn:E;
          [reflexivity|]. exfalso; eapply Hk; eauto.
      * replace (S i + run_len p s) with (i + S (run_len p s)) by lia.
        destruct (lo <=? run_len p s) eqn:El.
        -- destruct (k (i + S (run_len p s)) (skipn (run_len p s) s)) eqn:E;
             [reflexivity|]. exfalso; eapply Hk; eauto.
        -- reflexivity.
    + destruct lo; simpl; [rewrite Nat.add_0_r|]; reflexivity.
Qed.

Lemma match_at_spaces i s :
  Re.match_at (plus isspace) i s
  = if 1 <=? run_len isspace s
    then Some {| Re.m_start := i; Re.m_end := i + run_len isspace s;
                 Re.group0 := firstn (i + run_len isspace s - i) s;
                 Re.groups := [] |}
    else None.
Proof.
  unfold Re.match_at, plus. cbn [Re.run].
  rewrite (rep_greedy _ isspace); [reflexivity|discriminate].
Qed.

Lemma squeeze_skip s :
  squeeze true s = squeeze false (skipn (run_len isspace s) s).
Proof.
  induction s as [|c s IH]; [reflexivity|].
  cbn [squeeze run_len]. destruct (isspace c) eqn:E; cbn [skipn].
  - exact IH.
  - cbn [squeeze]. rewrite E. reflexivity.
Qed.

Lemma sub_from_spaces fuel :
  forall i s, length s < fuel ->
    Re.sub_from fuel (plus isspace) (U " ") i s = squeeze false s.
Proof.
  induction fuel as [|fuel IH]; intros i s Hlen; [lia|].
  cbn [Re.sub_from]. rewrite match_at_spaces.
  destruct s as [|c s]; [reflexivity|].
  cbn [run_len squeeze]. destruct (isspace c) eqn:E.
  - cbn [Nat.leb Re.m_end].
    replace (i + S (run_len isspace s) - i) with (S (run_len isspace s)) by lia.
    cbn [skipn]. rewrite IH.
    + rewrite squeeze_skip. reflexivity.
    + rewrite length_skipn. simpl in Hlen. lia.
  - cbn [Nat.leb]. rewrite IH; [reflexivity|]. simpl in Hlen; lia.
Qed.

Lemma sub_spaces s : Re.sub (plus isspace) (U " ") s = squeeze false s.
Proof. apply sub_from_spaces. lia. Qed.

Lemma escape_sql_clean s :
  escape_sql (Some s) = replace_char quote (U "''") (clean s).
Proof. unfold escape_sql, clean. rewrite sub_spaces. reflexivity. Qed.

Lemma space_run_free_cons a s :
  space_run_free (a :: s)
  = negb (isspace a && head_space s) && space_run_free s.
Proof.
  destruct s as [|b s]; [|reflexivity].
  simpl. rewrite andb_false_r. reflexivity.
Qed.

Lemma squeeze_true_head s : head_space (squeeze true s) = false.
Proof.
  induction s as [|c s IH]; [reflexivity|].
  simpl. destruct (isspace c) eqn:E; [exact IH|]. simpl. exact E.
Qed.

Lemma squeeze_run_free b s : space_run_free (squeeze b s) = true.
Proof.
  revert b. induction s as [|c s IH]; intros b; [reflexivity|].
  cbn [squeeze]. destruct (isspace c) eqn:E.
  - destruct b; [apply IH|].
    rewrite space_run_free_cons, squeeze_true_head, andb_false_r, IH.
    reflexivity.
  - rewrite space_run_free_cons, E, IH. reflexivity.
Qed.

(** The only white space left by [squeeze] is the space character. *)
Lemma squeeze_In b s c :
  In c (squeeze b s) -> isspace c = true -> c = ch " ".
Proof.
  revert b. induction s as [|a s IH]; intros b; [contradiction|].
  cbn [squeeze]. destruct (isspace a) eqn:E.
  - destruct b; [apply IH|]. intros [<-|H]; [reflexivity|]. eapply IH; eauto.
  - intros [<-|H]; [congruence|]. eapply IH; eauto.
Qed.

Section Doubling.
Variable q : N.
Hypothesis q_not_space : isspace q = false.

Lemma double_head s : head_space (double q s) = head_space s.
Proof.
  destruct s as [|c s]; [reflexivity|].
  unfold double, replace_char. simpl. destruct (c =? q)%N eqn:E; [|reflexivity].
  apply N.eqb_eq in E; subst c. reflexivity.
Qed.

Lemma double_cons c s :
  double q (c :: s) = (if (c =? q)%N then [q; q] else [c]) ++ double q s.
Proof. reflexivity. Qed.

Lemma double_run_free s :
  space_run_free s = true -> space_run_free (double q s) = true.
Proof.
  induction s as [|c s IH]; [reflexivity|].
  rewrite space_run_free_cons, double_cons.
  intros H; apply andb_prop in H as [H1 H2]. specialize (IH H2).
  destruct (c =? q)%N eqn:E; cbn [app].
  - rewrite space_run_free_cons. cbn [head_space].
    rewrite q_not_space. cbn [andb negb].
    rewrite space_run_free_cons, q_not_space. exact IH.
  - rewrite space_run_free_cons, double_head, H1. exact IH.
Qed.

Lemma double_In s c : In c (double q s) -> c = q \/ In c s.
Proof.
  induction s as [|a s IH]; [contradiction|].
  rewrite double_cons. intros H; apply in_app_or in H as [H|H].
  - destruct (a =? q)%N eqn:E.
    + left. destruct H as [H|[H|[]]]; auto.
    + right. destruct H as [H|[]]. left; exact H.
  - destruct (IH H); [left|right; right]; assumption.
Qed.

Lemma double_count s :
  count_occ N.eq_dec (double q s) q = 2 * count_occ N.eq_dec s q.
Proof.
  induction s as [|a s IH]; [reflexivity|].
  rewrite double_cons, count_occ_app, IH.
  destruct (N.eqb_spec a q) as [->|Hn].
  - rewrite count_occ_cons_eq by reflexivity.
    cbn [count_occ]. destruct (N.eq_dec q q); [lia|congruence].
  - rewrite (count_occ_cons_neq _ s) by exact Hn.
    cbn [count_occ]. destruct (N.eq_dec a q); [congruence|lia].
Qed.
End Doubling.

Lemma double_paired s : quotes_paired (replace_char quote (U "''") s) = true.
Proof.
  induction s as [|a s IH]; [reflexivity|].
  change (replace_char quote (U "''") (a :: s))
    with ((if (a =? quote)%N then [quote; quote] else [a])
          ++ replace_char quote (U "''") s).
  destruct (a =? quote)%N eqn:E; cbn [app quotes_paired].
  - rewrite !N.eqb_refl. exact IH.
  - rewrite E. exact IH.
Qed.

(** *** Counting a character that is not white space through the
    cleaning steps *)

Lemma count_replace_char a b s q :
  a <> q -> count_occ N.eq_dec b q = 0 ->
  count_occ N.eq_dec (replace_char a b s) q = count_occ N.eq_dec s q.
Proof.
  intros Ha Hb. induction s as [|c s IH]; [reflexivity|].
  change (replace_char a b (c :: s))
    with ((if (c =? a)%N then b else [c]) ++ replace_char a b s).
  rewrite count_occ_app, IH.
  destruct (N.eqb_spec c a) as [->|Hn].
  - rewrite Hb, count_occ_cons_neq by exact Ha. reflexivity.
  - cbn [count_occ]. destruct (N.eq_dec c q); lia.
Qed.

Lemma count_lstrip s q :
  isspace q = false ->
  count_occ N.eq_dec (lstrip s) q = count_occ N.eq_dec s q.
Proof.
  intros Hq. induction s as [|c s IH]; [reflexivity|].
  cbn [lstrip]. destruct (isspace c) eqn:E; [|reflexivity].
  rewrite IH, count_occ_cons_neq; [reflexivity|]. congruence.
Qed.

Lemma count_strip s q :
  isspace q = false ->
  count_occ N.eq_dec (strip s) q = count_occ N.eq_dec s q.
Proof.
  intros Hq. unfold strip, rstrip.
  rewrite count_occ_rev, count_lstrip, count_occ_rev, count_lstrip by exact Hq.
  reflexivity.
Qed.

Lemma count_squeeze b s q :
  isspace q = false ->
  count_occ N.eq_dec (squeeze b s) q = count_occ N.eq_dec s q.
Proof.
  intros Hq. revert b. induction s as [|c s IH]; intros b; [reflexivity|].
  cbn [squeeze]. destruct (isspace c) eqn:E.
  - assert (c <> q) by congruence.
    rewrite (count_occ_cons_neq _ s) by assumption.
    destruct b; [apply IH|].
    rewrite count_occ_cons_neq; [apply IH|].
    intros <-. discriminate Hq.
  - cbn [count_occ]. rewrite IH. reflexivity.
Qed.

Lemma count_clean s q :
  isspace q = false ->
  count_occ N.eq_dec (clean s) q = count_occ N.eq_dec s q.
Proof.
  intros Hq. unfold clean.
  rewrite count_squeeze, count_strip by exact Hq.
  assert (Hsp : count_occ N.eq_dec (U " ") q = 0).
  { change (U " ") with [32%N]. rewrite count_occ_cons_neq; [reflexivity|].
    intros <-. discriminate Hq. }
  rewrite !count_replace_char; auto; intros <-; discriminate Hq.
Qed.

(** The only white space in the result of [escape_sql] is the space
    character. *)
Lemma escape_sql_white_space s c :
  In c (escape_sql (Some s)) -> isspace c = true -> c = ch " ".
Proof.
  rewrite escape_sql_clean. intros H Hc.
  apply (double_In quote) in H as [->|H]; [discriminate Hc|].
  eapply squeeze_In; eauto.
Qed.

(** C6: for every string [s], [escape_sql(s)] contains neither a newline
    nor a carriage return, has no two adjacent white-space characters, and
    every single quote of [s] appears doubled: the quotes of the result
    come in adjacent pairs, two for each quote of [s]. *)
Theorem escape_sql_safe (s : pystr) :
  let out := escape_sql (Some s) in
  ~ In LF out /\ ~ In CR out
  /\ space_run_free out = true
  /\ quotes_paired out = true
  /\ count_occ N.eq_dec out quote = 2 * count_occ N.eq_dec s quote.
Proof.
  cbv zeta.
  split; [|split; [|split; [|split]]].
  - intros H. apply escape_sql_white_space in H; [discriminate H|reflexivity].
  - intros H. apply escape_sql_white_space in H; [discriminate H|reflexivity].
  - rewrite escape_sql_clean.
    apply (double_run_free quote); [reflexivity|]. apply squeeze_run_free.
  - rewrite escape_sql_clean. apply double_paired.
  - rewrite escape_sql_clean.
    apply eq_trans with (count_occ N.eq_dec (double quote (clean s)) quote);
      [reflexivity|].
    rewrite double_count, count_clean; reflexivity.
Qed.

(** C7: [escape_sql] is not idempotent: there is a string on which a
    second application changes the result of the first (the quotes are
    doubled again). *)
Theorem escape_sql_not_idempotent :
  exists s : pystr,
    escape_sql (Some (escape_sql (Some s))) <> escape_sql (Some s).
Proof. exists (U "it's"). vm_compute. discriminate. Qed.

(** ** The weekday row *)

Lemma dict_set_fresh d k v :
  ~ In k (keys d) -> dict_set d k v = d ++ [(k, v)].
Proof.
  induction d as [|[k' v'] d IH]; simpl; [reflexivity|].
  intros H. destruct (Nat.eqb_spec k' k) as [->|Hn]; [tauto|].
  rewrite IH; [reflexivity|tauto].
Qed.

Lemma weekday_loop_items row_values :
  forall idx mapping,
    (forall k, In k (keys mapping) -> k < idx) ->
    weekday_loop idx row_values mapping
    = mapping ++ weekday_items idx row_values.
Proof.
  induction row_values as [|cell rest IH]; intros idx mapping Hk.
  - simpl. rewrite app_nil_r. reflexivity.
  - cbn [weekday_loop weekday_items]. unfold cell_weekday.
    destruct (truthy cell); cbn [negb].
    + destruct (match_weekday (lower (strip cell))) as [wd|].
      * rewrite dict_set_fresh.
        -- rewrite IH.
           ++ rewrite <- app_assoc. reflexivity.
           ++ intros k. unfold keys. rewrite map_app, in_app_iff.
              intros [H|[<-|[]]]; [apply Hk in H; lia|simpl; lia].
        -- intros H. apply Hk in H. lia.
      * apply IH. intros k H. apply Hk in H. lia.
    + apply IH. intros k H. apply Hk in H. lia.
Qed.

Lemma weekday_loop_0 row_values :
  weekday_loop 0 row_values [] = weekday_items 0 row_values.
Proof. apply weekday_loop_items. intros k []. Qed.

Lemma str_eqb_sym a b : str_eqb a b = str_eqb b a.
Proof.
  destruct (str_eqb a b) eqn:E1, (str_eqb b a) eqn:E2; try reflexivity.
  - apply str_eqb_eq in E1. subst. unfold str_eqb in E2.
    destruct (list_eq_dec N.eq_dec b b); congruence.
  - apply str_eqb_eq in E2. subst. unfold str_eqb in E1.
    destruct (list_eq_dec N.eq_dec a a); congruence.
Qed.

Lemma cell_weekday_spec cell :
  is_weekday_cell cell
  = match cell_weekday cell with Some _ => true | None => false end.
Proof.
  unfold is_weekday_cell, cell_weekday, match_weekday.
  destruct cell as [|c cell]; [reflexivity|]. cbn [truthy].
  generalize (lower (strip (c :: cell))); intros x.
  induction WEEKDAYS as [|wd l IH]; [reflexivity|].
  cbn [existsb find]. rewrite (str_eqb_sym wd x).
  destruct (str_eqb x wd || startswith x (firstn 3 wd)); [reflexivity|].
  exact IH.
Qed.

Lemma weekday_items_length row_values :
  forall idx,
    length (weekday_items idx row_values) = count_weekday_cells row_values.
Proof.
  unfold count_weekday_cells.
  induction row_values as [|cell rest IH]; intros idx; [reflexivity|].
  cbn [weekday_items filter]. rewrite cell_weekday_spec.
  destruct (cell_weekday cell); cbn [length]; rewrite IH; reflexivity.
Qed.

Lemma weekday_items_keys row_values :
  forall idx k, In k (keys (weekday_items idx row_values)) -> idx <= k.
Proof.
  induction row_values as [|cell rest IH]; intros idx k; [intros []|].
  cbn [weekday_items]. destruct (cell_weekday cell).
  - cbn [keys map fst In]. intros [<-|H]; [lia|]. apply IH in H. lia.
  - intros H. apply IH in H. lia.
Qed.

Lemma weekday_items_NoDup row_values :
  forall idx, NoDup (keys (weekday_items idx row_values)).
Proof.
  induction row_values as [|cell rest IH]; intros idx; [constructor|].
  cbn [weekday_items]. destruct (cell_weekday cell); [|apply IH].
  cbn [keys map fst]. constructor; [|apply IH].
  intros H. apply weekday_items_keys in H. lia.
Qed.

Lemma weekday_items_get row_values :
  forall idx k,
    dict_get (weekday_items idx row_values) (idx + k)
    = match nth_error row_values k with
      | Some cell => option_map capitalize (cell_weekday cell)
      | None => None
      end.
Proof.
  induction row_values as [|cell rest IH]; intros idx k.
  - destruct k; reflexivity.
  - cbn [weekday_items]. destruct k as [|k].
    + rewrite Nat.add_0_r. cbn [nth_error].
      destruct (cell_weekday cell) as [wd|]; cbn [option_map].
      * unfold dict_get. cbn [find fst]. rewrite Nat.eqb_refl. reflexivity.
      * unfold dict_get.
        destruct (find _ _) as [[k' v]|] eqn:E; [|reflexivity].
        apply find_some in E as [E1 E2]. cbn [fst] in E2.
        apply Nat.eqb_eq in E2. subst k'.
        assert (S idx <= idx); [|lia].
        apply (weekday_items_keys rest (S idx) idx).
        apply (in_map fst) in E1. exact E1.
    + cbn [nth_error]. replace (idx + S k) with (S idx + k) by lia.
      rewrite <- (IH (S idx) k). destruct (cell_weekday cell); [|reflexivity].
      unfold dict_get. cbn [find fst].
      destruct (Nat.eqb_spec idx (S idx + k)); [lia|reflexivity].
Qed.

Lemma find_weekday_columns_items row_values :
  find_weekday_columns row_values
  = if 3 <=? count_weekday_cells row_values
    then weekday_items 0 row_values else [].
Proof.
  unfold find_weekday_columns. cbv zeta.
  rewrite weekday_loop_0, weekday_items_length. reflexivity.
Qed.

(** C4, as amended: [find_weekday_columns] returns the empty mapping for
    every row in which fewer than 3 cells are recognized as weekdays; a
    row qualifies exactly when at least 3 of its cells are recognized,
    whether or not the weekdays differ; for a qualifying row the mapping
    has one key for each recognized cell, its size is their number, and
    each such column index is mapped to the capitalized name of the
    weekday recognized there. *)
Theorem find_weekday_columns_spec (row_values : list pystr) :
  let n := count_weekday_cells row_values in
  let mapping := find_weekday_columns row_values in
  (n < 3 -> mapping = [])
  /\ (3 <= n ->
      length mapping = n /\ NoDup (keys mapping)
      /\ forall k,
           dict_get mapping k
           = match nth_error row_values k with
             | Some cell => option_map capitalize (cell_weekday cell)
             | None => None
             end)
  /\ (mapping <> [] <-> 3 <= n)
  /\ (forall cell,
        is_weekday_cell cell = true <-> cell_weekday cell <> None).
Proof.
  cbv zeta. rewrite find_weekday_columns_items.
  destruct (Nat.leb_spec 3 (count_weekday_cells row_values)) as [H|H].
  - split; [lia|]. split; [|split].
    + intros _. split; [apply weekday_items_length|].
      split; [apply weekday_items_NoDup|].
      intros k. apply (weekday_items_get row_values 0 k).
    + split; [auto|]. intros _ E.
      pose proof (weekday_items_length row_values 0) as L.
      rewrite E in L. simpl in L. lia.
    + intros cell. rewrite cell_weekday_spec.
      destruct (cell_weekday cell); split; congruence.
  - split; [auto|]. split; [lia|]. split.
    + split; [congruence|lia].
    + intros cell. rewrite cell_weekday_spec.
      destruct (cell_weekday cell); split; congruence.
Qed.

Lemma find_weekday_columns_spec_witness :
  3 <= count_weekday_cells weekday_row_example
  /\ length (find_weekday_columns weekday_row_example)
     = count_weekday_cells weekday_row_example.
Proof.
  assert (H : 3 <= count_weekday_cells weekday_row_example)
    by (vm_compute; lia).
  split; [exact H|].
  destruct (find_weekday_columns_spec weekday_row_example) as (_ & H' & _).
  exact (proj1 (H' H)).
Defined.

(** C4, as stated, fails: three columns that match one and the same
    weekday qualify as a weekday header. *)
Lemma find_weekday_columns_same_weekday :
  find_weekday_columns [U "pon"; U "pon."; U "Poniedziałek"]
  = [(0, U "Poniedziałek"); (1, U "Poniedziałek"); (2, U "Poniedziałek")]
  /\ distinct_weekdays [U "pon"; U "pon."; U "Poniedziałek"] = 1.
Proof. split; reflexivity. Qed.

(** ** The scan of a sheet *)

Lemma find_weekday_columns_size row_values :
  cols_ok (find_weekday_columns row_values).
Proof.
  unfold cols_ok, find_weekday_columns. cbv zeta.
  destruct (Nat.leb_spec 3 (length (weekday_loop 0 row_values []))); auto.
Qed.

Lemma add_subjects_cols sheetname i cells c s e items :
  forall st,
    weekday_cols (add_subjects sheetname i cells c s e items st)
    = weekday_cols st.
Proof.
  induction items as [|[col_idx weekday] rest IH]; intros st; [reflexivity|].
  cbn [add_subjects]. rewrite IH.
  destruct (nth_error cells col_idx) as [cell|]; [|reflexivity].
  destruct (truthy (strip cell)); reflexivity.
Qed.

Lemma time_row_cols sheetname i cells st :
  weekday_cols (time_row sheetname i cells st) = weekday_cols st.
Proof.
  unfold time_row.
  destruct (first_match (Re.search TIME_RE) 0 cells) as [[k m]|];
    [|reflexivity].
  cbv zeta.
  set (st1 := if opt_truthy (current_class st) then st else _).
  assert (E : weekday_cols st1 = weekday_cols st)
    by (unfold st1; destruct (opt_truthy (current_class st)); reflexivity).
  rewrite <- E. clearbody st1.
  destruct (dict_truthy (weekday_cols st1)); [|reflexivity]. cbn [negb].
  destruct (normalize_time (Re.group m 1)) as [s|]; [|reflexivity].
  destruct (normalize_time (Re.group m 2)) as [e|]; [|reflexivity].
  destruct (truthy s && truthy e); [|reflexivity].
  apply add_subjects_cols.
Qed.

Lemma class_header_cols sheetname i cells st :
  weekday_cols (class_header sheetname i cells st) = weekday_cols st
  \/ weekday_cols (class_header sheetname i cells st) = [].
Proof.
  unfold class_header.
  destruct (first_match (Re.match_ HEADER_CLASS_RE) 0 cells) as [[k m]|];
    [right|left]; reflexivity.
Qed.

(** What one row can do to the weekday mapping: leave it, reset it, or set
    it to a non-empty result of [find_weekday_columns]. *)
Lemma process_row_cols sheetname i cells st :
  weekday_cols (process_row sheetname i cells st) = weekday_cols st
  \/ weekday_cols (process_row sheetname i cells st) = []
  \/ (weekday_cols (process_row sheetname i cells st)
      = find_weekday_columns cells
      /\ find_weekday_columns cells <> []).
Proof.
  unfold process_row. cbv zeta.
  set (st1 := class_header sheetname i cells st).
  destruct (dict_truthy (weekday_cols st1)) eqn:E; cbn [negb andb].
  - rewrite time_row_cols.
    destruct (class_header_cols sheetname i cells st) as [H|H]; auto.
  - destruct (find_weekday_columns cells) as [|kv d] eqn:F; cbn [dict_truthy].
    + rewrite time_row_cols.
      destruct (class_header_cols sheetname i cells st) as [H|H]; auto.
    + right; right. split; [reflexivity|discriminate].
Qed.

Lemma process_row_ok sheetname i cells st :
  cols_ok (weekday_cols st) ->
  cols_ok (weekday_cols (process_row sheetname i cells st)).
Proof.
  intros H.
  destruct (process_row_cols sheetname i cells st) as [E|[E|[E _]]];
    rewrite E; [exact H|left; reflexivity|].
  apply find_weekday_columns_size.
Qed.

Lemma scan_rows_ok sheetname df :
  forall i st,
    cols_ok (weekday_cols st) ->
    cols_ok (weekday_cols (scan_rows sheetname i df st)).
Proof.
  induction df as [|cells rest IH]; intros i st H; [exact H|].
  cbn [scan_rows]. apply IH, process_row_ok, H.
Qed.

(** C9: after any prefix of the rows of a sheet has been processed, the
    weekday mapping is empty or has at least 3 entries; a row leaves the
    mapping as it is, resets it to empty, or sets it to a non-empty
    result of [find_weekday_columns], whose size is never 1 or 2. *)
Theorem weekday_cols_invariant
        (sheetname : pystr) (df : DataFrame) (n : nat) (st : vars) :
  let st0 := set_cols [] (set_class None st) in
  cols_ok (weekday_cols (scan_rows sheetname 0 (firstn n df) st0))
  /\ (forall i cells st',
        weekday_cols (process_row sheetname i cells st') = weekday_cols st'
        \/ weekday_cols (process_row sheetname i cells st') = []
        \/ (weekday_cols (process_row sheetname i cells st')
            = find_weekday_columns cells
            /\ find_weekday_columns cells <> []))
  /\ (forall cells,
        length (find_weekday_columns cells) <> 1
        /\ length (find_weekday_columns cells) <> 2).
Proof.
  cbv zeta. split; [|split].
  - apply scan_rows_ok. left; reflexivity.
  - intros. apply process_row_cols.
  - intros cells. destruct (find_weekday_columns_size cells) as [->|H];
      simpl; lia.
Qed.

(** ** Opening the workbook *)

(** C1, as amended: when the file cannot be opened, [parse_excel_to_plan]
    reads no sheet, logs nothing and returns normally: the entry list is
    empty and the error list, the same list that collects the recoverable
    warnings, has one element, the text "Błąd otwarcia pliku: " followed
    by the original message. *)
Theorem open_failure_is_returned
        (pd_ExcelFile : pystr -> result ExcelFile) (path e : pystr) :
  pd_ExcelFile path = Raise e ->
  parse_excel_to_plan pd_ExcelFile path
  = (Ok ([], [U "Błąd otwarcia pliku: " ++ e]), []).
Proof. intros H. unfold parse_excel_to_plan. rewrite H. reflexivity. Qed.

Lemma open_failure_is_returned_witness :
  parse_excel_to_plan no_such_file (U "plan.xlsx")
  = (Ok ([], [U "Błąd otwarcia pliku: "
              ++ U "[Errno 2] No such file or directory: 'plan.xlsx'"]), []).
Proof.
  apply (open_failure_is_returned no_such_file (U "plan.xlsx")).
  reflexivity.
Defined.

(** C1, as stated, fails: a file that cannot be opened does not make the
    call raise; the call returns the empty plan and the message in the
    error list. *)
Lemma open_failure_not_raised :
  (forall msg, fst (parse_excel_to_plan no_such_file (U "plan.xlsx"))
               <> Raise msg)
  /\ fst (parse_excel_to_plan no_such_file (U "plan.xlsx"))
     = Ok ([], [U "Błąd otwarcia pliku: [Errno 2] No such file or directory: 'plan.xlsx'"]).
Proof. split; [intros msg; discriminate|reflexivity]. Qed.

(** ** The end-to-end scenario *)

Lemma first_match_blank f :
  f blank = None ->
  forall n i rest,
    first_match f i (repeat blank n ++ rest) = first_match f (n + i) rest.
Proof.
  intros Hf. induction n as [|n IH]; intros i rest; [reflexivity|].
  cbn [repeat app first_match]. rewrite Hf, IH. f_equal. lia.
Qed.

Lemma first_match_blanks f :
  f blank = None -> forall n i, first_match f i (repeat blank n) = None.
Proof.
  intros Hf n i. rewrite <- (app_nil_r (repeat blank n)).
  rewrite first_match_blank by exact Hf. reflexivity.
Qed.

Lemma weekday_loop_blank n :
  forall idx rest mapping,
    weekday_loop idx (repeat blank n ++ rest) mapping
    = weekday_loop (n + idx) rest mapping.
Proof.
  unfold blank.
  induction n as [|n IH]; intros idx rest mapping; [reflexivity|].
  cbn [repeat app weekday_loop truthy negb]. rewrite IH. f_equal. lia.
Qed.

Lemma weekday_loop_blanks n idx mapping :
  weekday_loop idx (repeat blank n) mapping = mapping.
Proof.
  rewrite <- (app_nil_r (repeat blank n)), weekday_loop_blank. reflexivity.
Qed.

Lemma process_row_header sheetname i a b st :
  process_row sheetname i (header_row a b) st
  = set_cols []
      (log_append (bracket sheetname ++ U "Znaleziono klasę '1AT' w wierszu "
                   ++ str_int (i + 1))
         (set_class (Some (U "1AT")) st)).
Proof.
  unfold process_row, class_header, header_row.
  rewrite first_match_blank by reflexivity. cbn [app first_match].
  replace (Re.match_ HEADER_CLASS_RE (U "1AT - 1.09.2025"))
    with (Some {| Re.m_start := 0; Re.m_end := 15;
                  Re.group0 := U "1AT - 1.09.2025";
                  Re.groups := [U "1AT"] |}) by (vm_compute; reflexivity).
  cbv zeta. cbn [weekday_cols set_cols dict_truthy negb andb].
  unfold find_weekday_columns. rewrite weekday_loop_blank.
  cbn [weekday_loop].
  replace (truthy (U "1AT - 1.09.2025")) with true by reflexivity.
  cbn [negb].
  replace (match_weekday (lower (strip (U "1AT - 1.09.2025"))))
    with (@None pystr) by (vm_compute; reflexivity).
  rewrite weekday_loop_blanks. cbn [length Nat.leb dict_truthy].
  unfold time_row.
  rewrite first_match_blank by reflexivity. cbn [first_match].
  replace (Re.search TIME_RE (U "1AT - 1.09.2025"))
    with (@None Re.Match) by (vm_compute; reflexivity).
  rewrite first_match_blanks by reflexivity.
  unfold Re.group. cbn [Re.groups nth]. 
  replace (U "Znaleziono klasę '1AT' w wierszu ")
    with (U "Znaleziono klasę '" ++ U "1AT" ++ U "' w wierszu ")
    by reflexivity.
  rewrite <- !app_assoc. reflexivity.
Qed.

(** C2, as amended: a sheet whose three rows are a row with the class
    header "1AT - 1.09.2025" among blank cells, the weekday row
    [blank, "Pon", "Wto", "Śro", "Czw", "Pią"] (weekdays are recognized by
    the Polish names of [WEEKDAYS] only) and the time row
    ["7:10-7:55", "Math", "Physics", blank, "Chemistry", blank] yields exactly
    3 entries, all of class "1AT" from "07:10:00" to "07:55:00", on
    Poniedziałek, Wtorek and Czwartek, none for the blank cells under Środa
    and Piątek, and no warning. *)
Theorem scenario_three_entries
        (pd_ExcelFile : pystr -> result ExcelFile)
        (path sheetname : pystr) (a b : nat) :
  pd_ExcelFile path
  = Ok [(sheetname, Ok [header_row a b; pon_row; lesson_row])] ->
  fst (parse_excel_to_plan pd_ExcelFile path)
  = Ok ([lesson sheetname (U "Poniedziałek") (U "Math") 2;
         lesson sheetname (U "Wtorek") (U "Physics") 3;
         lesson sheetname (U "Czwartek") (U "Chemistry") 5],
        []).
Proof.
  intros H. unfold parse_excel_to_plan. rewrite H.
  unfold scan_sheets. cbn [fold_left process_sheet fst snd scan_rows].
  rewrite process_row_header.
  vm_compute. reflexivity.
Qed.

Lemma scenario_three_entries_witness :
  fst (parse_excel_to_plan
         (one_sheet [header_row 0 5; pon_row; lesson_row]) (U "plan.xlsx"))
  = Ok ([lesson (U "Arkusz1") (U "Poniedziałek") (U "Math") 2;
         lesson (U "Arkusz1") (U "Wtorek") (U "Physics") 3;
         lesson (U "Arkusz1") (U "Czwartek") (U "Chemistry") 5],
        []).
Proof.
  apply (scenario_three_entries
           (one_sheet [header_row 0 5; pon_row; lesson_row])
           (U "plan.xlsx") (U "Arkusz1") 0 5).
  reflexivity.
Defined.

(** C2, as stated, fails: the cells "Mon", "Tue", "Wed", "Thu", "Fri" are
    not recognized as weekdays, so the time row yields no entry and one
    warning. *)
Lemma scenario_english_weekdays :
  find_weekday_columns mon_row = []
  /\ fst (parse_excel_to_plan
            (one_sheet [header_row 0 5; mon_row; lesson_row])
            (U "plan.xlsx"))
     = Ok ([], [U "[Arkusz1] Wiersz 3: godziny znalezione, ale brak dni tygodnia"]).
Proof. split; vm_compute; reflexivity. Qed.

(** ** The emitted script *)

Lemma startswith_app p s : startswith (p ++ s) p = true.
Proof.
  induction p as [|a p IH]; [destruct s; reflexivity|].
  cbn [app startswith]. rewrite N.eqb_refl. exact IH.
Qed.

Lemma skipn_length_app (p s : pystr) : skipn (length p) (p ++ s) = s.
Proof. induction p; [reflexivity|assumption]. Qed.

Lemma take_while_app (p : N -> bool) l c s :
  forallb p l = true -> p c = false -> take_while p (l ++ c :: s) = l.
Proof.
  intros Hl Hc. induction l as [|a l IH]; cbn [app take_while].
  - rewrite Hc. reflexivity.
  - cbn [forallb] in Hl. apply andb_prop in Hl as [-> Hl].
    rewrite IH by exact Hl. reflexivity.
Qed.

(** *** Decimal text and its value *)

Lemma uint_digits_ascii d : forallb ascii_digit (uint_digits d) = true.
Proof.
  induction d; cbn [uint_digits forallb]; try rewrite IHd; reflexivity.
Qed.

Lemma int_fold_uint d :
  forall acc,
    fold_left (fun acc c => 10 * acc + dv c) (uint_digits d) acc
    = Nat.of_uint_acc d acc.
Proof.
  induction d; intros acc; cbn [uint_digits fold_left Nat.of_uint_acc];
    [reflexivity|..]; rewrite IHd; f_equal; rewrite Nat.tail_mul_spec;
    match goal with
    | |- context [dv ?c] =>
        let v := eval vm_compute in (dv c) in change (dv c) with v
    end; lia.
Qed.

Lemma int_str_int n : int (str_int n) = n.
Proof.
  unfold int, str_int.
  change (fun acc c => 10 * acc
                       + match digit_value c with Some d => d | None => 0 end)
    with (fun acc c => 10 * acc + dv c).
  rewrite int_fold_uint. apply Unsigned.of_to.
Qed.

Lemma insert_line_parts i r :
  exists rest,
    insert_line i r
    = (insert_prefix ++ str_int i ++ ch "," :: rest) ++ [LF].
Proof.
  unfold insert_line.
  replace insert_prefix
    with (U "INSERT INTO plan (id, klasa, dzien, godzina_start, godzina_koniec, przedmiot, sheet, sheet_row, sheet_col) "
          ++ U "VALUES (") by (vm_compute; reflexivity).
  exists (U " '" ++ escape_sql (Some (klasa r)) ++ U "', '"
          ++ escape_sql (Some (dzien r)) ++ U "', '" ++ start r
          ++ U "', '" ++ end_ r ++ U "', " ++ U "'" ++ przedmiot r
          ++ U "', '" ++ escape_sql (Some (sheet r)) ++ U "', "
          ++ str_int (row r) ++ U ", " ++ str_int (col r) ++ U ");").
  change (ch "," :: U " '" ++ ?x) with (U ", '" ++ x).
  rewrite <- !app_assoc. reflexivity.
Qed.

Lemma insert_line_prefix i r :
  exists rest,
    insert_line i r = insert_prefix ++ str_int i ++ ch "," :: rest.
Proof.
  destruct (insert_line_parts i r) as [rest ->].
  exists (rest ++ [LF]). rewrite <- !app_assoc. reflexivity.
Qed.

Lemma insert_line_id i r : insert_id (insert_line i r) = Some i.
Proof.
  destruct (insert_line_prefix i r) as [rest ->].
  unfold insert_id. rewrite startswith_app, skipn_length_app.
  rewrite take_while_app;
    [rewrite int_str_int; reflexivity | apply uint_digits_ascii | reflexivity].
Qed.

Lemma insert_line_is_insert i r : is_insert (insert_line i r) = true.
Proof.
  destruct (insert_line_prefix i r) as [rest ->].
  unfold is_insert.
  replace insert_prefix
    with (U "INSERT INTO " ++ U "plan (id, klasa, dzien, godzina_start, godzina_koniec, przedmiot, sheet, sheet_row, sheet_col) VALUES (")
    by (vm_compute; reflexivity).
  rewrite <- app_assoc. apply startswith_app.
Qed.

Lemma insert_line_not_create i r : is_create (insert_line i r) = false.
Proof.
  destruct (insert_line_prefix i r) as [rest ->]. reflexivity.
Qed.

Lemma insert_lines_length rs : forall i, length (insert_lines i rs) = length rs.
Proof.
  induction rs as [|r rs IH]; intros i; [reflexivity|].
  cbn [insert_lines length]. rewrite IH. reflexivity.
Qed.

Lemma insert_lines_filter rs :
  forall i, filter is_insert (insert_lines i rs) = insert_lines i rs.
Proof.
  induction rs as [|r rs IH]; intros i; [reflexivity|].
  cbn [insert_lines filter]. rewrite insert_line_is_insert, IH. reflexivity.
Qed.

Lemma insert_lines_no_create rs :
  forall i, filter is_create (insert_lines i rs) = [].
Proof.
  induction rs as [|r rs IH]; intros i; [reflexivity|].
  cbn [insert_lines filter]. rewrite insert_line_not_create. apply IH.
Qed.

Lemma insert_lines_ids rs :
  forall i, map insert_id (insert_lines i rs) = map Some (seq i (length rs)).
Proof.
  induction rs as [|r rs IH]; intros i; [reflexivity|].
  cbn [insert_lines map length seq]. rewrite insert_line_id, IH. reflexivity.
Qed.

Lemma insert_lines_nth rs :
  forall i k r,
    nth_error rs k = Some r ->
    nth_error (insert_lines i rs) k = Some (insert_line (i + k) r).
Proof.
  induction rs as [|r0 rs IH]; intros i k r; [destruct k; discriminate|].
  destruct k as [|k]; cbn [nth_error insert_lines].
  - intros H; injection H as ->. rewrite Nat.add_0_r. reflexivity.
  - intros H. rewrite (IH (S i) k r H). do 2 f_equal. lia.
Qed.

Lemma write_sql_split now rs :
  write_sql now rs = preamble now ++ insert_lines 1 rs.
Proof.
  unfold preamble, write_sql. cbn [insert_lines]. rewrite app_nil_r.
  reflexivity.
Qed.

Lemma preamble_no_insert now : filter is_insert (preamble now) = [].
Proof. reflexivity. Qed.

Lemma preamble_one_create now :
  filter is_create (preamble now)
  = [U "CREATE TABLE IF NOT EXISTS plan (" ++ [LF]].
Proof. reflexivity. Qed.

Lemma write_sql_inserts now rs :
  filter is_insert (write_sql now rs) = insert_lines 1 rs.
Proof.
  rewrite write_sql_split, filter_app, preamble_no_insert, insert_lines_filter.
  reflexivity.
Qed.

Lemma write_sql_creates now rs :
  filter is_create (write_sql now rs)
  = [U "CREATE TABLE IF NOT EXISTS plan (" ++ [LF]].
Proof.
  rewrite write_sql_split, filter_app, preamble_one_create,
    insert_lines_no_create. reflexivity.
Qed.

Lemma write_sql_columns now rs :
  create_columns (write_sql now rs) = sql_columns.
Proof. vm_compute. reflexivity. Qed.

(** ** The text of the script *)

Lemma lines_from_line l :
  no_LF l = true ->
  forall cur rest,
    lines_from cur (l ++ LF :: rest) = (rev cur ++ l) :: lines rest.
Proof.
  induction l as [|c l IH]; intros H cur rest.
  - cbn [app lines_from]. rewrite N.eqb_refl, app_nil_r. reflexivity.
  - cbn [no_LF forallb] in H. apply andb_prop in H as [Hc H].
    apply negb_true_iff in Hc. cbn [app lines_from]. rewrite Hc.
    rewrite (IH H). cbn [rev]. rewrite <- app_assoc. reflexivity.
Qed.

Lemma lines_line l rest :
  no_LF l = true -> lines (l ++ LF :: rest) = l :: lines rest.
Proof. intros H. unfold lines at 1. rewrite lines_from_line by exact H. reflexivity. Qed.

(** The lines of a text made of newline-terminated lines. *)
Lemma lines_concat ls :
  forallb no_LF ls = true ->
  lines (concat (map (fun l => l ++ [LF]) ls)) = ls ++ [[]].
Proof.
  induction ls as [|l ls IH]; intros H; [reflexivity|].
  cbn [forallb] in H. apply andb_prop in H as [Hl H].
  cbn [map concat]. rewrite <- app_assoc. cbn [app].
  rewrite lines_line by exact Hl. rewrite IH by exact H. reflexivity.
Qed.

Lemma no_LF_app a b : no_LF (a ++ b) = no_LF a && no_LF b.
Proof. apply forallb_app. Qed.

Lemma no_LF_str_int n : no_LF (str_int n) = true.
Proof.
  unfold str_int. generalize (Nat.to_uint n).
  induction u; cbn [uint_digits no_LF forallb]; try exact IHu; reflexivity.
Qed.

Lemma no_LF_escape_sql s : no_LF (escape_sql (Some s)) = true.
Proof.
  apply forallb_forall. intros c H. apply negb_true_iff.
  destruct (N.eqb_spec c LF) as [->|]; [|reflexivity].
  apply escape_sql_white_space in H; [discriminate H|reflexivity].
Qed.

Lemma insert_body_parts i r :
  exists rest,
    insert_body i r = insert_prefix ++ str_int i ++ ch "," :: rest
    /\ insert_line i r = insert_body i r ++ [LF].
Proof.
  unfold insert_body. destruct (insert_line_parts i r) as [rest ->].
  exists rest. rewrite removelast_last. auto.
Qed.

Lemma insert_body_one_line i r :
  one_line r = true -> no_LF (insert_body i r) = true.
Proof.
  intros H. apply andb_prop in H as [H Hp]. apply andb_prop in H as [Hs He].
  assert (E : insert_line i r = insert_body i r ++ [LF])
    by (destruct (insert_body_parts i r) as (? & _ & E); exact E).
  assert (L : no_LF (removelast (insert_line i r)) = true);
    [|unfold insert_body; exact L].
  unfold insert_line.
  pose proof (no_LF_escape_sql (klasa r)) as Hk.
  pose proof (no_LF_escape_sql (dzien r)) as Hd.
  pose proof (no_LF_escape_sql (sheet r)) as Hsh.
  pose proof (no_LF_str_int i) as Hi.
  pose proof (no_LF_str_int (row r)) as Hr.
  pose proof (no_LF_str_int (col r)) as Hc.
  revert Hk Hd Hsh Hi Hr Hc Hs He Hp. clear E.
  generalize (escape_sql (Some (klasa r))) (escape_sql (Some (dzien r)))
             (escape_sql (Some (sheet r))) (str_int i) (str_int (row r))
             (str_int (col r)) (start r) (end_ r) (przedmiot r).
  intros k d sh si sr sc st en pr Hk Hd Hsh Hi Hr Hc Hs He Hp.
  rewrite !app_assoc, removelast_last, !no_LF_app.
  rewrite Hk, Hd, Hsh, Hi, Hr, Hc, Hs, He, Hp. reflexivity.
Qed.

Lemma preamble_text now :
  concat (preamble now)
  = concat (map (fun l => l ++ [LF]) (preamble_lines now)).
Proof.
  unfold preamble, write_sql, preamble_lines.
  cbn [insert_lines map concat app]. rewrite !app_nil_r.
  rewrite (app_assoc (U "-- Wygenerowano: ") now [LF]). reflexivity.
Qed.

Lemma insert_lines_text rs :
  forall i,
    concat (insert_lines i rs)
    = concat (map (fun l => l ++ [LF]) (insert_bodies i rs)).
Proof.
  induction rs as [|r rs IH]; intros i; [reflexivity|].
  cbn [insert_lines insert_bodies map concat]. rewrite IH.
  destruct (insert_body_parts i r) as (rest & _ & ->). reflexivity.
Qed.

Lemma insert_bodies_one_line rs :
  forallb one_line rs = true ->
  forall i, forallb no_LF (insert_bodies i rs) = true.
Proof.
  induction rs as [|r rs IH]; intros H i; [reflexivity|].
  cbn [forallb] in H. apply andb_prop in H as [Hr H].
  cbn [insert_bodies forallb].
  rewrite insert_body_one_line by exact Hr. apply IH, H.
Qed.

(** The lines of the script, when the timestamp and the copied fields
    hold no newline. *)
Lemma script_lines now rs :
  no_LF now = true -> forallb one_line rs = true ->
  lines (script_text (write_sql now rs))
  = preamble_lines now ++ insert_bodies 1 rs ++ [blank].
Proof.
  intros Hn Hrs. unfold script_text.
  rewrite write_sql_split, concat_app, preamble_text, insert_lines_text.
  rewrite <- concat_app, <- map_app, lines_concat.
  - rewrite <- app_assoc. reflexivity.
  - rewrite forallb_app, insert_bodies_one_line by exact Hrs.
    unfold preamble_lines. cbn [forallb]. rewrite no_LF_app, Hn. reflexivity.
Qed.

Lemma insert_body_is_insert i r : is_insert (insert_body i r) = true.
Proof.
  destruct (insert_body_parts i r) as (rest & -> & _).
  unfold is_insert.
  replace insert_prefix
    with (U "INSERT INTO " ++ U "plan (id, klasa, dzien, godzina_start, godzina_koniec, przedmiot, sheet, sheet_row, sheet_col) VALUES (")
    by (vm_compute; reflexivity).
  rewrite <- app_assoc. apply startswith_app.
Qed.

Lemma insert_body_id i r : insert_id (insert_body i r) = Some i.
Proof.
  destruct (insert_body_parts i r) as (rest & -> & _).
  unfold insert_id. rewrite startswith_app, skipn_length_app.
  rewrite take_while_app;
    [rewrite int_str_int; reflexivity | apply uint_digits_ascii | reflexivity].
Qed.

Lemma insert_body_not_create i r : is_create (insert_body i r) = false.
Proof.
  destruct (insert_body_parts i r) as (rest & -> & _). reflexivity.
Qed.

Lemma insert_bodies_filter rs :
  forall i,
    filter is_insert (insert_bodies i rs) = insert_bodies i rs
    /\ filter is_create (insert_bodies i rs) = []
    /\ map insert_id (insert_bodies i rs) = map Some (seq i (length rs)).
Proof.
  induction rs as [|r rs IH]; intros i; [repeat split|].
  destruct (IH (S i)) as (I1 & I2 & I3).
  cbn [insert_bodies filter map length seq].
  rewrite insert_body_is_insert, insert_body_not_create, insert_body_id.
  rewrite I1, I2, I3. repeat split.
Qed.

(** The statements of the script text, line by line. *)
Lemma script_statements now rs :
  no_LF now = true -> forallb one_line rs = true ->
  let ls := lines (script_text (write_sql now rs)) in
  filter is_create ls = [U "CREATE TABLE IF NOT EXISTS plan ("]
  /\ length (filter is_insert ls) = length rs
  /\ map insert_id (filter is_insert ls) = map Some (seq 1 (length rs)).
Proof.
  intros Hn Hrs. cbv zeta. rewrite script_lines by assumption.
  destruct (insert_bodies_filter rs 1) as (I1 & I2 & I3).
  assert (L : length (insert_bodies 1 rs) = length rs).
  { rewrite <- (length_map insert_id), I3, length_map, length_seq.
    reflexivity. }
  rewrite !filter_app, I1, I2.
  replace (filter is_insert (preamble_lines now)) with (@nil pystr)
    by reflexivity.
  replace (filter is_create (preamble_lines now))
    with [U "CREATE TABLE IF NOT EXISTS plan ("] by reflexivity.
  cbn [filter app]. replace (is_insert blank) with false by reflexivity.
  replace (is_create blank) with false by reflexivity.
  rewrite app_nil_r. repeat split; assumption.
Qed.

(** *** The plan of the parser fits one line per entry *)

Lemma HH_MM_00_one_line out : is_HH_MM_00 out = true -> no_LF out = true.
Proof.
  destruct out as [|h1 [|h2 [|c1 [|m1 [|m2 [|c2 [|z1 [|z2 [|? ?]]]]]]]]];
    try discriminate.
  unfold is_HH_MM_00. rewrite !andb_true_iff.
  intros [[[[[[[H1 H2] H3] H4] H5] H6] H7] H8].
  assert (D : forall c, ascii_digit c = true -> (c =? LF)%N = false).
  { intros c H. unfold ascii_digit in H. apply andb_prop in H as [H _].
    apply N.leb_le in H. apply N.eqb_neq. unfold LF. lia. }
  assert (E : forall c k, (c =? k)%N = true -> (k =? LF)%N = false ->
                          (c =? LF)%N = false).
  { intros c k H. apply N.eqb_eq in H. subst. auto. }
  assert (G : forall c, isdigit c = true -> (c =? LF)%N = false).
  { intros c H. destruct (c =? LF)%N eqn:F; [|reflexivity].
    apply isdigit_LF in F. congruence. }
  cbn [no_LF forallb].
  rewrite (D _ H1), (D _ H2), (E _ _ H3), (G _ H4), (G _ H5), (E _ _ H6),
    (E _ _ H7), (E _ _ H8); reflexivity.
Qed.

Lemma normalize_time_one_line t out :
  normalize_time t = Some out -> no_LF out = true.
Proof.
  rewrite normalize_time_split.
  destruct (split_hmm (strip t)) as [[h m]|] eqn:E; [|discriminate].
  cbn [option_map]. intros H; injection H as <-.
  apply HH_MM_00_one_line. apply (hh_mm_00_shape _ _ _ E).
Qed.

Lemma add_subjects_one_line sheetname i cells c s e items :
  no_LF s = true -> no_LF e = true ->
  forall st,
    plan_one_line st ->
    plan_one_line (add_subjects sheetname i cells c s e items st).
Proof.
  intros Hs He.
  induction items as [|[col_idx weekday] rest IH]; intros st H; [exact H|].
  cbn [add_subjects]. apply IH.
  destruct (nth_error cells col_idx) as [cell|]; [|exact H].
  destruct (truthy (strip cell)); [|exact H].
  unfold plan_one_line, plan_append. cbn [plan].
  rewrite forallb_app, H. cbn [forallb]. unfold one_line.
  cbn [start end_ przedmiot]. rewrite Hs, He, no_LF_escape_sql. reflexivity.
Qed.

Lemma time_row_one_line sheetname i cells st :
  plan_one_line st -> plan_one_line (time_row sheetname i cells st).
Proof.
  intros H. unfold time_row.
  destruct (first_match (Re.search TIME_RE) 0 cells) as [[k m]|];
    [|exact H].
  cbv zeta.
  set (st1 := if opt_truthy (current_class st) then st else _).
  assert (H1 : plan_one_line st1)
    by (unfold st1; destruct (opt_truthy (current_class st)); exact H).
  clearbody st1.
  destruct (dict_truthy (weekday_cols st1)); [|exact H1]. cbn [negb].
  destruct (normalize_time (Re.group m 1)) as [s|] eqn:Es; [|exact H1].
  destruct (normalize_time (Re.group m 2)) as [e|] eqn:Ee; [|exact H1].
  destruct (truthy s && truthy e); [|exact H1].
  apply add_subjects_one_line;
    eauto using normalize_time_one_line.
Qed.

Lemma process_row_one_line sheetname i cells st :
  plan_one_line st -> plan_one_line (process_row sheetname i cells st).
Proof.
  intros H. unfold process_row. cbv zeta.
  assert (H1 : plan_one_line (class_header sheetname i cells st)).
  { unfold class_header.
    destruct (first_match (Re.match_ HEADER_CLASS_RE) 0 cells) as [[k m]|];
      exact H. }
  destruct (negb (dict_truthy (weekday_cols _)) && _);
    [exact H1|apply time_row_one_line, H1].
Qed.

Lemma scan_rows_one_line sheetname df :
  forall i st,
    plan_one_line st -> plan_one_line (scan_rows sheetname i df st).
Proof.
  induction df as [|cells rest IH]; intros i st H; [exact H|].
  cbn [scan_rows]. apply IH, process_row_one_line, H.
Qed.

Lemma scan_sheets_one_line xls :
  forall st, plan_one_line st -> plan_one_line (scan_sheets xls st).
Proof.
  unfold scan_sheets.
  induction xls as [|[sheetname [df|e]] xls IH]; intros st H; [exact H|..];
    cbn [fold_left]; apply IH; unfold process_sheet; cbn [fst snd].
  - apply scan_rows_one_line. exact H.
  - exact H.
Qed.

(** Every plan that [parse_excel_to_plan] returns is written by
    [write_sql] as a script with one [INSERT] line per entry, numbered
    from 1, and one [CREATE TABLE] line. *)
Lemma parsed_plan_script pd_ExcelFile path now rs errs log_ :
  parse_excel_to_plan pd_ExcelFile path = (Ok (rs, errs), log_) ->
  no_LF now = true ->
  let ls := lines (script_text (write_sql now rs)) in
  filter is_create ls = [U "CREATE TABLE IF NOT EXISTS plan ("]
  /\ length (filter is_insert ls) = length rs
  /\ map insert_id (filter is_insert ls) = map Some (seq 1 (length rs)).
Proof.
  intros H Hn. apply script_statements; [exact Hn|].
  unfold parse_excel_to_plan in H.
  destruct (pd_ExcelFile path) as [xls|e].
  - injection H as <- _ _. apply (scan_sheets_one_line xls initial).
    reflexivity.
  - injection H as <- _ _. reflexivity.
Qed.

(** C3, as amended: for every entry list (non-empty or not), [write_sql]
    emits exactly one table-creation statement; its columns are exactly
    id, klasa, dzien, godzina_start, godzina_koniec, przedmiot, sheet,
    sheet_row, sheet_col, in this order; it is followed by one insert
    statement per entry, and nothing else follows it. *)
Theorem write_sql_statements (now : pystr) (rs : list entry) :
  length (filter is_create (write_sql now rs)) = 1
  /\ create_columns (write_sql now rs) = sql_columns
  /\ exists head,
       write_sql now rs = head ++ insert_lines 1 rs
       /\ filter is_create head
          = [U "CREATE TABLE IF NOT EXISTS plan (" ++ [LF]]
       /\ filter is_insert head = []
       /\ length (insert_lines 1 rs) = length rs
       /\ Forall (fun w => is_insert w = true) (insert_lines 1 rs).
Proof.
  split; [rewrite write_sql_creates; reflexivity|].
  split; [apply write_sql_columns|].
  exists (preamble now).
  split; [apply write_sql_split|].
  split; [apply preamble_one_create|].
  split; [apply preamble_no_insert|].
  split; [apply insert_lines_length|].
  apply Forall_forall. intros w H.
  rewrite <- insert_lines_filter in H. apply filter_In in H as [_ H]. exact H.
Qed.

(** C3, as stated, fails: the columns of the table are not named class,
    weekday, start_time, end_time and subject. *)
Lemma write_sql_column_names :
  create_columns (write_sql (U "2025-09-01T08:00:00") two_lessons)
  = [U "id"; U "klasa"; U "dzien"; U "godzina_start"; U "godzina_koniec";
     U "przedmiot"; U "sheet"; U "sheet_row"; U "sheet_col"]
  /\ ~ In (U "class")
          (create_columns (write_sql (U "2025-09-01T08:00:00") two_lessons)).
Proof.
  split; [vm_compute; reflexivity|].
  vm_compute. intros H.
  repeat (destruct H as [H|H]; [discriminate H|]). exact H.
Qed.

(** C8: the [INSERT] statements that [write_sql] emits carry the ids 1, 2,
    3, ... in the order of the entries, whatever the entries hold: the
    statement of the k-th entry (counted from 1) is written with id k; for
    a list of 2 entries the ids are 1 and 2, and the script has exactly
    one [CREATE TABLE IF NOT EXISTS] statement and exactly 2 [INSERT]
    statements.  A statement is counted where it is written: the strings
    passed to [f.write] that begin with the keyword.  The last part reads
    the statements off the lines of the file text instead, which agrees
    whenever the timestamp and the fields copied as they are hold no
    newline. *)
Theorem write_sql_ids (now : pystr) (rs : list entry) :
  map insert_id (filter is_insert (write_sql now rs))
  = map Some (seq 1 (length rs))
  /\ (forall k r,
        nth_error rs k = Some r ->
        nth_error (filter is_insert (write_sql now rs)) k
        = Some (insert_line (k + 1) r)
        /\ insert_id (insert_line (k + 1) r) = Some (k + 1))
  /\ (forall r1 r2,
        map insert_id (filter is_insert (write_sql now [r1; r2]))
        = [Some 1; Some 2]
        /\ length (filter is_create (write_sql now [r1; r2])) = 1
        /\ length (filter is_insert (write_sql now [r1; r2])) = 2)
  /\ (no_LF now = true -> forallb one_line rs = true ->
      let ls := lines (script_text (write_sql now rs)) in
      length (filter is_create ls) = 1
      /\ length (filter is_insert ls) = length rs
      /\ map insert_id (filter is_insert ls) = map Some (seq 1 (length rs))).
Proof.
  split; [|split; [|split]].
  4: { intros Hn Hrs.
       destruct (script_statements now rs Hn Hrs) as (C & I & J).
       cbv zeta. rewrite C. auto. }
  - rewrite write_sql_inserts. apply insert_lines_ids.
  - intros k r H. split; [|apply insert_line_id].
    rewrite write_sql_inserts, (insert_lines_nth rs 1 k r H).
    do 2 f_equal. lia.
  - intros r1 r2.
    rewrite write_sql_creates, write_sql_inserts, insert_lines_ids.
    repeat split.
Qed.

Lemma write_sql_ids_witness :
  nth_error (filter is_insert
               (write_sql (U "2025-09-01T08:00:00") two_lessons)) 1
  = Some (insert_line 2
            (lesson (U "Arkusz1") (U "Wtorek") (U "Physics") 3))
  /\ insert_id
       (insert_line 2 (lesson (U "Arkusz1") (U "Wtorek") (U "Physics") 3))
     = Some 2.
Proof.
  apply (proj1 (proj2 (write_sql_ids (U "2025-09-01T08:00:00") two_lessons))
               1 (lesson (U "Arkusz1") (U "Wtorek") (U "Physics") 3)).
  reflexivity.
Defined.

(** ** Times out of range *)

(** C10: [normalize_time] checks no range: every input made of 1 or 2
    decimal digits, a colon and 2 decimal digits, with or without white
    space around it, is accepted; "99:99" gives "99:99:00"; such a value
    goes from a time row through the plan into the [TIME] literals of the
    [INSERT] statement as it is. *)
Theorem normalize_time_no_range_check :
  (forall ws1 ws2 h m,
      forallb isspace ws1 = true -> forallb isspace ws2 = true ->
      forallb isdigit h = true -> forallb isdigit m = true ->
      length h = 1 \/ length h = 2 -> length m = 2 ->
      normalize_time (ws1 ++ (h ++ U ":" ++ m) ++ ws2)
      = Some (format_02d (int h) ++ U ":" ++ m ++ U ":00"))
  /\ normalize_time (U "99:99") = Some (U "99:99:00")
  /\ fst (parse_excel_to_plan
            (one_sheet [header_row 0 5; pon_row; bad_time_row])
            (U "plan.xlsx"))
     = Ok ([bad_lesson], [])
  /\ insert_line 1 bad_lesson
     = U "INSERT INTO plan (id, klasa, dzien, godzina_start, godzina_koniec, przedmiot, sheet, sheet_row, sheet_col) VALUES (1, '1AT', 'Poniedziałek', '99:99:00', '99:99:00', 'Math', 'Arkusz1', 3, 2);"
       ++ [LF]
  /\ (forall i r, exists pre post,
        insert_line i r
        = pre ++ U "'" ++ start r ++ U "', '" ++ end_ r ++ U "', " ++ post).
Proof.
  split; [|split; [|split; [|split]]].
  2-4: vm_compute; reflexivity.
  - intros ws1 ws2 h m H1 H2 Hh Hm Lh Lm.
    destruct m as [|c [|d [|? ?]]]; try discriminate Lm.
    cbn [forallb] in Hm. apply andb_prop in Hm as [Hc Hm].
    apply andb_prop in Hm as [Hd _].
    rewrite normalize_time_split.
    destruct Lh as [Lh|Lh].
    + destruct h as [|a [|? ?]]; try discriminate Lh.
      cbn [forallb] in Hh. apply andb_prop in Hh as [Ha _].
      change ([a] ++ U ":" ++ [c; d]) with (a :: [colon; c] ++ [d]).
      rewrite strip_padded by auto using digit_not_space.
      cbn [app split_hmm]. rewrite Ha, Hc, Hd, N.eqb_refl. reflexivity.
    + destruct h as [|a [|b [|? ?]]]; try discriminate Lh.
      cbn [forallb] in Hh. apply andb_prop in Hh as [Ha Hh].
      apply andb_prop in Hh as [Hb _].
      change ([a; b] ++ U ":" ++ [c; d]) with (a :: [b; colon; c] ++ [d]).
      rewrite strip_padded by auto using digit_not_space.
      cbn [app split_hmm]. rewrite Ha, Hb, Hc, Hd, N.eqb_refl. reflexivity.
  - intros i r. unfold insert_line.
    exists (U "INSERT INTO plan (id, klasa, dzien, godzina_start, godzina_koniec, przedmiot, sheet, sheet_row, sheet_col) "
            ++ U "VALUES (" ++ str_int i ++ U ", '"
            ++ escape_sql (Some (klasa r)) ++ U "', '"
            ++ escape_sql (Some (dzien r)) ++ U "', ").
    eexists. rewrite <- !app_assoc. do 6 f_equal.
    reflexivity.
Qed.

Lemma normalize_time_no_range_check_witness :
  normalize_time (U " " ++ (U "99" ++ U ":" ++ U "99") ++ U "  ")
  = Some (format_02d (int (U "99")) ++ U ":" ++ U "99" ++ U ":00").
Proof.
  apply (proj1 normalize_time_no_range_check
               (U " ") (U "  ") (U "99") (U "99"));
    try reflexivity.
  right; reflexivity.
Defined.


(** * Further properties *)

(** ** The matcher *)

(** A successful repetition took some [n] characters of the class,
    within its bounds, and the continuation succeeded after them. *)
Lemma rep_sound (A : Type) p (k : nat -> pystr -> option A) :
  forall s lo hi i r,
    Re.rep p lo hi i s k = Some r ->
    exists n,
      lo <= n /\ (forall h, hi = Some h -> n <= h) /\ n <= length s
      /\ forallb p (firstn n s) = true
      /\ k (i + n) (skipn n s) = Some r.
Proof.
  assert (Stop : forall s lo hi i r,
             match lo with O => k i s | S _ => None end = Some r ->
             exists n,
               lo <= n /\ (forall h, hi = Some h -> n <= h) /\ n <= length s
               /\ forallb p (firstn n s) = true
               /\ k (i + n) (skipn n s) = Some r).
  { intros s lo hi i r H. destruct lo; [|discriminate].
    exists 0. rewrite Nat.add_0_r. repeat split; auto; lia. }
  induction s as [|c s IH]; intros lo hi i r H.
  - apply Stop. exact H.
  - cbn [Re.rep] in H.
    destruct (p c && negb match hi with Some 0 => true | _ => false end)
             eqn:E; [|apply Stop; exact H].
    apply andb_prop in E as [Ec Eh].
    destruct (Re.rep p (pred lo) (option_map pred hi) (S i) s k) as [a|] eqn:R;
      [|apply Stop; exact H].
    injection H as <-.
    apply IH in R as (n & Hlo & Hhi & Hlen & Hp & Hk).
    exists (S n). cbn [firstn forallb skipn length]. rewrite Ec, Hp.
    replace (i + S n) with (S i + n) by lia.
    repeat split; auto; try lia.
    intros h ->. destruct h as [|h]; [discriminate Eh|].
    specialize (Hhi h eq_refl). lia.
Qed.

(** When the longest run of the class is within the bounds and the
    continuation succeeds after it, that is the match. *)
Lemma rep_longest (A : Type) p (k : nat -> pystr -> option A) :
  forall l rest lo hi i r,
    forallb p l = true ->
    match rest with d :: _ => p d = false | [] => True end ->
    lo <= length l -> (forall h, hi = Some h -> length l <= h) ->
    k (i + length l) rest = Some r ->
    Re.rep p lo hi i (l ++ rest) k = Some r.
Proof.
  induction l as [|c l IH]; intros rest lo hi i r Hp Hrest Hlo Hhi Hk.
  - cbn [length] in *. rewrite Nat.add_0_r in Hk.
    assert (lo = 0) by lia. subst lo. cbn [app].
    destruct rest as [|d rest]; cbn [Re.rep]; [exact Hk|].
    rewrite Hrest. exact Hk.
  - cbn [forallb] in Hp. apply andb_prop in Hp as [Hc Hp].
    cbn [app Re.rep]. rewrite Hc.
    assert (Eh : match hi with Some 0 => true | _ => false end = false).
    { destruct hi as [[|h]|]; try reflexivity.
      specialize (Hhi 0 eq_refl). cbn [length] in Hhi. lia. }
    rewrite Eh. cbn [andb negb].
    rewrite (IH rest (pred lo) (option_map pred hi) (S i) r); auto.
    + cbn [length] in Hlo. lia.
    + intros h E. destruct hi as [h'|]; [|discriminate].
      injection E as <-. specialize (Hhi h' eq_refl). cbn [length] in Hhi.
      lia.
    + cbn [length] in Hk. replace (S i + length l) with (i + S (length l))
        by lia. exact Hk.
Qed.

(** A repetition before a continuation that cannot fail succeeds as soon
    as enough characters of the class are there. *)
Lemma rep_total (A : Type) p (k : nat -> pystr -> option A) :
  (forall j t, k j t <> None) ->
  forall l rest lo hi i,
    forallb p l = true -> lo <= length l ->
    (forall h, hi = Some h -> lo <= h) ->
    Re.rep p lo hi i (l ++ rest) k <> None.
Proof.
  intros Hk.
  assert (Z : forall s hi i, Re.rep p 0 hi i s k <> None).
  { induction s as [|c s IH]; intros hi i; cbn [Re.rep]; [apply Hk|].
    destruct (p c && _); [|apply Hk].
    destruct (Re.rep p (pred 0) (option_map pred hi) (S i) s k) eqn:E;
      [discriminate|apply Hk]. }
  induction l as [|c l IH]; intros rest lo hi i Hp Hlo Hhi.
  - cbn [length] in Hlo. assert (lo = 0) by lia. subst. apply Z.
  - cbn [forallb] in Hp. apply andb_prop in Hp as [Hc Hp].
    destruct lo as [|lo]; [apply Z|].
    cbn [app Re.rep]. rewrite Hc.
    destruct hi as [[|h]|]; cbn [andb negb option_map pred].
    + specialize (Hhi 0 eq_refl). lia.
    + destruct (Re.rep p lo (Some h) (S i) (l ++ rest) k) eqn:E;
        [discriminate|]. exfalso. revert E. apply IH; auto.
      * cbn [length] in Hlo. lia.
      * intros h' E'. injection E' as <-. specialize (Hhi (S h) eq_refl). lia.
    + destruct (Re.rep p lo None (S i) (l ++ rest) k) eqn:E;
        [discriminate|]. exfalso. revert E. apply IH; auto.
      * cbn [length] in Hlo. lia.
      * discriminate.
Qed.

Lemma rep_longest_map (A B : Type) (f : A -> B) p
      (k : nat -> pystr -> option A) l rest lo hi i v :
  forallb p l = true ->
  match rest with d :: _ => p d = false | [] => True end ->
  lo <= length l -> (forall h, hi = Some h -> length l <= h) ->
  option_map f (k (i + length l) rest) = Some v ->
  option_map f (Re.rep p lo hi i (l ++ rest) k) = Some v.
Proof.
  intros Hp Hr Hlo Hhi H.
  destruct (k (i + length l) rest) as [r|] eqn:E; [|discriminate].
  rewrite (rep_longest A p k l rest lo hi i r); auto.
Qed.

Lemma run_cat (A : Type) r1 r2 i s gs
      (k : nat -> pystr -> list pystr -> option A) :
  Re.run (r1 ;; r2) i s gs k
  = Re.run r1 i s gs (fun j t gs' => Re.run r2 j t gs' k).
Proof. reflexivity. Qed.

Lemma run_rep (A : Type) p lo hi i s gs
      (k : nat -> pystr -> list pystr -> option A) :
  Re.run (Rep p lo hi) i s gs k = Re.rep p lo hi i s (fun j t => k j t gs).
Proof. reflexivity. Qed.


Lemma cls_sound (A : Type) p i s gs (k : nat -> pystr -> list pystr -> option A) r :
  Re.run (Cls p) i s gs k = Some r ->
  exists c s', s = c :: s' /\ p c = true /\ k (S i) s' gs = Some r.
Proof.
  cbn [Re.run]. destruct s as [|c s']; [discriminate|].
  destruct (p c) eqn:E; [|discriminate]. intros H. exists c, s'. auto.
Qed.

Lemma firstn_skipn_eq (s : pystr) n : s = firstn n s ++ skipn n s.
Proof. symmetry. apply firstn_skipn. Qed.

Lemma forallb_firstn_le (p : N -> bool) (s : pystr) :
  forall n m, m <= n -> forallb p (firstn n s) = true ->
              forallb p (firstn m s) = true.
Proof.
  induction s as [|c s IH]; intros n m Hle H.
  - rewrite firstn_nil. reflexivity.
  - destruct m as [|m]; [reflexivity|]. destruct n as [|n]; [lia|].
    cbn [firstn forallb] in *. apply andb_prop in H as [-> H].
    apply (IH n m); [lia|exact H].
Qed.

Lemma header_sound cell m :
  Re.match_ HEADER_CLASS_RE cell = Some m ->
  exists h, header_wf h = true /\ header_text h = cell
            /\ Re.group m 1 = h_token h.
Proof.
  unfold Re.match_, Re.match_at, HEADER_CLASS_RE, star, plus, between.
  cbn [Re.run Nat.eqb]. intros H.
  apply rep_sound in H as (n1 & _ & _ & L1 & P1 & H).
  remember (skipn n1 cell) as s1 eqn:E1.
  apply rep_sound in H as (n2 & Lo2 & _ & L2 & P2 & H).
  remember (skipn n2 s1) as s2 eqn:E2.
  apply rep_sound in H as (n3 & _ & _ & L3 & P3 & H).
  remember (skipn n3 s2) as s3 eqn:E3.
  destruct s3 as [|d s4]; [discriminate|].
  destruct (dash d) eqn:Hd; [|discriminate].
  apply rep_sound in H as (n4 & _ & _ & L4 & P4 & H).
  remember (skipn n4 s4) as s5 eqn:E5.
  apply rep_sound in H as (n5 & Lo5 & Hi5 & L5 & P5 & H).
  remember (skipn n5 s5) as s6 eqn:E6.
  destruct s6 as [|p1 s7]; [discriminate|].
  destruct (is_ (ch ".") p1) eqn:Hp1; [|discriminate].
  apply rep_sound in H as (n6 & Lo6 & Hi6 & L6 & P6 & H).
  remember (skipn n6 s7) as s8 eqn:E8.
  destruct s8 as [|p2 s9]; [discriminate|].
  destruct (is_ (ch ".") p2) eqn:Hp2; [|discriminate].
  apply rep_sound in H as (n7 & Lo7 & _ & L7 & P7 & H).
  injection H as <-.
  apply N.eqb_eq in Hp1, Hp2. subst p1 p2.
  specialize (Hi5 2 eq_refl). specialize (Hi6 2 eq_refl).
  exists {| h_lead := firstn n1 cell; h_token := firstn n2 s1;
            h_gap1 := firstn n3 s2; h_dash := d; h_gap2 := firstn n4 s4;
            h_day := firstn n5 s5; h_month := firstn n6 s7;
            h_year := firstn 2 s9; h_tail := skipn 2 s9 |}.
  assert (T1 : cell = firstn n1 cell ++ s1)
    by (subst s1; apply firstn_skipn_eq).
  assert (T2 : s1 = firstn n2 s1 ++ s2) by (subst s2; apply firstn_skipn_eq).
  assert (T3 : s2 = firstn n3 s2 ++ d :: s4)
    by (rewrite E3; apply firstn_skipn_eq).
  assert (T4 : s4 = firstn n4 s4 ++ s5) by (subst s5; apply firstn_skipn_eq).
  assert (T5 : s5 = firstn n5 s5 ++ ch "." :: s7)
    by (rewrite E6; apply firstn_skipn_eq).
  assert (T6 : s7 = firstn n6 s7 ++ ch "." :: s9)
    by (rewrite E8; apply firstn_skipn_eq).
  split; [|split].
  - unfold header_wf, is_class_token, one_or_two_digits.
    cbn [h_lead h_token h_gap1 h_dash h_gap2 h_day h_month h_year h_tail].
    rewrite !length_firstn.
    repeat (apply andb_true_intro; split); auto.
    + destruct (firstn n2 s1) eqn:F; [|reflexivity].
      apply (f_equal (@length N)) in F. rewrite length_firstn in F.
      cbn [length] in F. lia.
    + apply Nat.leb_le. lia.
    + apply Nat.leb_le. lia.
    + apply Nat.leb_le. lia.
    + apply Nat.leb_le. lia.
    + apply (forallb_firstn_le isdigit s9 n7 2); [lia|exact P7].
    + apply Nat.eqb_eq. lia.
  - unfold header_text.
    cbn [h_lead h_token h_gap1 h_dash h_gap2 h_day h_month h_year h_tail].
    rewrite (firstn_skipn 2 s9).
    change (U ".") with [ch "."]. cbn [app]. rewrite <- T6, <- T5, <- T4, <- T3, <- T2, <- T1. reflexivity.
  - unfold Re.group. cbn [Re.groups nth app h_token].
    f_equal. lia.
Qed.

Lemma class_char_not_space c : class_char c = true -> isspace c = false.
Proof.
  unfold class_char, none_of, any_of. cbn [existsb].
  rewrite negb_true_iff. intros H. apply orb_false_elim in H as [H _].
  exact H.
Qed.

Lemma dash_not_class_char c : dash c = true -> class_char c = false.
Proof.
  unfold class_char, none_of, any_of. cbn [existsb]. intros ->.
  rewrite orb_true_r. reflexivity.
Qed.

Lemma space_not_class_char c : isspace c = true -> class_char c = false.
Proof.
  unfold class_char, none_of, any_of. cbn [existsb]. intros ->. reflexivity.
Qed.

Lemma dash_not_space c : dash c = true -> isspace c = false.
Proof.
  unfold dash, any_of, is_. cbn [existsb]. rewrite orb_false_r.
  intros H. apply orb_prop in H as [H|H]; apply N.eqb_eq in H; subst c;
    reflexivity.
Qed.

(** The last part of the header pattern, [\d{2,4}], before the end of
    the match. *)
Lemma year_match (A : Type) (f : nat -> A) i year tail :
  forallb isdigit year = true -> length year = 2 ->
  exists j,
    Re.rep isdigit 2 (Some 4) i (year ++ tail) (fun j _ => Some (f j))
    = Some (f j).
Proof.
  intros Hy Hl.
  destruct (Re.rep isdigit 2 (Some 4) i (year ++ tail)
                   (fun j _ => Some (f j))) as [r|] eqn:E.
  - apply rep_sound in E as (n & _ & _ & _ & _ & E). injection E as <-.
    eexists. reflexivity.
  - exfalso. revert E. apply rep_total; auto; try discriminate; try lia.
    intros h E. injection E as <-. lia.
Qed.

(** The greedy match of a cell that has the parts of a header. *)
Lemma header_complete h :
  header_wf h = true ->
  option_map (fun m => Re.group m 1)
             (Re.match_ HEADER_CLASS_RE (header_text h))
  = Some (h_token h).
Proof.
  unfold header_wf, is_class_token, one_or_two_digits.
  rewrite !andb_true_iff, !Nat.leb_le, Nat.eqb_eq.
  intros [[[[[[[[Hl [Ht1 Ht2]] Hg1] Hd] Hg2] [[Hday Hday1] Hday2]]
             [[Hmon Hmon1] Hmon2]] Hy] Hy2].
  destruct h as [lead token gap1 d gap2 day month year tail].
  cbn [h_lead h_token h_gap1 h_dash h_gap2 h_day h_month h_year h_tail] in *.
  unfold header_text.
  cbn [h_lead h_token h_gap1 h_dash h_gap2 h_day h_month h_year h_tail].
  unfold Re.match_, Re.match_at, HEADER_CLASS_RE, star, plus, between.
  cbn [Re.run Nat.eqb].
  change (U ".") with [ch "."].
  apply rep_longest_map; auto; try lia; try discriminate.
  { destruct token as [|c token]; [discriminate Ht1|].
    cbn [app forallb] in *. apply andb_prop in Ht2 as [Hc _].
    apply class_char_not_space, Hc. }
  apply rep_longest_map; auto; try lia; try discriminate.
  { destruct gap1 as [|c gap1]; cbn [app forallb] in *.
    - apply dash_not_class_char, Hd.
    - apply andb_prop in Hg1 as [Hc _]. apply space_not_class_char, Hc. }
  { destruct token; [discriminate Ht1|]. cbn [length]. lia. }
  apply rep_longest_map; auto; try lia; try discriminate.
  { cbn [app]. apply dash_not_space, Hd. }
  cbn [app]. rewrite Hd.
  apply rep_longest_map; auto; try lia; try discriminate.
  { destruct day as [|c day]; [cbn [length] in Hday1; lia|].
    cbn [app forallb] in *. apply andb_prop in Hday as [Hc _].
    apply digit_not_space, Hc. }
  apply rep_longest_map; auto; try lia.
  { intros x E. injection E as <-. exact Hday2. }
  cbn [app]. replace (is_ (ch ".") (ch ".")) with true by reflexivity.
  apply rep_longest_map; auto; try lia.
  { intros x E. injection E as <-. exact Hmon2. }
  cbn [app]. replace (is_ (ch ".") (ch ".")) with true by reflexivity.
  match goal with
  | |- option_map _ (Re.rep _ _ _ ?i _ (fun j _ => Some (@?f j))) = _ =>
      destruct (year_match _ f i year tail Hy Hy2) as [j ->]
  end.
  cbn [option_map Re.group Re.groups nth app]. f_equal.
  match goal with
  | |- firstn ?n _ = _ => replace n with (length token + 0) by lia
  end.
  rewrite firstn_app_2, firstn_O, app_nil_r. reflexivity.
Qed.



(** ** The time pattern *)

(** What the group [(\d{1,2}:\d{2})] captures is in H:MM or HH:MM form. *)
Lemma hh_mm_sound (A : Type) i s gs
      (k : nat -> pystr -> list pystr -> option A) r :
  Re.run (Grp HH_MM) i s gs k = Some r ->
  exists g rest j,
    is_hmm g = true /\ s = g ++ rest /\ k j rest (gs ++ [g]) = Some r.
Proof.
  unfold HH_MM, between. cbn [Re.run]. intros H.
  apply rep_sound in H as (n1 & Lo1 & Hi1 & L1 & P1 & H).
  specialize (Hi1 2 eq_refl).
  destruct (skipn n1 s) as [|x s2] eqn:E1; [discriminate|].
  destruct (is_ (ch ":") x) eqn:Hx; [|discriminate].
  rewrite is_colon in Hx.
  apply rep_sound in H as (n2 & Lo2 & Hi2 & L2 & P2 & H).
  specialize (Hi2 2 eq_refl). assert (n2 = 2) by lia. subst n2.
  replace (S (i + n1) + 2 - i) with (n1 + 3) in H by lia.
  exists (firstn (n1 + 3) s), (skipn 2 s2), (S (i + n1) + 2).
  split; [|split; [|exact H]].
  - unfold is_hmm.
    destruct n1 as [|[|[|n1]]]; try lia.
    + destruct s as [|a s]; [discriminate|].
      cbn [skipn] in E1. subst s.
      destruct s2 as [|c [|d s2]]; cbn [length] in L2; try lia.
      cbn [firstn forallb Nat.add] in *. unfold split_hmm.
      apply andb_prop in P1 as [-> _]. apply andb_prop in P2 as [-> P2].
      apply andb_prop in P2 as [-> _]. rewrite Hx. reflexivity.
    + destruct s as [|a [|b s]]; try discriminate.
      cbn [skipn] in E1. subst s.
      destruct s2 as [|c [|d s2]]; cbn [length] in L2; try lia.
      cbn [firstn forallb Nat.add] in *. unfold split_hmm.
      apply andb_prop in P1 as [-> P1]. apply andb_prop in P1 as [-> _].
      apply andb_prop in P2 as [-> P2]. apply andb_prop in P2 as [-> _].
      rewrite Hx. reflexivity.
  - rewrite (firstn_skipn_eq s (n1 + 3)) at 1. f_equal.
    replace (n1 + 3) with (2 + (1 + n1)) by lia.
    rewrite <- !skipn_skipn. rewrite E1. reflexivity.
Qed.

Lemma time_match_sound i s m :
  Re.match_at TIME_RE i s = Some m ->
  exists g1 g2,
    Re.groups m = [g1; g2] /\ is_hmm g1 = true /\ is_hmm g2 = true.
Proof.
  unfold Re.match_at, TIME_RE. rewrite run_cat. intros H.
  apply hh_mm_sound in H as (g1 & s1 & j1 & G1 & _ & H).
  unfold star in H. rewrite run_cat, run_rep in H.
  apply rep_sound in H as (n1 & _ & _ & _ & _ & H).
  rewrite run_cat in H.
  apply cls_sound in H as (d & s2 & _ & _ & H).
  rewrite run_cat, run_rep in H.
  apply rep_sound in H as (n2 & _ & _ & _ & _ & H).
  apply hh_mm_sound in H as (g2 & s3 & j2 & G2 & _ & H).
  injection H as <-. exists g1, g2. auto.
Qed.

Lemma time_search_sound s :
  forall i m,
    Re.search_from TIME_RE i s = Some m ->
    exists g1 g2,
      Re.groups m = [g1; g2] /\ is_hmm g1 = true /\ is_hmm g2 = true.
Proof.
  induction s as [|c s IH]; intros i m; cbn [Re.search_from].
  - destruct (Re.match_at TIME_RE i []) eqn:E; [|discriminate].
    intros H; injection H as <-. eapply time_match_sound; eauto.
  - destruct (Re.match_at TIME_RE i (c :: s)) eqn:E.
    + intros H; injection H as <-. eapply time_match_sound; eauto.
    + apply IH.
Qed.

(** A text in H:MM or HH:MM form is not changed by [strip]. *)
Lemma is_hmm_strip g : is_hmm g = true -> strip g = g.
Proof.
  unfold is_hmm. destruct (split_hmm g) as [[h m]|] eqn:E; [|discriminate].
  intros _.
  apply split_hmm_shape in E
    as (c & d & _ & Hc & Hd & [(a & _ & Ha & ->)|(a & b & _ & Ha & Hb & ->)]).
  - apply (strip_padded [] [] a [colon; c] d); auto using digit_not_space.
  - apply (strip_padded [] [] a [b; colon; c] d); auto using digit_not_space.
Qed.

Lemma normalize_time_is_hmm g :
  is_hmm g = true ->
  exists out, normalize_time g = Some out /\ is_HH_MM_00 out = true.
Proof.
  intros H. rewrite normalize_time_split, (is_hmm_strip g H).
  unfold is_hmm in H.
  destruct (split_hmm g) as [[h m]|] eqn:E; [|discriminate].
  exists (hh_mm_00 (h, m)). split; [reflexivity|].
  apply (hh_mm_00_shape _ _ _ E).
Qed.

Lemma HH_MM_00_truthy out : is_HH_MM_00 out = true -> truthy out = true.
Proof. destruct out; [discriminate|reflexivity]. Qed.



(** ** What was recorded before is carried over *)

Lemma prepend_fresh st :
  st = prepend (plan st) (errors st) (log st) (fresh st).
Proof.
  destruct st. unfold prepend, fresh. cbn. rewrite !app_nil_r. reflexivity.
Qed.

Section Frame.
Variables (p : list entry) (e l : list pystr).

Lemma plan_append_prepend x st :
  plan_append x (prepend p e l st) = prepend p e l (plan_append x st).
Proof. unfold plan_append, prepend. cbn. rewrite app_assoc. reflexivity. Qed.

Lemma errors_append_prepend x st :
  errors_append x (prepend p e l st) = prepend p e l (errors_append x st).
Proof. unfold errors_append, prepend. cbn. rewrite app_assoc. reflexivity. Qed.

Lemma log_append_prepend x st :
  log_append x (prepend p e l st) = prepend p e l (log_append x st).
Proof. unfold log_append, prepend. cbn. rewrite app_assoc. reflexivity. Qed.

Lemma add_subjects_prepend sheetname i cells c s en items :
  forall st,
    add_subjects sheetname i cells c s en items (prepend p e l st)
    = prepend p e l (add_subjects sheetname i cells c s en items st).
Proof.
  induction items as [|[col_idx weekday] rest IH]; intros st; [reflexivity|].
  cbn [add_subjects].
  destruct (nth_error cells col_idx) as [cell|]; [|apply IH].
  destruct (truthy (strip cell)); [|apply IH].
  rewrite plan_append_prepend. apply IH.
Qed.

Lemma class_header_prepend sheetname i cells st :
  class_header sheetname i cells (prepend p e l st)
  = prepend p e l (class_header sheetname i cells st).
Proof.
  unfold class_header.
  destruct (first_match (Re.match_ HEADER_CLASS_RE) 0 cells) as [[k m]|];
    [|reflexivity].
  cbv zeta. unfold set_cols, set_class, log_append, prepend. cbn.
  rewrite app_assoc. reflexivity.
Qed.

Lemma time_row_prepend sheetname i cells st :
  time_row sheetname i cells (prepend p e l st)
  = prepend p e l (time_row sheetname i cells st).
Proof.
  unfold time_row.
  destruct (first_match (Re.search TIME_RE) 0 cells) as [[k m]|];
    [|reflexivity].
  cbv zeta.
  change (current_class (prepend p e l st)) with (current_class st).
  destruct (opt_truthy (current_class st)).
  - change (weekday_cols (prepend p e l st)) with (weekday_cols st).
    destruct (dict_truthy (weekday_cols st)); cbn [negb];
      [|apply errors_append_prepend].
    destruct (normalize_time (Re.group m 1)) as [s|];
      [|apply errors_append_prepend].
    destruct (normalize_time (Re.group m 2)) as [en|];
      [|apply errors_append_prepend].
    destruct (truthy s && truthy en); [|apply errors_append_prepend].
    change (current_class (prepend p e l st)) with (current_class st).
    apply add_subjects_prepend.
  - change (set_class (Some (U "UNKNOWN")) (prepend p e l st))
      with (prepend p e l (set_class (Some (U "UNKNOWN")) st)).
    rewrite errors_append_prepend.
    set (st1 := errors_append _ (set_class (Some (U "UNKNOWN")) st)).
    change (weekday_cols (prepend p e l st1)) with (weekday_cols st1).
    destruct (dict_truthy (weekday_cols st1)); cbn [negb];
      [|apply errors_append_prepend].
    destruct (normalize_time (Re.group m 1)) as [s|];
      [|apply errors_append_prepend].
    destruct (normalize_time (Re.group m 2)) as [en|];
      [|apply errors_append_prepend].
    destruct (truthy s && truthy en); [|apply errors_append_prepend].
    change (current_class (prepend p e l st1)) with (current_class st1).
    apply add_subjects_prepend.
Qed.

Lemma process_row_prepend sheetname i cells st :
  process_row sheetname i cells (prepend p e l st)
  = prepend p e l (process_row sheetname i cells st).
Proof.
  unfold process_row. cbv zeta. rewrite class_header_prepend.
  set (st1 := class_header sheetname i cells st).
  change (weekday_cols (prepend p e l st1)) with (weekday_cols st1).
  destruct (negb (dict_truthy (weekday_cols st1)) && _).
  - change (set_cols ?d (prepend p e l st1))
      with (prepend p e l (set_cols d st1)).
    apply log_append_prepend.
  - apply time_row_prepend.
Qed.

Lemma scan_rows_prepend sheetname df :
  forall i st,
    scan_rows sheetname i df (prepend p e l st)
    = prepend p e l (scan_rows sheetname i df st).
Proof.
  induction df as [|cells rest IH]; intros i st; [reflexivity|].
  cbn [scan_rows]. rewrite process_row_prepend. apply IH.
Qed.
End Frame.


(** X: a row only appends.  The state after a row is the state that the
    row yields from nothing recorded, with the plan, the warnings and the
    log of before in front, unchanged; what the row adds depends on the
    current class and the weekday mapping only. *)
Theorem process_row_appends (sheetname : pystr) (i : nat)
        (cells : list pystr) (st : vars) :
  process_row sheetname i cells st
  = prepend (plan st) (errors st) (log st)
            (process_row sheetname i cells (fresh st)).
Proof. rewrite (prepend_fresh st) at 1. apply process_row_prepend. Qed.

Lemma process_sheet_outputs sh st :
  plan (process_sheet sh st) = plan st ++ sheet_plan sh
  /\ errors (process_sheet sh st) = errors st ++ sheet_errors sh
  /\ log (process_sheet sh st) = log st ++ sheet_log sh.
Proof.
  unfold sheet_plan, sheet_errors, sheet_log, process_sheet.
  destruct sh as [sheetname [df|e]]; cbn [fst snd].
  - replace (set_cols [] (set_class None st))
      with (prepend (plan st) (errors st) (log st)
                    (set_cols [] (set_class None initial))).
    + rewrite scan_rows_prepend. repeat split; reflexivity.
    + unfold prepend, set_cols, set_class, initial. cbn.
      rewrite !app_nil_r. reflexivity.
  - cbn [plan errors log errors_append initial].
    rewrite !app_nil_r. repeat split; reflexivity.
Qed.

Lemma scan_sheets_outputs xls :
  forall st,
    plan (scan_sheets xls st) = plan st ++ flat_map sheet_plan xls
    /\ errors (scan_sheets xls st) = errors st ++ flat_map sheet_errors xls
    /\ log (scan_sheets xls st) = log st ++ flat_map sheet_log xls.
Proof.
  unfold scan_sheets.
  induction xls as [|sh xls IH]; intros st; cbn [fold_left flat_map].
  - rewrite !app_nil_r. auto.
  - destruct (IH (process_sheet sh st)) as (P & E & L).
    destruct (process_sheet_outputs sh st) as (P1 & E1 & L1).
    rewrite P, E, L, P1, E1, L1, <- !app_assoc. auto.
Qed.

(** With the workbook opened, the three outputs are those of its sheets
    in turn. *)
Lemma opened_outputs (pd_ExcelFile : pystr -> result ExcelFile)
      (path : pystr) (xls : ExcelFile) :
  pd_ExcelFile path = Ok xls ->
  parse_excel_to_plan pd_ExcelFile path
  = (Ok (flat_map sheet_plan xls, flat_map sheet_errors xls),
     flat_map sheet_log xls).
Proof.
  intros H. unfold parse_excel_to_plan. rewrite H.
  destruct (scan_sheets_outputs xls initial) as (-> & -> & ->).
  reflexivity.
Qed.

(** X: the result for a workbook is the results of its sheets, each
    processed alone, one after another: no class, weekday mapping, entry
    or warning of one sheet has any effect on what another sheet yields. *)
Theorem workbook_by_sheets (pd_ExcelFile : pystr -> result ExcelFile)
        (path : pystr) (xls : ExcelFile) :
  pd_ExcelFile path = Ok xls ->
  parse_excel_to_plan pd_ExcelFile path
  = (Ok (flat_map sheet_plan xls, flat_map sheet_errors xls),
     flat_map sheet_log xls).
Proof. apply opened_outputs. Qed.

Lemma workbook_by_sheets_witness :
  parse_excel_to_plan (one_sheet [header_row 0 5; pon_row; lesson_row])
                      (U "plan.xlsx")
  = (Ok (flat_map sheet_plan
                  [(U "Arkusz1", Ok [header_row 0 5; pon_row; lesson_row])],
         flat_map sheet_errors
                  [(U "Arkusz1", Ok [header_row 0 5; pon_row; lesson_row])]),
     flat_map sheet_log
              [(U "Arkusz1", Ok [header_row 0 5; pon_row; lesson_row])]).
Proof.
  apply (workbook_by_sheets
           (one_sheet [header_row 0 5; pon_row; lesson_row])
           (U "plan.xlsx")
           [(U "Arkusz1", Ok [header_row 0 5; pon_row; lesson_row])]).
  reflexivity.
Defined.

Lemma sheet_raise sheetname e :
  sheet_plan (sheetname, Raise e) = []
  /\ sheet_errors (sheetname, Raise e) = [unreadable sheetname e]
  /\ sheet_log (sheetname, Raise e) = [].
Proof.
  unfold sheet_plan, sheet_errors, sheet_log, process_sheet, unreadable.
  cbn [fst snd plan errors log errors_append initial app]. auto.
Qed.

(** X: a sheet that cannot be read adds one warning, which names the
    sheet and gives the message, and nothing else: the entries and the
    log are those of the workbook without that sheet, and so are the
    other warnings, in their places. *)
Theorem unreadable_sheet_skipped (xls1 xls2 : ExcelFile)
        (sheetname e : pystr) (path : pystr) :
  parse_excel_to_plan
    (fun _ => Ok (xls1 ++ (sheetname, Raise e) :: xls2)) path
  = (Ok (flat_map sheet_plan (xls1 ++ xls2),
         flat_map sheet_errors xls1 ++ [unreadable sheetname e]
         ++ flat_map sheet_errors xls2),
     flat_map sheet_log (xls1 ++ xls2))
  /\ parse_excel_to_plan (fun _ => Ok (xls1 ++ xls2)) path
     = (Ok (flat_map sheet_plan (xls1 ++ xls2),
            flat_map sheet_errors xls1 ++ flat_map sheet_errors xls2),
        flat_map sheet_log (xls1 ++ xls2)).
Proof.
  destruct (sheet_raise sheetname e) as (P & E & L).
  split.
  - rewrite (opened_outputs
               (fun _ => Ok (xls1 ++ (sheetname, Raise e) :: xls2)) path
               (xls1 ++ (sheetname, Raise e) :: xls2) eq_refl).
    rewrite !flat_map_app. cbn [flat_map]. rewrite P, E, L. reflexivity.
  - rewrite (opened_outputs (fun _ => Ok (xls1 ++ xls2)) path
               (xls1 ++ xls2) eq_refl).
    rewrite !flat_map_app. reflexivity.
Qed.



(** ** The warnings of a row *)

Lemma first_match_some f cells :
  forall i k m,
    first_match f i cells = Some (k, m) ->
    exists cell, nth_error cells (k - i) = Some cell /\ f cell = Some m
                 /\ i <= k.
Proof.
  induction cells as [|cell rest IH]; intros i k m; [discriminate|].
  cbn [first_match]. destruct (f cell) as [m'|] eqn:E.
  - intros H; injection H as <- <-. exists cell.
    rewrite Nat.sub_diag. auto.
  - intros H. apply IH in H as (c & H1 & H2 & H3). exists c.
    replace (k - i) with (S (k - S i)) by lia. cbn [nth_error]. auto with arith.
Qed.

Lemma add_subjects_keeps sheetname i cells c s e items :
  forall st,
    let st' := add_subjects sheetname i cells c s e items st in
    errors st' = errors st /\ log st' = log st
    /\ current_class st' = current_class st.
Proof.
  induction items as [|[col_idx weekday] rest IH]; intros st; [auto|].
  cbn [add_subjects]. cbv zeta.
  destruct (nth_error cells col_idx) as [cell|]; [|apply IH].
  destruct (truthy (strip cell)); [|apply IH].
  destruct (IH (plan_append
                  {| klasa := c; dzien := weekday; start := s; end_ := e;
                     przedmiot := escape_sql (Some (strip cell));
                     sheet := sheetname; row := i + 1; col := col_idx + 1 |}
                  st)) as (E & L & C).
  cbv zeta in E, L, C. rewrite E, L, C. auto.
Qed.

(** The time pattern only finds times that [normalize_time] accepts. *)
Lemma time_search_normalizes cell m :
  Re.search TIME_RE cell = Some m ->
  exists s e,
    normalize_time (Re.group m 1) = Some s
    /\ normalize_time (Re.group m 2) = Some e
    /\ is_HH_MM_00 s = true /\ is_HH_MM_00 e = true.
Proof.
  intros H. apply time_search_sound in H as (g1 & g2 & G & H1 & H2).
  unfold Re.group. rewrite G. cbn [nth].
  destruct (normalize_time_is_hmm g1 H1) as (s & -> & Hs).
  destruct (normalize_time_is_hmm g2 H2) as (e & -> & He).
  exists s, e. auto.
Qed.

Lemma time_row_errors sheetname i cells st :
  errors (time_row sheetname i cells st)
  = errors st
    ++ (if has_time cells
        then time_warnings sheetname i (current_class st) (weekday_cols st)
        else []).
Proof.
  unfold time_row, has_time, time_warnings.
  destruct (first_match (Re.search TIME_RE) 0 cells) as [[k m]|] eqn:F;
    [|rewrite app_nil_r; reflexivity].
  apply first_match_some in F as (cell & _ & F & _).
  destruct (time_search_normalizes cell m F) as (s & e & -> & -> & Hs & He).
  rewrite (HH_MM_00_truthy s Hs), (HH_MM_00_truthy e He). cbn [andb].
  cbv zeta. fold (where_ sheetname i).
  destruct (opt_truthy (current_class st)) eqn:C.
  - destruct (dict_truthy (weekday_cols st)); cbn [negb app].
    + destruct (add_subjects_keeps sheetname i cells
                  match current_class st with Some c => c | None => [] end
                  s e (weekday_cols st) st) as (E & _).
      rewrite E, app_nil_r. reflexivity.
    + reflexivity.
  - cbn [weekday_cols errors_append set_class].
    destruct (dict_truthy (weekday_cols st)); cbn [negb app].
    + match goal with
      | |- errors (add_subjects ?a ?b ?c ?d ?e ?f ?g ?h) = _ =>
          destruct (add_subjects_keeps a b c d e f g h) as (E & _)
      end.
      rewrite E. reflexivity.
    + cbn [errors errors_append set_class]. rewrite <- app_assoc. reflexivity.
Qed.

(** X: the time pattern only finds times that [normalize_time] accepts,
    so the branch "zły format godziny" is never taken: a row adds no
    warning when it holds no time range, and otherwise at most the
    warning for a missing class followed by at most the warning for a
    missing weekday row. *)
Theorem time_row_warnings :
  (forall cell m,
      Re.search TIME_RE cell = Some m ->
      exists s e,
        normalize_time (Re.group m 1) = Some s
        /\ normalize_time (Re.group m 2) = Some e
        /\ is_HH_MM_00 s = true /\ is_HH_MM_00 e = true)
  /\ (forall sheetname i cells st,
        errors (time_row sheetname i cells st)
        = errors st
          ++ (if has_time cells
              then time_warnings sheetname i
                                 (current_class st) (weekday_cols st)
              else [])).
Proof. split; [apply time_search_normalizes|apply time_row_errors]. Qed.

Lemma time_row_warnings_witness :
  exists s e,
    normalize_time (Re.group time_match_example 1) = Some s
    /\ normalize_time (Re.group time_match_example 2) = Some e
    /\ is_HH_MM_00 s = true /\ is_HH_MM_00 e = true.
Proof.
  apply (proj1 time_row_warnings (U "lekcja 7:10 – 7:55 sala 3")).
  vm_compute. reflexivity.
Defined.

(** ** The class of a sheet *)

Lemma class_header_class sheetname i cells st :
  match first_match (Re.match_ HEADER_CLASS_RE) 0 cells with
  | Some (_, m) =>
      current_class (class_header sheetname i cells st)
      = Some (Re.group m 1)
      /\ is_class_token (Re.group m 1) = true
      /\ weekday_cols (class_header sheetname i cells st) = []
  | None => class_header sheetname i cells st = st
  end
  /\ plan (class_header sheetname i cells st) = plan st
  /\ errors (class_header sheetname i cells st) = errors st.
Proof.
  unfold class_header.
  destruct (first_match (Re.match_ HEADER_CLASS_RE) 0 cells) as [[k m]|] eqn:F;
    [|auto].
  apply first_match_some in F as (cell & _ & F & _).
  apply header_sound in F as (h & W & _ & ->).
  repeat split. unfold header_wf in W. rewrite !andb_true_iff in W.
  tauto.
Qed.

Lemma is_class_token_truthy c : is_class_token c = true -> truthy c = true.
Proof. unfold is_class_token. intros H. apply andb_prop in H. tauto. Qed.

Lemma time_row_class sheetname i cells st :
  current_class (time_row sheetname i cells st)
  = if has_time cells && negb (opt_truthy (current_class st))
    then Some (U "UNKNOWN") else current_class st.
Proof.
  unfold time_row, has_time.
  destruct (first_match (Re.search TIME_RE) 0 cells) as [[k m]|];
    [|reflexivity].
  cbv zeta. cbn [andb].
  destruct (opt_truthy (current_class st)); cbn [negb].
  - destruct (dict_truthy (weekday_cols st)); cbn [negb]; [|reflexivity].
    destruct (normalize_time (Re.group m 1)) as [s|]; [|reflexivity].
    destruct (normalize_time (Re.group m 2)) as [e|]; [|reflexivity].
    destruct (truthy s && truthy e); [|reflexivity].
    apply add_subjects_keeps.
  - cbn [weekday_cols errors_append set_class].
    destruct (dict_truthy (weekday_cols st)); cbn [negb]; [|reflexivity].
    destruct (normalize_time (Re.group m 1)) as [s|]; [|reflexivity].
    destruct (normalize_time (Re.group m 2)) as [e|]; [|reflexivity].
    destruct (truthy s && truthy e); [|reflexivity].
    match goal with
    | |- current_class (add_subjects ?a ?b ?c ?d ?e ?f ?g ?h) = _ =>
        destruct (add_subjects_keeps a b c d e f g h) as (_ & _ & E)
    end.
    rewrite E. reflexivity.
Qed.






(** ** The entries of a row *)

Lemma add_subjects_plan sheetname i cells c s e items :
  forall st,
    exists new,
      plan (add_subjects sheetname i cells c s e items st) = plan st ++ new
      /\ forall r,
           In r new ->
           exists col_idx weekday cell,
             In (col_idx, weekday) items
             /\ nth_error cells col_idx = Some cell
             /\ truthy (strip cell) = true
             /\ r = subject_entry sheetname i c s e col_idx weekday cell.
Proof.
  induction items as [|[col_idx weekday] rest IH]; intros st.
  - exists []. cbn [add_subjects]. rewrite app_nil_r. split; [auto|].
    intros r [].
  - cbn [add_subjects].
    destruct (nth_error cells col_idx) as [cell|] eqn:N.
    2:{ destruct (IH st) as (new & P & H). exists new. split; [exact P|].
        intros r Hr. destruct (H r Hr) as (k & w & x & I & R).
        exists k, w, x. split; [right; exact I|exact R]. }
    destruct (truthy (strip cell)) eqn:T.
    2:{ destruct (IH st) as (new & P & H). exists new. split; [exact P|].
        intros r Hr. destruct (H r Hr) as (k & w & x & I & R).
        exists k, w, x. split; [right; exact I|exact R]. }
    match goal with
    | |- context [plan_append ?x st] =>
        destruct (IH (plan_append x st)) as (new & P & H);
          exists (x :: new)
    end.
    split.
    + rewrite P. cbn [plan plan_append]. rewrite <- app_assoc. reflexivity.
    + intros r [<-|Hr].
      * exists col_idx, weekday, cell. repeat split; auto. left; reflexivity.
      * destruct (H r Hr) as (k & w & x & I & R).
        exists k, w, x. split; [right; exact I|exact R].
Qed.

(** What a time row adds to the plan. *)
Lemma time_row_plan sheetname i cells st :
  exists new,
    plan (time_row sheetname i cells st) = plan st ++ new
    /\ forall r,
         In r new ->
         exists k m s e col_idx weekday cell,
           first_match (Re.search TIME_RE) 0 cells = Some (k, m)
           /\ normalize_time (Re.group m 1) = Some s
           /\ normalize_time (Re.group m 2) = Some e
           /\ In (col_idx, weekday) (weekday_cols st)
           /\ nth_error cells col_idx = Some cell
           /\ truthy (strip cell) = true
           /\ r = subject_entry sheetname i
                    (if opt_truthy (current_class st)
                     then match current_class st with
                          | Some c => c
                          | None => []
                          end
                     else U "UNKNOWN")
                    s e col_idx weekday cell.
Proof.
  assert (Z : exists new : list entry,
             plan st = plan st ++ new /\
             forall r, In r new ->
               exists k m s e col_idx weekday cell,
                 first_match (Re.search TIME_RE) 0 cells = Some (k, m)
                 /\ normalize_time (Re.group m 1) = Some s
                 /\ normalize_time (Re.group m 2) = Some e
                 /\ In (col_idx, weekday) (weekday_cols st)
                 /\ nth_error cells col_idx = Some cell
                 /\ truthy (strip cell) = true
                 /\ r = subject_entry sheetname i
                          (if opt_truthy (current_class st)
                           then match current_class st with
                                | Some c => c
                                | None => []
                                end
                           else U "UNKNOWN")
                          s e col_idx weekday cell).
  { exists []. rewrite app_nil_r. split; [reflexivity|]. intros r []. }
  unfold time_row.
  destruct (first_match (Re.search TIME_RE) 0 cells) as [[k m]|] eqn:F;
    [|exact Z].
  cbv zeta.
  destruct (opt_truthy (current_class st)) eqn:C.
  - destruct (dict_truthy (weekday_cols st)); cbn [negb]; [|exact Z].
    destruct (normalize_time (Re.group m 1)) as [s|] eqn:Ns; [|exact Z].
    destruct (normalize_time (Re.group m 2)) as [e|] eqn:Ne; [|exact Z].
    destruct (truthy s && truthy e); [|exact Z].
    match goal with
    | |- context [add_subjects ?a ?b ?c ?d ?e ?f ?g ?h] =>
        destruct (add_subjects_plan a b c d e f g h) as (new & P & H)
    end.
    exists new. split; [exact P|]. intros r Hr.
    destruct (H r Hr) as (ci & w & x & I & N & T & R).
    exists k, m, s, e, ci, w, x. auto 10.
  - cbn [weekday_cols errors_append set_class plan current_class].
    destruct (dict_truthy (weekday_cols st)); cbn [negb plan]; [|exact Z].
    destruct (normalize_time (Re.group m 1)) as [s|] eqn:Ns; [|exact Z].
    destruct (normalize_time (Re.group m 2)) as [e|] eqn:Ne; [|exact Z].
    destruct (truthy s && truthy e); [|exact Z].
    match goal with
    | |- context [add_subjects ?a ?b ?c ?d ?e ?f ?g ?h] =>
        destruct (add_subjects_plan a b c d e f g h) as (new & P & H)
    end.
    exists new. split; [exact P|]. intros r Hr.
    destruct (H r Hr) as (ci & w & x & I & N & T & R).
    exists k, m, s, e, ci, w, x. auto 10.
Qed.



(** ** Where the entries come from *)

Lemma weekday_items_named cells :
  forall idx, cols_named (weekday_items idx cells).
Proof.
  induction cells as [|cell rest IH]; intros idx; [constructor|].
  cbn [weekday_items]. destruct (cell_weekday cell) as [wd|] eqn:E;
    [|apply IH].
  constructor; [|apply IH]. cbn [snd]. apply in_map.
  unfold cell_weekday in E. destruct (truthy cell); [|discriminate].
  unfold match_weekday in E. apply find_some in E as [E _]. exact E.
Qed.

Lemma find_weekday_columns_named cells :
  cols_named (find_weekday_columns cells).
Proof.
  rewrite find_weekday_columns_items.
  destruct (3 <=? count_weekday_cells cells);
    [apply weekday_items_named|constructor].
Qed.

Lemma process_row_scan_ok sheetname df i cells st :
  nth_error df i = Some cells ->
  scan_ok sheetname df st ->
  scan_ok sheetname df (process_row sheetname i cells st).
Proof.
  intros Hrow (Hc & Hd & Hp). unfold process_row. cbv zeta.
  set (st1 := class_header sheetname i cells st).
  assert (H1 : scan_ok sheetname df st1).
  { destruct (class_header_class sheetname i cells st) as (C & P & _).
    fold st1 in C, P. unfold scan_ok. rewrite P.
    destruct (first_match (Re.match_ HEADER_CLASS_RE) 0 cells) as [[k m]|].
    - destruct C as (-> & T & ->). repeat split; auto. constructor.
    - rewrite C. auto. }
  clearbody st1. clear Hc Hd Hp st. destruct H1 as (Hc & Hd & Hp).
  destruct (negb (dict_truthy (weekday_cols st1)) && _) eqn:B.
  - repeat split; auto. cbn [weekday_cols log_append set_cols].
    apply andb_prop in B as [B _]. rewrite B.
    apply find_weekday_columns_named.
  - repeat split.
    + rewrite time_row_class.
      destruct (has_time cells && negb (opt_truthy (current_class st1)));
        [reflexivity|exact Hc].
    + rewrite time_row_cols. exact Hd.
    + destruct (time_row_plan sheetname i cells st1) as (new & -> & H).
      apply Forall_app. split; [exact Hp|].
      apply Forall_forall. intros r Hr.
      destruct (H r Hr) as (k & m & s & e & ci & w & x & F & Ns & Ne & I
                            & N & T & ->).
      unfold entry_from, subject_entry.
      cbn [sheet klasa dzien row col przedmiot start end_].
      split; [reflexivity|]. split.
      { destruct (current_class st1) as [c|]; cbn [opt_truthy class_ok] in *.
        - destruct (truthy c); [exact Hc|reflexivity].
        - reflexivity. }
      split.
      { unfold cols_named in Hd. rewrite Forall_forall in Hd.
        apply (Hd (ci, w) I). }
      split; [lia|]. split; [lia|].
      exists cells, x, k, m.
      replace (i + 1 - 1) with i by lia. replace (ci + 1 - 1) with ci by lia.
      auto 10.
Qed.

Lemma scan_rows_scan_ok sheetname df rest :
  forall pre st,
    df = pre ++ rest ->
    scan_ok sheetname df st ->
    scan_ok sheetname df (scan_rows sheetname (length pre) rest st).
Proof.
  induction rest as [|cells rest IH]; intros pre st E H; [exact H|].
  cbn [scan_rows].
  replace (S (length pre)) with (length (pre ++ [cells]))
    by (rewrite length_app; cbn [length]; lia).
  apply IH.
  - rewrite <- app_assoc. exact E.
  - apply process_row_scan_ok; [|exact H]. subst df.
    rewrite nth_error_app2 by lia. rewrite Nat.sub_diag. reflexivity.
Qed.

Lemma sheet_plan_from sheetname df :
  Forall (entry_from sheetname df) (sheet_plan (sheetname, Ok df)).
Proof.
  unfold sheet_plan, process_sheet. cbn [fst snd].
  apply (scan_rows_scan_ok sheetname df df []); [reflexivity|].
  repeat split; constructor.
Qed.

(** X: every entry of the plan is backed by a cell of a sheet of the
    workbook: the sheet it names has, in the row and column it names
    (counted from 1), a cell whose trimmed text is not empty and, escaped,
    is its subject; the first time range of that row normalizes to its
    start and end; its class is a non-empty text without white space or
    dash, and its weekday one of the five capitalized names. *)
Theorem entries_come_from_cells
        (pd_ExcelFile : pystr -> result ExcelFile) (path : pystr)
        (xls : ExcelFile) (rs : list entry) (errs log_ : list pystr) :
  pd_ExcelFile path = Ok xls ->
  parse_excel_to_plan pd_ExcelFile path = (Ok (rs, errs), log_) ->
  forall r,
    In r rs ->
    exists df, In (sheet r, Ok df) xls /\ entry_from (sheet r) df r.
Proof.
  intros Hx H r Hr.
  rewrite (opened_outputs pd_ExcelFile path xls Hx) in H.
  injection H as <- _ _.
  apply in_flat_map in Hr as ([sheetname [df|e]] & Hs & Hr).
  - pose proof (sheet_plan_from sheetname df) as F.
    rewrite Forall_forall in F. specialize (F r Hr).
    assert (E : sheet r = sheetname) by apply F.
    rewrite E. exists df. auto.
  - destruct (sheet_raise sheetname e) as (P & _). rewrite P in Hr.
    destruct Hr.
Qed.



(** ** Rows in sequence *)

Lemma time_row_no_cols sheetname i cells st :
  weekday_cols st = [] -> plan (time_row sheetname i cells st) = plan st.
Proof.
  intros H. destruct (time_row_plan sheetname i cells st) as (new & -> & N).
  destruct new as [|r new]; [apply app_nil_r|].
  destruct (N r (or_introl eq_refl))
    as (k & m & s & e & ci & w & x & _ & _ & _ & I & _).
  rewrite H in I. destruct I.
Qed.

Lemma process_row_header_row sheetname i cells st :
  has_header cells = true -> find_weekday_columns cells = [] ->
  weekday_cols (process_row sheetname i cells st) = []
  /\ plan (process_row sheetname i cells st) = plan st
  /\ class_known (process_row sheetname i cells st) = true.
Proof.
  intros Hh Hw. unfold process_row. cbv zeta.
  destruct (class_header_class sheetname i cells st) as (C & P & _).
  unfold has_header in Hh.
  destruct (first_match (Re.match_ HEADER_CLASS_RE) 0 cells) as [[k m]|];
    [|discriminate].
  destruct C as (C & T & W). rewrite W, Hw. cbn [dict_truthy negb andb].
  rewrite time_row_cols, W, time_row_no_cols, P by exact W.
  repeat split. unfold class_known. rewrite time_row_class, C.
  cbn [opt_truthy]. rewrite (is_class_token_truthy _ T), andb_false_r.
  cbn [opt_truthy]. apply is_class_token_truthy, T.
Qed.

Lemma class_header_none sheetname i cells st :
  has_header cells = false -> class_header sheetname i cells st = st.
Proof.
  unfold has_header, class_header.
  destruct (first_match (Re.match_ HEADER_CLASS_RE) 0 cells) as [[k m]|];
    [discriminate|reflexivity].
Qed.

(** X: a class header resets the weekday mapping.  After a row with a
    class header that is not itself a weekday row, the mapping is empty
    and that row has added no entry; a time row that follows it before a
    new weekday row adds no entry either, only the warning for a missing
    weekday row. *)
Theorem header_resets_weekdays (sheetname : pystr) (i : nat)
        (cells1 cells2 : list pystr) (st : vars) :
  has_header cells1 = true -> find_weekday_columns cells1 = [] ->
  has_header cells2 = false -> find_weekday_columns cells2 = [] ->
  has_time cells2 = true ->
  weekday_cols (process_row sheetname i cells1 st) = []
  /\ plan (process_row sheetname i cells1 st) = plan st
  /\ plan (process_row sheetname (S i) cells2
             (process_row sheetname i cells1 st)) = plan st
  /\ errors (process_row sheetname (S i) cells2
               (process_row sheetname i cells1 st))
     = errors (process_row sheetname i cells1 st)
       ++ [warn_no_days sheetname (S i)].
Proof.
  intros Hh1 Hw1 Hh2 Hw2 Ht2.
  destruct (process_row_header_row sheetname i cells1 st Hh1 Hw1)
    as (W & P & K).
  set (st1 := process_row sheetname i cells1 st) in *. clearbody st1.
  split; [exact W|]. split; [exact P|].
  unfold process_row. cbv zeta. rewrite (class_header_none _ _ _ _ Hh2).
  rewrite W, Hw2. cbn [dict_truthy negb andb].
  rewrite time_row_no_cols, time_row_errors, Ht2 by exact W.
  split; [exact P|]. unfold time_warnings. unfold class_known in K.
  rewrite K, W. reflexivity.
Qed.

(** X: a time row met before any class header, when a weekday mapping is
    active, puts the class UNKNOWN in and gives one warning; every entry
    it adds has the class UNKNOWN. *)
Theorem time_row_without_class (sheetname : pystr) (i : nat)
        (cells : list pystr) (st : vars) :
  current_class st = None -> dict_truthy (weekday_cols st) = true ->
  has_header cells = false -> has_time cells = true ->
  current_class (process_row sheetname i cells st) = Some (U "UNKNOWN")
  /\ errors (process_row sheetname i cells st)
     = errors st ++ [warn_no_class sheetname i]
  /\ exists new,
       plan (process_row sheetname i cells st) = plan st ++ new
       /\ Forall (fun r => klasa r = U "UNKNOWN") new.
Proof.
  intros Hc D Hh Ht. unfold process_row. cbv zeta.
  rewrite (class_header_none _ _ _ _ Hh).
  rewrite D. cbn [negb andb].
  rewrite time_row_class, time_row_errors, Ht, Hc. cbn [opt_truthy negb andb].
  unfold time_warnings. rewrite D. cbn [opt_truthy app].
  split; [reflexivity|]. split; [reflexivity|].
  destruct (time_row_plan sheetname i cells st) as (new & P & N).
  exists new. split; [exact P|]. apply Forall_forall. intros r Hr.
  destruct (N r Hr) as (k & m & s & e & ci & w & x & _ & _ & _ & _ & _ & _
                        & ->).
  rewrite Hc. reflexivity.
Qed.



(** ** More on [escape_sql] *)

Lemma lstrip_fix s : head_space s = false -> lstrip s = s.
Proof. destruct s as [|c s]; [reflexivity|]. cbn. intros ->. reflexivity. Qed.

Lemma strip_fix s :
  head_space s = false -> last_space s = false -> strip s = s.
Proof.
  intros H L. unfold strip, rstrip. rewrite (lstrip_fix s H).
  rewrite (lstrip_fix (rev s) L). apply rev_involutive.
Qed.

Lemma lstrip_head_space s : head_space (lstrip s) = false.
Proof.
  destruct (lstrip s) as [|c r] eqn:E; [reflexivity|].
  cbn. eapply lstrip_head; eauto.
Qed.

Lemma lstrip_keeps_last s :
  last_space s = false -> last_space (lstrip s) = false.
Proof.
  destruct (lstrip_suffix s) as (ws & E & W).
  unfold last_space. intros H. rewrite E in H. rewrite rev_app_distr in H.
  destruct (rev (lstrip s)) as [|c r]; [reflexivity|]. exact H.
Qed.

Lemma strip_trimmed s :
  head_space (strip s) = false /\ last_space (strip s) = false.
Proof.
  unfold strip, rstrip, last_space. rewrite rev_involutive.
  split; [|apply lstrip_head_space].
  pose proof (lstrip_keeps_last (rev (lstrip s))) as H.
  unfold last_space in H. rewrite rev_involutive in H.
  apply H. apply lstrip_head_space.
Qed.

Lemma squeeze_head b s : head_space s = false ->
  head_space (squeeze b s) = false /\ squeeze b s = squeeze false s.
Proof.
  destruct s as [|c s]; [auto|]. cbn [head_space squeeze]. intros H.
  rewrite H. cbn [head_space]. auto.
Qed.

Lemma squeeze_snoc s c :
  isspace c = false ->
  forall b, squeeze b (s ++ [c]) = squeeze b s ++ [c].
Proof.
  intros Hc. induction s as [|a s IH]; intros b; cbn [app squeeze].
  - rewrite Hc. reflexivity.
  - destruct (isspace a); [destruct b|]; rewrite IH; reflexivity.
Qed.

Lemma last_space_snoc s c : last_space (s ++ [c]) = isspace c.
Proof. unfold last_space. rewrite rev_app_distr. reflexivity. Qed.

Lemma last_space_cases (s : pystr) :
  s = [] \/ exists r c, s = r ++ [c].
Proof.
  destruct s as [|a s]; [left; reflexivity|right].
  assert (a :: s <> []) as H by discriminate.
  destruct (exists_last H) as (r & c & E). eauto.
Qed.

Lemma squeeze_last s :
  last_space s = false -> last_space (squeeze false s) = false.
Proof.
  destruct (last_space_cases s) as [->|(r & c & ->)]; [reflexivity|].
  rewrite last_space_snoc. intros H.
  rewrite squeeze_snoc, last_space_snoc by exact H. exact H.
Qed.

Lemma double_last q s :
  isspace q = false -> last_space (double q s) = last_space s.
Proof.
  intros Hq.
  destruct (last_space_cases s) as [->|(r & c & ->)]; [reflexivity|].
  unfold double, replace_char. rewrite flat_map_app. cbn [flat_map].
  rewrite app_nil_r, last_space_snoc.
  destruct (c =? q)%N eqn:E.
  - apply N.eqb_eq in E. subst c.
    change [q; q] with ([q] ++ [q]). rewrite app_assoc, last_space_snoc.
    reflexivity.
  - apply last_space_snoc.
Qed.

Lemma clean_trimmed s :
  head_space (clean s) = false /\ last_space (clean s) = false.
Proof.
  unfold clean.
  destruct (strip_trimmed
              (replace_char CR (U " ") (replace_char LF (U " ") s)))
    as (H & L).
  split; [apply squeeze_head, H|apply squeeze_last, L].
Qed.

Lemma escape_sql_trimmed_ends s :
  head_space (escape_sql (Some s)) = false
  /\ last_space (escape_sql (Some s)) = false.
Proof.
  rewrite escape_sql_clean. destruct (clean_trimmed s) as (H & L).
  change (replace_char quote (U "''") (clean s)) with (double quote (clean s)).
  rewrite double_head, double_last by reflexivity. auto.
Qed.

Lemma escape_sql_plain_spaces s : plain_spaces (escape_sql (Some s)) = true.
Proof.
  apply forallb_forall. intros c H.
  destruct (isspace c) eqn:E; [|reflexivity]. cbn [negb orb].
  apply escape_sql_white_space in H; [|exact E]. subst c. reflexivity.
Qed.

Lemma escape_sql_run_free s : space_run_free (escape_sql (Some s)) = true.
Proof.
  rewrite escape_sql_clean.
  apply (double_run_free quote); [reflexivity|]. apply squeeze_run_free.
Qed.

Lemma replace_char_absent a b s :
  ~ In a s -> replace_char a b s = s.
Proof.
  induction s as [|c s IH]; [reflexivity|]. intros H.
  change (replace_char a b (c :: s))
    with ((if (c =? a)%N then b else [c]) ++ replace_char a b s).
  destruct (N.eqb_spec c a) as [->|_]; [exfalso; apply H; left; reflexivity|].
  rewrite IH; [reflexivity|]. intros I. apply H. right. exact I.
Qed.

(** On a text whose white space is single space characters, [squeeze]
    changes nothing. *)
Lemma squeeze_fix s :
  plain_spaces s = true -> space_run_free s = true ->
  squeeze false s = s
  /\ (head_space s = false -> squeeze true s = s).
Proof.
  induction s as [|c s IH]; [auto|].
  cbn [plain_spaces forallb]. rewrite space_run_free_cons.
  intros P R. apply andb_prop in P as [Pc P]. apply andb_prop in R as [Rc R].
  destruct (IH P R) as (F & T). cbn [squeeze head_space].
  destruct (isspace c) eqn:E.
  - cbn [negb orb andb] in *. apply N.eqb_eq in Pc. subst c.
    apply negb_true_iff in Rc. split; [|discriminate].
    rewrite (T Rc). reflexivity.
  - rewrite F. auto.
Qed.

Lemma plain_spaces_not_In s c :
  plain_spaces s = true -> isspace c = true -> c <> ch " " -> ~ In c s.
Proof.
  intros P Hc Hn I. unfold plain_spaces in P. rewrite forallb_forall in P.
  specialize (P c I). rewrite Hc in P. cbn [negb orb] in P.
  apply N.eqb_eq in P. contradiction.
Qed.

(** The cleaning steps of [escape_sql] leave its own results as they
    are. *)
Lemma clean_escape_sql s :
  clean (escape_sql (Some s)) = escape_sql (Some s).
Proof.
  pose proof (escape_sql_plain_spaces s) as P.
  pose proof (escape_sql_run_free s) as R.
  destruct (escape_sql_trimmed_ends s) as (H & L).
  unfold clean. set (y := escape_sql (Some s)) in *.
  rewrite (replace_char_absent LF);
    [|apply (plain_spaces_not_In y LF P); [reflexivity|discriminate]].
  rewrite (replace_char_absent CR);
    [|apply (plain_spaces_not_In y CR P); [reflexivity|discriminate]].
  rewrite (strip_fix y H L). apply squeeze_fix; assumption.
Qed.

Lemma double_no_quote q s : ~ In q s -> double q s = s.
Proof. apply replace_char_absent. Qed.

Lemma count_zero_not_In (s : pystr) c :
  count_occ N.eq_dec s c = 0 <-> ~ In c s.
Proof. symmetry. apply count_occ_not_In. Qed.

(** X: the second application of [escape_sql] only doubles the quotes
    again: applied to its own result, it leaves the white space as it is
    and replaces each quote by two.  So it changes that result exactly
    when the text holds a quote. *)
Theorem escape_sql_twice (s : pystr) :
  escape_sql (Some (escape_sql (Some s)))
  = replace_char quote (U "''") (escape_sql (Some s))
  /\ (escape_sql (Some (escape_sql (Some s))) = escape_sql (Some s)
      <-> ~ In quote s).
Proof.
  assert (E : escape_sql (Some (escape_sql (Some s)))
              = replace_char quote (U "''") (escape_sql (Some s))).
  { rewrite (escape_sql_clean (escape_sql (Some s))), clean_escape_sql.
    reflexivity. }
  split; [exact E|].
  assert (C : count_occ N.eq_dec (escape_sql (Some s)) quote
              = 2 * count_occ N.eq_dec s quote).
  { rewrite escape_sql_clean.
    change (replace_char quote (U "''") (clean s))
      with (double quote (clean s)).
    rewrite double_count, count_clean; reflexivity. }
  split.
  - intros H. apply count_zero_not_In.
    apply (f_equal (fun x => count_occ N.eq_dec x quote)) in H.
    rewrite E in H.
    change (replace_char quote (U "''") (escape_sql (Some s)))
      with (double quote (escape_sql (Some s))) in H.
    rewrite double_count, C in H. lia.
  - intros H. rewrite E.
    change (replace_char quote (U "''") (escape_sql (Some s)))
      with (double quote (escape_sql (Some s))).
    apply double_no_quote. apply count_zero_not_In. rewrite C.
    apply count_zero_not_In in H. lia.
Qed.



Lemma lstrip_nil_iff s : lstrip s = [] <-> forallb isspace s = true.
Proof.
  induction s as [|c s IH]; [split; reflexivity|].
  cbn [lstrip forallb]. destruct (isspace c); [exact IH|].
  split; discriminate.
Qed.

Lemma forallb_rev (p : N -> bool) s : forallb p (rev s) = forallb p s.
Proof.
  induction s as [|c s IH]; [reflexivity|].
  cbn [rev forallb]. rewrite forallb_app, IH. cbn [forallb].
  rewrite andb_true_r. apply andb_comm.
Qed.

Lemma strip_nil_iff s : strip s = [] <-> forallb isspace s = true.
Proof.
  unfold strip, rstrip. split.
  - intros H. apply (f_equal (@rev N)) in H. rewrite rev_involutive in H.
    cbn [rev] in H. apply lstrip_nil_iff in H. rewrite forallb_rev in H.
    apply lstrip_nil_iff.
    destruct (lstrip s) as [|c r] eqn:E; [reflexivity|].
    apply lstrip_head in E. cbn [forallb] in H. rewrite E in H.
    discriminate.
  - intros H. apply lstrip_nil_iff in H. rewrite H. reflexivity.
Qed.

Lemma replace_space_all a s :
  isspace a = true ->
  forallb isspace (replace_char a (U " ") s) = forallb isspace s.
Proof.
  intros Ha. induction s as [|c s IH]; [reflexivity|].
  change (replace_char a (U " ") (c :: s))
    with ((if (c =? a)%N then U " " else [c]) ++ replace_char a (U " ") s).
  rewrite forallb_app, IH.
  destruct (N.eqb_spec c a) as [->|_].
  - replace (forallb isspace (U " ")) with true by reflexivity.
    cbn [forallb]. rewrite Ha. reflexivity.
  - cbn [forallb]. rewrite andb_true_r. reflexivity.
Qed.

Lemma squeeze_nil_iff s : squeeze false s = [] <-> s = [].
Proof.
  destruct s as [|c s]; [split; reflexivity|].
  cbn [squeeze]. destruct (isspace c); split; discriminate.
Qed.

Lemma double_nil_iff q s : double q s = [] <-> s = [].
Proof.
  destruct s as [|c s]; [split; reflexivity|].
  unfold double, replace_char. cbn [flat_map].
  destruct (c =? q)%N; split; discriminate.
Qed.

(** X: the result of [escape_sql] neither starts nor ends with white
    space; it is empty exactly when the text holds nothing but white
    space; and [escape_sql(None)] is the empty string. *)
Theorem escape_sql_trimmed (s : pystr) :
  head_space (escape_sql (Some s)) = false
  /\ last_space (escape_sql (Some s)) = false
  /\ (escape_sql (Some s) = [] <-> forallb isspace s = true)
  /\ escape_sql None = [].
Proof.
  destruct (escape_sql_trimmed_ends s) as (H & L).
  split; [exact H|]. split; [exact L|]. split; [|reflexivity].
  rewrite escape_sql_clean.
  change (replace_char quote (U "''") (clean s)) with (double quote (clean s)).
  rewrite double_nil_iff. unfold clean.
  rewrite squeeze_nil_iff, strip_nil_iff.
  rewrite !replace_space_all by reflexivity. reflexivity.
Qed.

(** ** More on [normalize_time] *)

Lemma ascii_digit_not_space c : ascii_digit c = true -> isspace c = false.
Proof.
  intros H. destruct (isspace c) eqn:E; [|reflexivity].
  apply isspace_spaces in E.
  assert (F : forallb (fun c => negb (ascii_digit c)) spaces = true)
    by reflexivity.
  rewrite forallb_forall in F. apply F in E. rewrite H in E. discriminate.
Qed.

(** X: [normalize_time] does not accept its own results: a normalized
    time, which has seconds, is not in H:MM or HH:MM form. *)
Theorem normalize_time_rejects_result (t out : pystr) :
  normalize_time t = Some out -> normalize_time out = None.
Proof.
  rewrite (normalize_time_split t).
  destruct (split_hmm (strip t)) as [[h m]|] eqn:E; [|discriminate].
  cbn [option_map]. intros H; injection H as <-.
  destruct (hh_mm_00_shape _ _ _ E) as (_ & S & _).
  destruct (hh_mm_00 (h, m))
    as [|h1 [|h2 [|c1 [|m1 [|m2 [|c2 [|z1 [|z2 [|? ?]]]]]]]]];
    try discriminate.
  unfold is_HH_MM_00 in S. rewrite !andb_true_iff in S.
  destruct S as [[[[[[[H1 _] _] _] _] _] _] H8].
  apply N.eqb_eq in H8. subst z2.
  rewrite normalize_time_split.
  replace (strip [h1; h2; c1; m1; m2; c2; z1; ch "0"])
    with [h1; h2; c1; m1; m2; c2; z1; ch "0"]; [reflexivity|].
  symmetry.
  apply (strip_padded [] [] h1 [h2; c1; m1; m2; c2; z1] (ch "0"));
    auto using ascii_digit_not_space.
Qed.

Lemma normalize_time_rejects_result_witness :
  normalize_time (U "07:10:00") = None.
Proof.
  apply (normalize_time_rejects_result (U "7:10") (U "07:10:00")).
  reflexivity.
Defined.

(** ** More on the weekday row *)

Lemma startswith_firstn (s : pystr) n : startswith s (firstn n s) = true.
Proof.
  revert n. induction s as [|c s IH]; intros [|n]; try reflexivity.
  cbn [firstn startswith]. rewrite N.eqb_refl. apply IH.
Qed.

Lemma match_weekday_prefix x :
  match_weekday x
  = find (fun wd => startswith x (firstn 3 wd)) WEEKDAYS.
Proof.
  unfold match_weekday. induction WEEKDAYS as [|wd l IH]; [reflexivity|].
  cbn [find]. rewrite IH.
  destruct (str_eqb wd x) eqn:E; [|reflexivity].
  apply str_eqb_eq in E. subst x. rewrite startswith_firstn. reflexivity.
Qed.

Lemma startswith_inv (x p : pystr) :
  startswith x p = true -> exists rest, x = p ++ rest.
Proof.
  revert x. induction p as [|a p IH]; intros x H; [exists x; reflexivity|].
  destruct x as [|b x]; [discriminate|].
  cbn [startswith] in H. apply andb_prop in H as [E H].
  apply N.eqb_eq in E. subst b. destruct (IH x H) as [rest ->].
  exists rest. reflexivity.
Qed.

(** X: a cleaned cell text is taken for a weekday exactly when it begins
    with the first three characters of that weekday's name; the test for
    the whole name adds nothing, and whatever follows the three
    characters is ignored. *)
Theorem weekday_by_prefix (x wd : pystr) :
  match_weekday x = Some wd
  <-> In wd WEEKDAYS /\ startswith x (firstn 3 wd) = true.
Proof.
  rewrite match_weekday_prefix. split.
  - intros H. apply find_some in H. exact H.
  - intros [Hin Hs]. apply startswith_inv in Hs as [rest ->].
    unfold WEEKDAYS in Hin. cbn [In] in Hin.
    assert (Z : forall s : pystr, startswith s [] = true)
      by (intros [|? ?]; reflexivity).
    repeat (destruct Hin as [<-|Hin];
            [cbn; rewrite ?Z; reflexivity|]).
    destruct Hin.
Qed.

Lemma weekday_by_prefix_witness :
  match_weekday (U "pon.–pt.") = Some (U "poniedziałek").
Proof.
  apply (proj2 (weekday_by_prefix (U "pon.–pt.") (U "poniedziałek"))).
  split; [left; reflexivity|reflexivity].
Defined.

Lemma weekday_items_sorted cells :
  forall idx,
    StronglySorted lt (keys (weekday_items idx cells))
    /\ Forall (fun k => idx <= k < idx + length cells)
              (keys (weekday_items idx cells)).
Proof.
  induction cells as [|cell rest IH]; intros idx.
  - split; constructor.
  - cbn [weekday_items length]. destruct (IH (S idx)) as (S1 & B1).
    assert (B : Forall (fun k => idx <= k < idx + S (length rest))
                       (keys (weekday_items (S idx) rest))).
    { eapply Forall_impl; [|exact B1]. cbv beta. intros k Hk. lia. }
    destruct (cell_weekday cell); [|auto].
    cbn [keys map fst]. split.
    + constructor; [exact S1|].
      eapply Forall_impl; [|exact B1]. cbv beta. intros k Hk. lia.
    + constructor; [lia|exact B].
Qed.

(** X: the mapping that [find_weekday_columns] returns lists the columns
    from left to right: its keys are strictly increasing indices of the
    row, and its values are among the five capitalized weekday names. *)
Theorem find_weekday_columns_ordered (row_values : list pystr) :
  StronglySorted lt (keys (find_weekday_columns row_values))
  /\ Forall (fun k => k < length row_values)
            (keys (find_weekday_columns row_values))
  /\ Forall (fun kv => In (snd kv) weekday_names)
            (find_weekday_columns row_values).
Proof.
  split; [|split]; [| |apply find_weekday_columns_named].
  - rewrite find_weekday_columns_items.
    destruct (3 <=? count_weekday_cells row_values); [|constructor].
    apply weekday_items_sorted.
  - rewrite find_weekday_columns_items.
    destruct (3 <=? count_weekday_cells row_values); [|constructor].
    destruct (weekday_items_sorted row_values 0) as (_ & B).
    eapply Forall_impl; [|exact B]. cbv beta. intros k Hk. lia.
Qed.



(** X: a cell is a class header exactly when it is made of optional white
    space, a class token (a non-empty text without white space, hyphen or
    en dash), optional white space, a hyphen or en dash, optional white
    space, one or two digits, a dot, one or two digits, a dot, two
    digits, and then anything; the class is the token. *)
Theorem class_header_cells (cell c : pystr) :
  (exists m, Re.match_ HEADER_CLASS_RE cell = Some m /\ Re.group m 1 = c)
  <-> (exists h,
         header_wf h = true /\ header_text h = cell /\ h_token h = c).
Proof.
  split.
  - intros (m & H & <-). apply header_sound in H as (h & W & T & G).
    exists h. auto.
  - intros (h & W & <- & <-). pose proof (header_complete h W) as H.
    destruct (Re.match_ HEADER_CLASS_RE (header_text h)) as [m|];
      [|discriminate].
    injection H as H. exists m. auto.
Qed.

Lemma class_header_cells_witness :
  exists m,
    Re.match_ HEADER_CLASS_RE (U "  2bt – 12.9.2525 (zmiana)") = Some m
    /\ Re.group m 1 = U "2bt".
Proof.
  apply (proj2 (class_header_cells (U "  2bt – 12.9.2525 (zmiana)")
                                   (U "2bt"))).
  exists header_example. repeat split; reflexivity.
Defined.


Lemma entries_come_from_cells_witness :
  exists df,
    In (sheet (lesson (U "Arkusz1") (U "Wtorek") (U "Physics") 3), Ok df)
       scenario_book
    /\ entry_from (sheet (lesson (U "Arkusz1") (U "Wtorek") (U "Physics") 3))
                  df (lesson (U "Arkusz1") (U "Wtorek") (U "Physics") 3).
Proof.
  apply (entries_come_from_cells
           (fun _ => Ok scenario_book) (U "plan.xlsx") scenario_book
           (flat_map sheet_plan scenario_book)
           (flat_map sheet_errors scenario_book)
           (flat_map sheet_log scenario_book)).
  - reflexivity.
  - vm_compute. reflexivity.
  - vm_compute. right. left. reflexivity.
Defined.

Lemma header_resets_weekdays_witness :
  weekday_cols (process_row (U "Arkusz1") 3 (header_row 0 5) known_state)
  = []
  /\ plan (process_row (U "Arkusz1") 3 (header_row 0 5) known_state)
     = plan known_state
  /\ plan (process_row (U "Arkusz1") 4 lesson_row
             (process_row (U "Arkusz1") 3 (header_row 0 5) known_state))
     = plan known_state
  /\ errors (process_row (U "Arkusz1") 4 lesson_row
               (process_row (U "Arkusz1") 3 (header_row 0 5) known_state))
     = errors (process_row (U "Arkusz1") 3 (header_row 0 5) known_state)
       ++ [warn_no_days (U "Arkusz1") 4].
Proof.
  apply (header_resets_weekdays (U "Arkusz1") 3 (header_row 0 5) lesson_row
                                known_state);
    vm_compute; reflexivity.
Defined.

Lemma time_row_without_class_witness :
  current_class (process_row (U "Arkusz1") 1 lesson_row weekdays_only_state)
  = Some (U "UNKNOWN")
  /\ errors (process_row (U "Arkusz1") 1 lesson_row weekdays_only_state)
     = errors weekdays_only_state ++ [warn_no_class (U "Arkusz1") 1]
  /\ exists new,
       plan (process_row (U "Arkusz1") 1 lesson_row weekdays_only_state)
       = plan weekdays_only_state ++ new
       /\ Forall (fun r => klasa r = U "UNKNOWN") new.
Proof.
  apply (time_row_without_class (U "Arkusz1") 1 lesson_row
                                weekdays_only_state);
    vm_compute; reflexivity.
Defined.



(** ** Reading an [INSERT] line back *)

Lemma read_quoted_double x :
  forall rest,
    match rest with c :: _ => (c =? quote)%N = false | [] => True end ->
    read_quoted (double quote x ++ quote :: rest) = Some (x, rest).
Proof.
  induction x as [|a x IH]; intros rest H.
  - cbn [double replace_char flat_map app read_quoted].
    rewrite N.eqb_refl. destruct rest as [|c rest]; [reflexivity|].
    rewrite H. reflexivity.
  - change (double quote (a :: x))
      with ((if (a =? quote)%N then [quote; quote] else [a])
            ++ double quote x).
    destruct (a =? quote)%N eqn:E.
    + apply N.eqb_eq in E. subst a. cbn [app read_quoted].
      rewrite !N.eqb_refl, (IH rest H). reflexivity.
    + cbn [app read_quoted]. rewrite E, (IH rest H). reflexivity.
Qed.

Lemma read_string_quoted x rest :
  match rest with c :: _ => (c =? quote)%N = false | [] => True end ->
  read_string (quoted (double quote x) rest) = Some (x, rest).
Proof.
  intros H. unfold quoted, read_string. rewrite N.eqb_refl.
  apply read_quoted_double, H.
Qed.

Lemma expect_app lit s : expect lit (lit ++ s) = Some s.
Proof. unfold expect. rewrite startswith_app, skipn_length_app. reflexivity. Qed.

Lemma str_int_truthy n : truthy (str_int n) = true.
Proof.
  unfold str_int. destruct (Nat.to_uint n) eqn:E; try reflexivity.
  exfalso. apply (DecimalFacts.unorm_nonnil (Nat.to_uint n)).
  rewrite <- Unsigned.to_of, Unsigned.of_to. exact E.
Qed.

Lemma read_nat_str_int n rest :
  match rest with c :: _ => ascii_digit c = false | [] => True end ->
  read_nat (str_int n ++ rest) = Some (n, rest).
Proof.
  intros H. unfold read_nat.
  assert (T : take_while ascii_digit (str_int n ++ rest) = str_int n).
  { destruct rest as [|c rest].
    - rewrite List.app_nil_r. pose proof (uint_digits_ascii (Nat.to_uint n)) as D.
      unfold str_int. induction (uint_digits (Nat.to_uint n)) as [|a l IH];
        [reflexivity|].
      cbn [forallb] in D. apply andb_prop in D as [Da D].
      cbn [take_while]. rewrite Da, IH by exact D. reflexivity.
    - apply take_while_app; [apply uint_digits_ascii|exact H]. }
  cbv zeta. rewrite T, str_int_truthy, int_str_int, skipn_length_app.
  reflexivity.
Qed.

Lemma escape_sql_double s :
  escape_sql (Some s) = double quote (clean s).
Proof. apply escape_sql_clean. Qed.

Lemma no_quote_double s : no_quote s = true -> s = double quote s.
Proof.
  intros H. symmetry. apply double_no_quote. intros I.
  unfold no_quote in H. rewrite forallb_forall in H. specialize (H _ I).
  rewrite N.eqb_refl in H. discriminate.
Qed.

(** An [INSERT] line as its id, its literals and its numbers. *)
Lemma insert_line_quoted i r :
  insert_line i r
  = insert_prefix ++ str_int i ++ U ", "
    ++ quoted (escape_sql (Some (klasa r))) (U ", "
    ++ quoted (escape_sql (Some (dzien r))) (U ", "
    ++ quoted (start r) (U ", "
    ++ quoted (end_ r) (U ", "
    ++ quoted (przedmiot r) (U ", "
    ++ quoted (escape_sql (Some (sheet r))) (U ", "
    ++ str_int (row r) ++ U ", " ++ str_int (col r) ++ U ");" ++ [LF])))))).
Proof.
  unfold insert_line, quoted.
  replace insert_prefix
    with (U "INSERT INTO plan (id, klasa, dzien, godzina_start, godzina_koniec, przedmiot, sheet, sheet_row, sheet_col) "
          ++ U "VALUES (") by (vm_compute; reflexivity).
  change (U ", '") with (U ", " ++ [quote]).
  change (U "', '") with (quote :: U ", " ++ [quote]).
  change (U "', ") with (quote :: U ", ").
  change (U "'") with [quote].
  repeat (rewrite <- ?app_assoc; cbn [app]).
  reflexivity.
Qed.

Lemma comma_not_quote (s : pystr) :
  match U ", " ++ s with c :: _ => (c =? quote)%N = false | [] => True end.
Proof. reflexivity. Qed.

Lemma comma_not_digit (s : pystr) :
  match U ", " ++ s with c :: _ => ascii_digit c = false | [] => True end.
Proof. reflexivity. Qed.

Lemma close_not_digit :
  match U ");" ++ [LF] with c :: _ => ascii_digit c = false | [] => True end.
Proof. reflexivity. Qed.

(** The reader on a line of an id, six literals and two numbers. *)
Lemma read_insert_literals i k d b e p sh r c :
  read_insert
    (insert_prefix ++ str_int i ++ U ", "
     ++ quoted (double quote k) (U ", "
     ++ quoted (double quote d) (U ", "
     ++ quoted (double quote b) (U ", "
     ++ quoted (double quote e) (U ", "
     ++ quoted (double quote p) (U ", "
     ++ quoted (double quote sh) (U ", "
     ++ str_int r ++ U ", " ++ str_int c ++ U ");" ++ [LF])))))))
  = Some (i, {| klasa := k; dzien := d; start := b; end_ := e;
                przedmiot := p; sheet := sh; row := r; col := c |}).
Proof.
  unfold read_insert.
  rewrite expect_app. cbn [bind].
  rewrite read_nat_str_int by apply comma_not_digit. cbn [bind].
  repeat (rewrite expect_app; cbn [bind];
          rewrite read_string_quoted by apply comma_not_quote; cbn [bind]).
  rewrite expect_app. cbn [bind].
  rewrite read_nat_str_int by apply comma_not_digit. cbn [bind].
  rewrite expect_app. cbn [bind].
  rewrite read_nat_str_int by apply close_not_digit. cbn [bind].
  replace (str_eqb (U ");" ++ [LF]) (U ");" ++ [LF])) with true
    by (vm_compute; reflexivity).
  reflexivity.
Qed.

Lemma read_insert_line i r subj :
  no_quote (start r) = true ->
  no_quote (end_ r) = true ->
  przedmiot r = escape_sql (Some subj) ->
  read_insert (insert_line i r)
  = Some (i, {| klasa := clean (klasa r); dzien := clean (dzien r);
                start := start r; end_ := end_ r;
                przedmiot := clean subj; sheet := clean (sheet r);
                row := row r; col := col r |}).
Proof.
  intros Hs He Hp.
  rewrite insert_line_quoted, Hp, !escape_sql_double.
  rewrite (no_quote_double (start r) Hs) at 1.
  rewrite (no_quote_double (end_ r) He) at 1.
  apply read_insert_literals.
Qed.

(** X: an [INSERT] line of the script reads back, with the quoting of
    standard SQL, as its id and the values of its entry: the class, the
    weekday and the sheet name with their white space cleaned (line breaks
    as spaces, trimmed, runs of white space as one space), the start and
    the end as they are when they hold no quote, the subject as the text
    that [escape_sql] was given (cleaned), and the row and the column;
    quotes in the class, the sheet name or the subject do not end a
    literal early. *)
Theorem insert_line_read_back (i : nat) (r : entry) (subj : pystr) :
  no_quote (start r) = true ->
  no_quote (end_ r) = true ->
  przedmiot r = escape_sql (Some subj) ->
  read_insert (insert_line i r)
  = Some (i, {| klasa := clean (klasa r); dzien := clean (dzien r);
                start := start r; end_ := end_ r;
                przedmiot := clean subj; sheet := clean (sheet r);
                row := row r; col := col r |}).
Proof. apply read_insert_line. Qed.

Lemma insert_line_read_back_witness :
  read_insert (insert_line 7 quoted_entry)
  = Some (7, {| klasa := U "1'a"; dzien := U "Wtorek"; start := U "08:00";
                end_ := U "08:45"; przedmiot := U "j. polski 'b'";
                sheet := U "Plan 'A'"; row := 4; col := 3 |}).
Proof.
  rewrite (insert_line_read_back 7 quoted_entry (U " j.  polski 'b' "));
    [ vm_compute; reflexivity
    | vm_compute; reflexivity
    | vm_compute; reflexivity
    | reflexivity ].
Defined.

(** ** The script of a parsed plan *)

(** The cleaning steps change nothing on a trimmed text whose white space
    is single space characters. *)
Lemma clean_fix y :
  plain_spaces y = true -> space_run_free y = true ->
  head_space y = false -> last_space y = false ->
  clean y = y.
Proof.
  intros P R H L. unfold clean.
  rewrite (replace_char_absent LF);
    [|apply (plain_spaces_not_In y LF P); [reflexivity|discriminate]].
  rewrite (replace_char_absent CR);
    [|apply (plain_spaces_not_In y CR P); [reflexivity|discriminate]].
  rewrite (strip_fix y H L). apply squeeze_fix; assumption.
Qed.

Lemma clean_clean s : clean (clean s) = clean s.
Proof.
  destruct (clean_trimmed s) as (H & L).
  apply clean_fix; [| |exact H|exact L].
  - apply forallb_forall. intros c I.
    destruct (isspace c) eqn:E; [|reflexivity]. cbn [negb orb].
    apply N.eqb_eq. unfold clean in I. eapply squeeze_In; eauto.
  - apply squeeze_run_free.
Qed.

Lemma space_free_head s : space_free s = true -> head_space s = false.
Proof.
  destruct s as [|c s]; [reflexivity|]. cbn [space_free forallb head_space].
  intros H. apply andb_prop in H as [H _]. apply negb_true_iff, H.
Qed.

Lemma clean_space_free s : space_free s = true -> clean s = s.
Proof.
  intros F. apply clean_fix.
  - unfold space_free in F. rewrite forallb_forall in F.
    apply forallb_forall. intros c I. rewrite (F c I). reflexivity.
  - induction s as [|c s IH]; [reflexivity|].
    rewrite space_run_free_cons. cbn [space_free forallb] in F.
    apply andb_prop in F as [Fc F]. apply negb_true_iff in Fc.
    rewrite Fc, IH by exact F. reflexivity.
  - apply space_free_head, F.
  - unfold last_space. apply space_free_head.
    unfold space_free. rewrite forallb_rev. exact F.
Qed.

Lemma class_token_space_free c : is_class_token c = true -> space_free c = true.
Proof.
  unfold is_class_token. intros H. apply andb_prop in H as [_ H].
  rewrite forallb_forall in H. apply forallb_forall. intros x I.
  apply negb_true_iff, class_char_not_space, H, I.
Qed.

Lemma weekday_name_clean d : In d weekday_names -> clean d = d.
Proof.
  intros H. apply clean_space_free.
  unfold weekday_names, WEEKDAYS in H. cbn [map In] in H.
  decompose [or] H; try contradiction; subst d; vm_compute; reflexivity.
Qed.

Lemma isdigit_not_quote c : isdigit c = true -> (c =? quote)%N = false.
Proof.
  intros H. destruct (N.eqb_spec c quote) as [->|_]; [|reflexivity].
  vm_compute in H. discriminate.
Qed.

Lemma ascii_digit_not_quote c : ascii_digit c = true -> (c =? quote)%N = false.
Proof.
  intros H. destruct (N.eqb_spec c quote) as [->|_]; [|reflexivity].
  vm_compute in H. discriminate.
Qed.

Lemma HH_MM_00_no_quote out : is_HH_MM_00 out = true -> no_quote out = true.
Proof.
  destruct out as [|h1 [|h2 [|c1 [|m1 [|m2 [|c2 [|z1 [|z2 [|x out]]]]]]]]];
    try discriminate.
  cbn [is_HH_MM_00]. rewrite !andb_true_iff, !N.eqb_eq.
  intros (((((((H1 & H2) & ->) & M1) & M2) & ->) & ->) & ->).
  cbn [no_quote forallb].
  rewrite (ascii_digit_not_quote _ H1), (ascii_digit_not_quote _ H2),
    (isdigit_not_quote _ M1), (isdigit_not_quote _ M2).
  reflexivity.
Qed.

Lemma entry_from_times sheetname df r :
  entry_from sheetname df r ->
  is_HH_MM_00 (start r) = true /\ is_HH_MM_00 (end_ r) = true.
Proof.
  intros (_ & _ & _ & _ & _ & cells & cell & k & m & _ & _ & _ & _ & F & S & E).
  apply first_match_some in F as (c & _ & F & _).
  apply time_search_normalizes in F as (s & e & S' & E' & Hs & He).
  rewrite S in S'. rewrite E in E'. injection S' as <-. injection E' as <-.
  auto.
Qed.

(** X: the [INSERT] line written for an entry of a parsed plan reads
    back, with the quoting of standard SQL, as the id of the line and the
    entry itself: the same class, weekday, start, end, row and column, the
    sheet name with its white space cleaned, and a subject whose escaped
    form is the entry's subject.  Whatever the cells and the sheet names
    hold, no literal of the line ends early. *)
Theorem parsed_plan_reads_back
        (pd_ExcelFile : pystr -> result ExcelFile) (path : pystr)
        (xls : ExcelFile) (rs : list entry) (errs log_ : list pystr) :
  pd_ExcelFile path = Ok xls ->
  parse_excel_to_plan pd_ExcelFile path = (Ok (rs, errs), log_) ->
  forall i r,
    In r rs ->
    exists e,
      read_insert (insert_line i r) = Some (i, e)
      /\ klasa e = klasa r /\ dzien e = dzien r
      /\ start e = start r /\ end_ e = end_ r
      /\ escape_sql (Some (przedmiot e)) = przedmiot r
      /\ sheet e = clean (sheet r)
      /\ row e = row r /\ col e = col r.
Proof.
  intros Hx H i r Hr.
  rewrite (opened_outputs pd_ExcelFile path xls Hx) in H.
  injection H as <- _ _.
  apply in_flat_map in Hr as ([sheetname [df|err]] & _ & Hr).
  - pose proof (sheet_plan_from sheetname df) as F.
    rewrite Forall_forall in F. specialize (F r Hr).
    destruct (entry_from_times _ _ _ F) as (Hs & He).
    destruct F as (_ & Hc & Hd & _ & _ & _ & cell & _ & _ & _ & _ & _ & Hp & _).
    rewrite (read_insert_line i r (strip cell)
               (HH_MM_00_no_quote _ Hs) (HH_MM_00_no_quote _ He) Hp).
    eexists. split; [reflexivity|]. cbn [klasa dzien start end_ przedmiot sheet row col].
    rewrite (clean_space_free _ (class_token_space_free _ Hc)).
    rewrite (weekday_name_clean _ Hd).
    rewrite Hp, !escape_sql_double, clean_clean. auto 10.
  - destruct (sheet_raise sheetname err) as (P & _). rewrite P in Hr.
    destruct Hr.
Qed.

Lemma parsed_plan_reads_back_witness :
  exists e,
    read_insert
      (insert_line 2 (lesson (U "Arkusz1") (U "Wtorek") (U "Physics") 3))
    = Some (2, e)
    /\ klasa e = klasa (lesson (U "Arkusz1") (U "Wtorek") (U "Physics") 3)
    /\ dzien e = dzien (lesson (U "Arkusz1") (U "Wtorek") (U "Physics") 3)
    /\ start e = start (lesson (U "Arkusz1") (U "Wtorek") (U "Physics") 3)
    /\ end_ e = end_ (lesson (U "Arkusz1") (U "Wtorek") (U "Physics") 3)
    /\ escape_sql (Some (przedmiot e))
       = przedmiot (lesson (U "Arkusz1") (U "Wtorek") (U "Physics") 3)
    /\ sheet e
       = clean (sheet (lesson (U "Arkusz1") (U "Wtorek") (U "Physics") 3))
    /\ row e = row (lesson (U "Arkusz1") (U "Wtorek") (U "Physics") 3)
    /\ col e = col (lesson (U "Arkusz1") (U "Wtorek") (U "Physics") 3).
Proof.
  apply (parsed_plan_reads_back
           (fun _ => Ok scenario_book) (U "plan.xlsx") scenario_book
           (flat_map sheet_plan scenario_book)
           (flat_map sheet_errors scenario_book)
           (flat_map sheet_log scenario_book)).
  - reflexivity.
  - vm_compute. reflexivity.
  - vm_compute. right. left. reflexivity.
Defined.



(** ** The window *)

(** *** Vocabulary *)

Lemma for_each_emit (A : Type) (g : A -> call) (l : list A) :
  for_each l (fun x => ([g x], Ok tt)) = (map g l, Ok tt).
Proof.
  induction l as [|x l IH]; [reflexivity|].
  cbn [for_each]. rewrite IH. reflexivity.
Qed.

Lemma parse_returns (f : pystr -> result ExcelFile) (path : pystr) :
  exists plan errors lines,
    parse_excel_to_plan f path = (Ok (plan, errors), lines).
Proof.
  unfold parse_excel_to_plan. destruct (f path); eauto.
Qed.

Lemma run_blank (w : world) :
  paths_given w = false ->
  exists message, run w = ([showerror (U "Błąd") message], Ok tt).
Proof.
  unfold paths_given, run. cbv zeta.
  destruct (truthy (strip (entry_file w))); cbn [negb andb];
    [|intros _; eexists; reflexivity].
  intros ->. cbn [negb]. eexists; reflexivity.
Qed.

(** The calls of a run with both paths given. *)
Lemma run_given (w : world) plan errors lines :
  paths_given w = true ->
  parse_excel_to_plan (workbook w) (strip (entry_file w))
  = (Ok (plan, errors), lines) ->
  run w
  = ([btn_run_config DISABLED; log_delete;
      append_log (U "Start konwersji: " ++ strip (entry_file w))]
     ++ map append_log lines
     ++ after_parse w (strip (entry_sql w)) plan errors
     ++ [btn_run_config NORMAL], Ok tt).
Proof.
  unfold paths_given. intros G P. apply andb_prop in G as [Gi Go].
  unfold run. cbv zeta. rewrite Gi, Go. cbn [negb].
  unfold run_try, parse_call. rewrite P.
  unfold after_parse, closing, summary, critical, run_except, write_sql_call.
  destruct plan as [|r plan]; destruct errors as [|er errors];
    try destruct (write_error w (strip (entry_sql w))) as [e|];
    unfold io_then, io_bind, try_except, try_finally, emit, io_ret, io_raise;
    rewrite ?(for_each_emit _ (fun e => append_log (U "! " ++ e)));
    cbn [app map fst snd];
    rewrite ?List.app_nil_r; repeat (rewrite <- List.app_assoc; cbn [app]);
    reflexivity.
Qed.

Lemma filter_map_none (A : Type) (p : call -> bool) (g : A -> call) l :
  (forall x, p (g x) = false) -> filter p (map g l) = [].
Proof.
  intros H. induction l as [|x l IH]; [reflexivity|].
  cbn [map filter]. rewrite H. exact IH.
Qed.

Lemma summary_dialog plan errors : is_dialog (summary plan errors) = true.
Proof. destruct errors; reflexivity. Qed.

Lemma dialogs_closing plan errors :
  filter is_dialog (closing plan errors) = [summary plan errors].
Proof.
  unfold closing. rewrite filter_app. cbn [filter].
  rewrite summary_dialog.
  destruct errors as [|e errors]; [reflexivity|].
  cbn [filter is_dialog].
  rewrite (filter_map_none _ is_dialog) by reflexivity. reflexivity.
Qed.

Lemma dialogs_after_parse w plan errors :
  filter is_dialog (after_parse w (strip (entry_sql w)) plan errors)
  = [outcome w plan errors].
Proof.
  unfold after_parse, outcome.
  destruct plan as [|r plan]; cbn [filter is_dialog].
  - apply dialogs_closing.
  - destruct (write_error w (strip (entry_sql w))) as [e|];
      cbn [filter is_dialog]; [reflexivity|apply dialogs_closing].
Qed.

Lemma configs_closing plan errors :
  filter is_config (closing plan errors) = [].
Proof.
  unfold closing. rewrite filter_app.
  destruct errors as [|e errors]; [reflexivity|].
  cbn [filter is_config summary].
  rewrite (filter_map_none _ is_config) by reflexivity. reflexivity.
Qed.

Lemma configs_after_parse w out plan errors :
  filter is_config (after_parse w out plan errors) = [].
Proof.
  unfold after_parse.
  destruct plan as [|r plan]; cbn [filter is_config].
  - apply configs_closing.
  - destruct (write_error w out) as [e|];
      cbn [filter is_config critical]; [reflexivity|apply configs_closing].
Qed.

Lemma writes_closing plan errors :
  filter is_open_write (closing plan errors) = [].
Proof.
  unfold closing. rewrite filter_app.
  destruct errors as [|e errors]; [reflexivity|].
  cbn [filter is_open_write summary].
  rewrite (filter_map_none _ is_open_write) by reflexivity. reflexivity.
Qed.

Lemma writes_after_parse w out plan errors :
  filter is_open_write (after_parse w out plan errors)
  = match plan with
    | [] => []
    | _ :: _ => [open_write out (write_sql (now_isoformat w) plan)]
    end.
Proof.
  unfold after_parse.
  destruct plan as [|r plan]; cbn [filter is_open_write].
  - apply writes_closing.
  - destruct (write_error w out) as [e|];
      cbn [filter is_open_write critical];
      [reflexivity|rewrite writes_closing; reflexivity].
Qed.

(** X: every run of [App.run] shows exactly one message box, and no
    exception leaves it: whatever the parser and [write_sql] do, the run
    returns. *)
Theorem run_one_dialog (w : world) :
  length (dialogs w) = 1 /\ snd (run w) = Ok tt.
Proof.
  unfold dialogs, calls. destruct (paths_given w) eqn:G.
  - destruct (parse_returns (workbook w) (strip (entry_file w)))
      as (plan & errors & lines & P).
    rewrite (run_given w plan errors lines G P). cbn [fst snd].
    split; [|reflexivity].
    cbn [app filter is_dialog]. rewrite !filter_app.
    rewrite (filter_map_none _ is_dialog) by reflexivity.
    rewrite dialogs_after_parse. reflexivity.
  - destruct (run_blank w G) as (message & ->). split; reflexivity.
Qed.

(** X: with a blank path the message box is the only call of the run:
    the button and the log are left alone and nothing is parsed or
    written.  With both paths given the run first disables the button and
    last of all enables it again, on every way through the [try], and
    touches the button nowhere between. *)
Theorem run_button_restored (w : world) :
  if paths_given w
  then exists mid,
      calls w = btn_run_config DISABLED :: mid ++ [btn_run_config NORMAL]
      /\ filter is_config mid = []
  else calls w = dialogs w /\ writes w = [].
Proof.
  unfold dialogs, writes, calls. destruct (paths_given w) eqn:G.
  - destruct (parse_returns (workbook w) (strip (entry_file w)))
      as (plan & errors & lines & P).
    rewrite (run_given w plan errors lines G P). cbn [fst app].
    exists (log_delete
            :: append_log (U "Start konwersji: " ++ strip (entry_file w))
            :: map append_log lines
            ++ after_parse w (strip (entry_sql w)) plan errors).
    split.
    + cbn [app]. rewrite <- List.app_assoc. reflexivity.
    + cbn [filter is_config]. rewrite filter_app.
      rewrite (filter_map_none _ is_config) by reflexivity.
      apply configs_after_parse.
  - destruct (run_blank w G) as (message & ->). split; reflexivity.
Qed.

(** X: [App.run] calls [write_sql] exactly when both paths are given and
    the plan that the parser returns is not empty, and then once, with the
    trimmed output path and that plan; with an empty plan no file is
    opened, so an output file from an earlier run is left as it is. *)
Theorem run_writes_plan (w : world) (plan : list entry)
        (errors lines : list pystr) :
  parse_excel_to_plan (workbook w) (strip (entry_file w))
  = (Ok (plan, errors), lines) ->
  writes w
  = match plan with
    | [] => []
    | _ :: _ =>
        if paths_given w
        then [open_write (strip (entry_sql w))
                         (write_sql (now_isoformat w) plan)]
        else []
    end.
Proof.
  intros P. unfold writes, calls. destruct (paths_given w) eqn:G.
  - rewrite (run_given w plan errors lines G P). cbn [fst app].
    cbn [filter is_open_write]. rewrite !filter_app.
    rewrite (filter_map_none _ is_open_write) by reflexivity.
    rewrite writes_after_parse. cbn [filter is_open_write app].
    rewrite List.app_nil_r. reflexivity.
  - destruct (run_blank w G) as (message & ->).
    destruct plan; reflexivity.
Qed.

Lemma run_writes_plan_witness :
  writes (desk (U " plan.xlsx ") (U "plan.sql ") (Ok scenario_book) None)
  = [open_write (U "plan.sql")
       (write_sql (U "2025-09-01T08:00:00")
                  (flat_map sheet_plan scenario_book))].
Proof.
  rewrite (run_writes_plan
             (desk (U " plan.xlsx ") (U "plan.sql ") (Ok scenario_book) None)
             (flat_map sheet_plan scenario_book)
             (flat_map sheet_errors scenario_book)
             (flat_map sheet_log scenario_book));
    vm_compute; reflexivity.
Defined.

(** X: with both paths given, the one message box of a run is the error
    [Błąd krytyczny] with the message of the exception when the plan is
    not empty and [write_sql] raises; otherwise it is the warning
    [Zakończono z uwagami] with the two counts when the parser returned
    warnings, and the information [Sukces] when it returned none, also
    when the plan is empty and nothing was written. *)
Theorem run_dialog (w : world) (plan : list entry)
        (errors lines : list pystr) :
  paths_given w = true ->
  parse_excel_to_plan (workbook w) (strip (entry_file w))
  = (Ok (plan, errors), lines) ->
  dialogs w = [outcome w plan errors].
Proof.
  intros G P. unfold dialogs, calls.
  rewrite (run_given w plan errors lines G P). cbn [fst app].
  cbn [filter is_dialog]. rewrite !filter_app.
  rewrite (filter_map_none _ is_dialog) by reflexivity.
  rewrite dialogs_after_parse. reflexivity.
Qed.

Lemma run_dialog_witness :
  dialogs (desk (U "plan.xlsx") (U "plan.sql") (Ok scenario_book)
                (Some (U "Permission denied")))
  = [showerror (U "Błąd krytyczny")
       (U "Permission denied" ++ [LF] ++ U "Szczegóły w logu.")].
Proof.
  rewrite (run_dialog
             (desk (U "plan.xlsx") (U "plan.sql") (Ok scenario_book)
                   (Some (U "Permission denied")))
             (flat_map sheet_plan scenario_book)
             (flat_map sheet_errors scenario_book)
             (flat_map sheet_log scenario_book));
    vm_compute; reflexivity.
Defined.

(** X: when the workbook cannot be opened, a run with both paths given
    is not a critical error: it logs that 0 entries were found and that
    there is nothing to write, lists the one warning of the parser,
    writes no file and ends with the warning box [Zakończono z uwagami]
    that counts 0 records and 1 remark. *)
Theorem run_open_failure (w : world) (e : pystr) :
  paths_given w = true ->
  workbook w (strip (entry_file w)) = Raise e ->
  calls w
  = [btn_run_config DISABLED; log_delete;
     append_log (U "Start konwersji: " ++ strip (entry_file w));
     append_log (U "Znaleziono 0 wpisów.");
     append_log (U "Brak wpisów do zapisania (plan pusty).");
     append_log (U "=== UWAGI ===");
     append_log (U "! Błąd otwarcia pliku: " ++ e);
     showwarning (U "Zakończono z uwagami")
                 (U "Zapisano 0 rekordów, 1 uwag.");
     btn_run_config NORMAL].
Proof.
  intros G H. unfold calls.
  rewrite (run_given w [] [U "Błąd otwarcia pliku: " ++ e] [] G)
    by (unfold parse_excel_to_plan; rewrite H; reflexivity).
  reflexivity.
Qed.

Lemma run_open_failure_witness :
  calls (desk (U "plan.xlsx") (U "plan.sql")
              (Raise (U "No such file")) None)
  = [btn_run_config DISABLED; log_delete;
     append_log (U "Start konwersji: plan.xlsx");
     append_log (U "Znaleziono 0 wpisów.");
     append_log (U "Brak wpisów do zapisania (plan pusty).");
     append_log (U "=== UWAGI ===");
     append_log (U "! Błąd otwarcia pliku: No such file");
     showwarning (U "Zakończono z uwagami")
                 (U "Zapisano 0 rekordów, 1 uwag.");
     btn_run_config NORMAL].
Proof.
  rewrite (run_open_failure
             (desk (U "plan.xlsx") (U "plan.sql")
                   (Raise (U "No such file")) None)
             (U "No such file"));
    vm_compute; reflexivity.
Defined.

